(** * Headless code-review runner ([scripts/code-reviewer.sh])

    A shallow embedding of the check runner: option parsing, the runtime
    probe, the check catalogue of the two sub-projects, the result store kept
    in four parallel text files, the three report renderers and the exit
    status of the script.

    The shell process is modelled by explicit state passing.  A command is a
    function from the state of the shell to a result and a new state; the
    result is either a value or the status handed to [exit].  Everything the
    script observes about the machine it runs on (environment variables,
    installed tools, directories, what an external command prints and
    returns) is read from a record [Env].  What a command prints is kept
    byte for byte, so that a last line without a newline is told from one
    that has it. *)

From Stdlib Require Import String Ascii List ZArith Lia Bool Arith.
From Stdlib Require Import DecimalString DecimalNat DecimalZ.
Import ListNotations.
Open Scope string_scope.

Set Implicit Arguments.

(* ====================================================================== *)
(** ** Text *)
(* ====================================================================== *)

Module Text.

(** Characters the script names explicitly. *)
Definition nl : string := String "010"%char "".
Definition dq : string := String "034"%char "".
Definition esc : string := String "027"%char "".

(** [${arr[*]}] and hand-written separators. *)
Definition join (sep : string) (l : list string) : string :=
  String.concat sep l.

(** What a sequence of [echo] commands, or a here-document, writes: every
    line is closed by a newline. *)
Definition unlines (l : list string) : string :=
  String.concat "" (map (fun x => x ++ nl) l).

(** The lines of a text as [head], [sed] and [read] see them: a line ends
    at a newline; what follows the last newline, when there is something,
    is a last line that no newline closes. *)
Fixpoint lines (s : string) : list string :=
  match s with
  | EmptyString => []
  | String c r =>
      if Ascii.eqb c "010"%char then EmptyString :: lines r
      else
        match lines r with
        | [] => [String c EmptyString]
        | l :: ls => String c l :: ls
        end
  end.

(** [head -N]: the first [N] lines of a text, byte for byte; the last of
    them has no newline when the text has none there. *)
Fixpoint head (n : nat) (s : string) {struct s} : string :=
  match s, n with
  | EmptyString, _ => EmptyString
  | _, 0 => EmptyString
  | String c r, S m =>
      String c (head (if Ascii.eqb c "010"%char then m else n) r)
  end.

(** [grep -q PATTERN FILE] for a pattern without regular-expression
    operators: some line contains the pattern. *)
Fixpoint contains (pat s : string) : bool :=
  String.prefix pat s ||
  match s with
  | EmptyString => false
  | String _ r => contains pat r
  end.

Definition grep_q (pat : string) (file : list string) : bool :=
  existsb (contains pat) file.

(** Command substitution [$(...)] drops every trailing newline of what the
    command printed. *)
Fixpoint only_newlines (s : string) : bool :=
  match s with
  | EmptyString => true
  | String c r => Ascii.eqb c "010"%char && only_newlines r
  end.

Fixpoint strip_trailing_newlines (s : string) : string :=
  match s with
  | EmptyString => EmptyString
  | String c r =>
      if only_newlines s then EmptyString
      else String c (strip_trailing_newlines r)
  end.

Definition cmd_subst (printed : string) : string :=
  strip_trailing_newlines printed.

(** [sed 's/C/REPL/g'] for a one-character pattern [C]. *)
Fixpoint sed_subst_char (c : ascii) (repl : string) (s : string) : string :=
  match s with
  | EmptyString => EmptyString
  | String d r =>
      if Ascii.eqb d c then repl ++ sed_subst_char c repl r
      else String d (sed_subst_char c repl r)
  end.

(** Decimal text of shell integers. *)
Definition dec_nat (n : nat) : string :=
  NilEmpty.string_of_uint (Nat.to_uint n).

Definition dec_Z (z : Z) : string :=
  NilZero.string_of_int (Z.to_int z).

End Text.

Import Text.

(* ====================================================================== *)
(** ** The machine the script runs on *)
(* ====================================================================== *)

(** What running an external command gives back: its exit status, what it
    writes on standard output and standard error together (the content of
    the file after [> FILE 2>&1]), what it writes on standard output alone,
    and the two readings of [get_timestamp_ms] taken around it. *)
Record cmd_result : Type := {
  exit_code : Z;
  combined : string;
  stdout_only : string;
  ts_before : Z;
  ts_after : Z
}.

(** The lines of the captured output of a command. *)
Definition captured (r : cmd_result) : list string := lines (combined r).

Record Env : Type := {
  (** [${NAME}] of the process environment. *)
  getenv : string -> option string;
  (** [PROJECT_ROOT], the parent of the directory holding the script. *)
  PROJECT_ROOT : string;
  (** The directory the script is started in. *)
  PWD : string;
  (** [[ -t 1 ]] *)
  stdout_is_tty : bool;
  (** [command -v NAME] *)
  command_v : string -> bool;
  (** [[ -x PATH ]] *)
  is_executable : string -> bool;
  (** [[ -d PATH ]] *)
  is_dir : string -> bool;
  (** The lines of a regular file, [None] when [[ -f PATH ]] fails. *)
  read_file : string -> option (list string);
  (** Running [argv] in directory [dir]. *)
  exec : string -> list string -> cmd_result;
  (** Whether [> PATH] can open [PATH] for writing. *)
  writable : string -> bool;
  (** What bash writes on standard error when the redirection [> PATH]
      cannot open [PATH]: script, line number, path and reason. *)
  redirect_error : string -> string;
  (** [mktemp -d], which is taken to succeed: the directory it has
      created. *)
  mktemp_d : string;
  (** [date -u +%Y-%m-%dT%H:%M:%SZ] *)
  iso_timestamp : string;
  (** [awk "BEGIN {printf \"%.Nf\", MS/1000}"] for N decimals. *)
  awk_seconds : nat -> string -> string;
  (** [python3 -c "... json.dumps(sys.stdin.read())"] on a standard input
      with the given content, [None] when it fails. *)
  json_dumps : string -> option string
}.

(** A path inside a directory the script has entered with [cd]. *)
Definition in_dir (dir rel : string) : string := dir ++ "/" ++ rel.

(* ====================================================================== *)
(** ** Configuration *)
(* ====================================================================== *)

(** The option variables.  They are assigned at start-up and by
    [parse_args] only, and read everywhere else. *)
Record Config : Type := {
  LEVEL : string;
  OUTPUT : string;
  TARGET : string;
  FAIL_FAST : string;
  NO_COLOR : string;
  VERBOSE : string;
  OUTPUT_FILE : string;
  BACKEND_PATH : string;
  FRONTEND_PATH : string
}.

Definition set_LEVEL (v : string) (c : Config) : Config :=
  {| LEVEL := v; OUTPUT := OUTPUT c; TARGET := TARGET c;
     FAIL_FAST := FAIL_FAST c; NO_COLOR := NO_COLOR c; VERBOSE := VERBOSE c;
     OUTPUT_FILE := OUTPUT_FILE c; BACKEND_PATH := BACKEND_PATH c;
     FRONTEND_PATH := FRONTEND_PATH c |}.

Definition set_OUTPUT (v : string) (c : Config) : Config :=
  {| LEVEL := LEVEL c; OUTPUT := v; TARGET := TARGET c;
     FAIL_FAST := FAIL_FAST c; NO_COLOR := NO_COLOR c; VERBOSE := VERBOSE c;
     OUTPUT_FILE := OUTPUT_FILE c; BACKEND_PATH := BACKEND_PATH c;
     FRONTEND_PATH := FRONTEND_PATH c |}.

Definition set_TARGET (v : string) (c : Config) : Config :=
  {| LEVEL := LEVEL c; OUTPUT := OUTPUT c; TARGET := v;
     FAIL_FAST := FAIL_FAST c; NO_COLOR := NO_COLOR c; VERBOSE := VERBOSE c;
     OUTPUT_FILE := OUTPUT_FILE c; BACKEND_PATH := BACKEND_PATH c;
     FRONTEND_PATH := FRONTEND_PATH c |}.

Definition set_FAIL_FAST (v : string) (c : Config) : Config :=
  {| LEVEL := LEVEL c; OUTPUT := OUTPUT c; TARGET := TARGET c;
     FAIL_FAST := v; NO_COLOR := NO_COLOR c; VERBOSE := VERBOSE c;
     OUTPUT_FILE := OUTPUT_FILE c; BACKEND_PATH := BACKEND_PATH c;
     FRONTEND_PATH := FRONTEND_PATH c |}.

Definition set_NO_COLOR (v : string) (c : Config) : Config :=
  {| LEVEL := LEVEL c; OUTPUT := OUTPUT c; TARGET := TARGET c;
     FAIL_FAST := FAIL_FAST c; NO_COLOR := v; VERBOSE := VERBOSE c;
     OUTPUT_FILE := OUTPUT_FILE c; BACKEND_PATH := BACKEND_PATH c;
     FRONTEND_PATH := FRONTEND_PATH c |}.

Definition set_VERBOSE (v : string) (c : Config) : Config :=
  {| LEVEL := LEVEL c; OUTPUT := OUTPUT c; TARGET := TARGET c;
     FAIL_FAST := FAIL_FAST c; NO_COLOR := NO_COLOR c; VERBOSE := v;
     OUTPUT_FILE := OUTPUT_FILE c; BACKEND_PATH := BACKEND_PATH c;
     FRONTEND_PATH := FRONTEND_PATH c |}.

Definition set_OUTPUT_FILE (v : string) (c : Config) : Config :=
  {| LEVEL := LEVEL c; OUTPUT := OUTPUT c; TARGET := TARGET c;
     FAIL_FAST := FAIL_FAST c; NO_COLOR := NO_COLOR c; VERBOSE := VERBOSE c;
     OUTPUT_FILE := v; BACKEND_PATH := BACKEND_PATH c;
     FRONTEND_PATH := FRONTEND_PATH c |}.

(** [${NAME:-default}]: the default also replaces an empty value. *)
Definition env_default (E : Env) (name dflt : string) : string :=
  match getenv E name with
  | Some v => if v =? "" then dflt else v
  | None => dflt
  end.

(** The assignments at the top of the script. *)
Definition defaults (E : Env) : Config :=
  {| LEVEL := env_default E "CR_LEVEL" "standard";
     OUTPUT := env_default E "CR_OUTPUT" "text";
     TARGET := env_default E "CR_TARGET" "all";
     FAIL_FAST := env_default E "CR_FAIL_FAST" "0";
     NO_COLOR := env_default E "CR_NO_COLOR" "0";
     VERBOSE := env_default E "CR_VERBOSE" "0";
     OUTPUT_FILE := "";
     BACKEND_PATH :=
       env_default E "CR_BACKEND_PATH" (PROJECT_ROOT E ++ "/backend");
     FRONTEND_PATH :=
       env_default E "CR_FRONTEND_PATH" (PROJECT_ROOT E ++ "/frontend") |}.

(* ====================================================================== *)
(** ** What the process does to the outside *)
(* ====================================================================== *)

Inductive event : Type :=
| Stdout (text : string)
    (** one [echo] or [cat] on standard output: the text and a newline *)
| Stderr (text : string)
    (** one line on standard error, the diagnostic stream: the text and a
        newline *)
| Spawn (dir : string) (argv : list string) (capture : option string)
    (** an external command run in [dir]; [Some f] when its output is
        redirected to the file [f], [None] when it keeps the standard
        output of the script *)
| FileWrite (path : string) (text : string)
    (** [echo text > path] succeeded *)
| FileWriteFailed (path : string)
    (** the redirection [> path] could not open the file *)
| StdoutBytes (bytes : string)
    (** what a command that keeps the standard output of the script has
        written there, byte for byte *)
| StderrBytes (bytes : string)
    (** what a command has written on standard error, byte for byte *)
| MkTemp (path : string)
    (** [mktemp -d] has created the scratch directory *)
| RmTemp (path : string).
    (** [rm -rf] of the scratch directory, by the [EXIT] trap *)

(** The text of [show_help]. *)
Definition usage_text : string :=
"Headless Code Review for CI/CD Integration

USAGE:
    code-reviewer.sh [OPTIONS]

OPTIONS:
    -l, --level LEVEL      Check level: quick|standard|full (default: standard)
                           quick    - Format checks only (fast)
                           standard - Format + lint + type checks
                           full     - All checks including tests

    -o, --output FORMAT    Output format: text|json|junit (default: text)
                           text  - Human-readable output
                           json  - JSON format for programmatic use
                           junit - JUnit XML for CI systems

    -t, --target TARGET    Target: all|backend|frontend (default: all)

    -f, --file FILE        Write output to FILE (default: stdout)

    --fail-fast            Exit immediately on first failure
    --no-color             Disable colored output
    -v, --verbose          Enable verbose output
    -h, --help             Show this help message

ENVIRONMENT VARIABLES:
    CR_LEVEL               Default check level
    CR_OUTPUT              Default output format
    CR_TARGET              Default target
    CR_FAIL_FAST           Enable fail-fast mode (1|0)
    CR_NO_COLOR            Disable colors (1|0)
    CR_VERBOSE             Enable verbose mode (1|0)
    CR_BACKEND_PATH        Path to backend directory
    CR_FRONTEND_PATH       Path to frontend directory

EXAMPLES:
    # Quick format check in CI
    ./scripts/code-reviewer.sh --level quick --output json

    # Full review with JUnit output for GitHub Actions
    ./scripts/code-reviewer.sh --level full --output junit -f report.xml

    # Backend only, fail fast
    ./scripts/code-reviewer.sh --target backend --fail-fast

EXIT CODES:
    0 - All checks passed
    1 - One or more checks failed
    2 - Configuration/setup error
    3 - Dependency missing".

Definition show_help : list event := [Stdout usage_text].

(* ====================================================================== *)
(** ** parse_args *)
(* ====================================================================== *)

(** The outcome of [parse_args]: the script goes on with a configuration, or
    it has printed something and left with a status. *)
Inductive parsed : Type :=
| Parsed (c : Config)
| Left (status : Z) (printed : list event).

(** Status with which bash leaves a script that expands an unset positional
    parameter under [set -u]. *)
Definition nounset_status : Z := 1.

(** The [while [[ $# -gt 0 ]]] loop.  An option that takes a value reads
    ["$2"]; with no second word left, [set -u] stops the script there. *)
Fixpoint parse_loop (args : list string) (c : Config) : parsed :=
  match args with
  | [] => Parsed c
  | a :: rest =>
      if (a =? "-l") || (a =? "--level") then
        match rest with
        | v :: rest' => parse_loop rest' (set_LEVEL v c)
        | [] => Left nounset_status [Stderr "$2: unbound variable"]
        end
      else if (a =? "-o") || (a =? "--output") then
        match rest with
        | v :: rest' => parse_loop rest' (set_OUTPUT v c)
        | [] => Left nounset_status [Stderr "$2: unbound variable"]
        end
      else if (a =? "-t") || (a =? "--target") then
        match rest with
        | v :: rest' => parse_loop rest' (set_TARGET v c)
        | [] => Left nounset_status [Stderr "$2: unbound variable"]
        end
      else if (a =? "-f") || (a =? "--file") then
        match rest with
        | v :: rest' => parse_loop rest' (set_OUTPUT_FILE v c)
        | [] => Left nounset_status [Stderr "$2: unbound variable"]
        end
      else if a =? "--fail-fast" then parse_loop rest (set_FAIL_FAST "1" c)
      else if a =? "--no-color" then parse_loop rest (set_NO_COLOR "1" c)
      else if (a =? "-v") || (a =? "--verbose") then
        parse_loop rest (set_VERBOSE "1" c)
      else if (a =? "-h") || (a =? "--help") then Left 0 show_help
      else Left 2 (Stderr ("Unknown option: " ++ a) :: show_help)
  end.

Definition level_ok (v : string) : bool :=
  (v =? "quick") || (v =? "standard") || (v =? "full").

Definition output_ok (v : string) : bool :=
  (v =? "text") || (v =? "json") || (v =? "junit").

Definition target_ok (v : string) : bool :=
  (v =? "all") || (v =? "backend") || (v =? "frontend").

(** The three [case] statements after the loop. *)
Definition validate (c : Config) : parsed :=
  if negb (level_ok (LEVEL c)) then
    Left 2 [Stderr ("Invalid level: " ++ LEVEL c)]
  else if negb (output_ok (OUTPUT c)) then
    Left 2 [Stderr ("Invalid output format: " ++ OUTPUT c)]
  else if negb (target_ok (TARGET c)) then
    Left 2 [Stderr ("Invalid target: " ++ TARGET c)]
  else Parsed c.

Definition parse_args (args : list string) (c : Config) : parsed :=
  match parse_loop args c with
  | Parsed c' => validate c'
  | Left st ev => Left st ev
  end.

Definition valid_config (c : Config) : Prop :=
  level_ok (LEVEL c) = true /\ output_ok (OUTPUT c) = true /\
  target_ok (TARGET c) = true.

(* ====================================================================== *)
(** ** The state of the shell *)
(* ====================================================================== *)

(** The result store is the four files [names.txt], [statuses.txt],
    [durations.txt] and [outputs.txt] of the scratch directory, one line per
    stored check, together with the counters [CHECK_COUNT] and
    [TOTAL_ERRORS].  [scratch] holds the content of the captured-output
    files [output_N.txt] of the same directory, latest write first. *)
Record Store : Type := {
  CHECK_COUNT : nat;
  TOTAL_ERRORS : nat;
  names_txt : list string;
  statuses_txt : list string;
  durations_txt : list string;
  outputs_txt : list string;
  scratch : list (string * string)
}.

(** [errexit] is the shell option [set -e]; [stderr_null] tells that the
    command being run has its standard error redirected to /dev/null;
    [trace] is what the process has done to the outside so far. *)
Record RunState : Type := {
  store : Store;
  errexit : bool;
  cwd : string;
  stderr_null : bool;
  trace : list event
}.

Definition empty_store : Store :=
  {| CHECK_COUNT := 0; TOTAL_ERRORS := 0;
     names_txt := []; statuses_txt := []; durations_txt := [];
     outputs_txt := []; scratch := [] |}.

(** The shell as the script finds it: [set -uo pipefail] leaves [errexit]
    off, the counters are zero and the result files are empty. *)
Definition initial (dir : string) : RunState :=
  {| store := empty_store; errexit := false; cwd := dir;
     stderr_null := false; trace := [] |}.

Definition emit (ev : list event) (s : RunState) : RunState :=
  {| store := store s; errexit := errexit s; cwd := cwd s;
     stderr_null := stderr_null s; trace := trace s ++ ev |}.

Definition set_errexit (b : bool) (s : RunState) : RunState :=
  {| store := store s; errexit := b; cwd := cwd s;
     stderr_null := stderr_null s; trace := trace s |}.

Definition set_cwd (d : string) (s : RunState) : RunState :=
  {| store := store s; errexit := errexit s; cwd := d;
     stderr_null := stderr_null s; trace := trace s |}.

Definition set_stderr_null (b : bool) (s : RunState) : RunState :=
  {| store := store s; errexit := errexit s; cwd := cwd s;
     stderr_null := b; trace := trace s |}.

Definition with_store (f : Store -> Store) (s : RunState) : RunState :=
  {| store := f (store s); errexit := errexit s; cwd := cwd s;
     stderr_null := stderr_null s; trace := trace s |}.

Definition write_scratch (path : string) (text : string) (t : Store)
  : Store :=
  {| CHECK_COUNT := CHECK_COUNT t; TOTAL_ERRORS := TOTAL_ERRORS t;
     names_txt := names_txt t; statuses_txt := statuses_txt t;
     durations_txt := durations_txt t; outputs_txt := outputs_txt t;
     scratch := (path, text) :: scratch t |}.

Definition incr_TOTAL_ERRORS (t : Store) : Store :=
  {| CHECK_COUNT := CHECK_COUNT t; TOTAL_ERRORS := TOTAL_ERRORS t + 1;
     names_txt := names_txt t; statuses_txt := statuses_txt t;
     durations_txt := durations_txt t; outputs_txt := outputs_txt t;
     scratch := scratch t |}.

(** The four [echo ... >>] of [store_result] and its counter. *)
Definition append_result (name status duration output_file : string)
  (t : Store) : Store :=
  {| CHECK_COUNT := CHECK_COUNT t + 1; TOTAL_ERRORS := TOTAL_ERRORS t;
     names_txt := names_txt t ++ [name];
     statuses_txt := statuses_txt t ++ [status];
     durations_txt := durations_txt t ++ [duration];
     outputs_txt := outputs_txt t ++ [output_file];
     scratch := scratch t |}.

(** [[ -f path ]] and the content of a file of the scratch directory. *)
Fixpoint scratch_file (path : string) (fs : list (string * string))
  : option string :=
  match fs with
  | [] => None
  | (p, text) :: rest => if p =? path then Some text else scratch_file path rest
  end.

(** [sed -n "${i}p" FILE] inside [$(...)]: line [i], counted from 1, and
    nothing when the file is shorter. *)
Definition sed_n_p (i : nat) (file : list string) : string :=
  nth (i - 1) file "".

(* ====================================================================== *)
(** ** Commands *)
(* ====================================================================== *)

Inductive result (A : Type) : Type :=
| Done (a : A)
| Exited (status : Z).

Arguments Done {A} a.
Arguments Exited {A} status.

Definition Sh (A : Type) : Type := RunState -> result A * RunState.

Definition ret {A} (a : A) : Sh A := fun s => (Done a, s).

Definition bind {A B} (m : Sh A) (k : A -> Sh B) : Sh B :=
  fun s =>
    match m s with
    | (Done a, s') => k a s'
    | (Exited st, s') => (Exited st, s')
    end.

Definition exit {A} (status : Z) : Sh A := fun s => (Exited status, s).

Definition get : Sh RunState := fun s => (Done s, s).

Definition modify (f : RunState -> RunState) : Sh unit :=
  fun s => (Done tt, f s).

Declare Scope sh_scope.
Delimit Scope sh_scope with sh.
Notation "x <- m ;; k" := (bind m (fun x => k))
  (at level 61, m at next level, right associativity) : sh_scope.
Notation "m ;; k" := (bind m (fun _ => k))
  (at level 61, right associativity) : sh_scope.
Open Scope sh_scope.

(** [if ...; then ...; fi] without an [else]. *)
Definition when (b : bool) (m : Sh unit) : Sh unit :=
  if b then m else ret tt.

(** A line on standard error; lost when standard error is /dev/null. *)
Definition err_line (text : string) : Sh unit :=
  modify (fun s => emit (if stderr_null s then [] else [Stderr text]) s).

(** The output of a command that writes on standard error. *)
Definition err_bytes (bytes : string) : Sh unit :=
  modify (fun s => emit (if stderr_null s then [] else [StderrBytes bytes]) s).

(** [COMMAND 2>/dev/null] for a shell function: standard error is
    /dev/null while the function runs. *)
Definition stderr_to_null {A} (m : Sh A) : Sh A :=
  fun s =>
    let (r, s') := m (set_stderr_null true s) in
    (r, set_stderr_null (stderr_null s) s').

(** What the script has left when it stops: the status of [exit]. *)
Definition run_script (m : Sh unit) (s : RunState) : Z * RunState :=
  match m s with
  | (Exited st, s') => (st, s')
  | (Done _, s') => (0%Z, s')
  end.

(* ====================================================================== *)
(** ** The runner, for a machine [E] and a configuration [C] *)
(* ====================================================================== *)

Section Runner.

Variable E : Env.
Variable C : Config.

(** *** Colors and output helpers *)

Record Palette : Type := {
  RED : string; GREEN : string; YELLOW : string; BLUE : string;
  CYAN : string; BOLD : string; RESET : string
}.

(** [setup_colors].  The variables hold the escape sequences as [echo -e]
    prints them. *)
Definition setup_colors : Palette :=
  if (NO_COLOR C =? "1") || negb (stdout_is_tty E) then
    {| RED := ""; GREEN := ""; YELLOW := ""; BLUE := ""; CYAN := "";
       BOLD := ""; RESET := "" |}
  else
    {| RED := esc ++ "[0;31m"; GREEN := esc ++ "[0;32m";
       YELLOW := esc ++ "[0;33m"; BLUE := esc ++ "[0;34m";
       CYAN := esc ++ "[0;36m"; BOLD := esc ++ "[1m";
       RESET := esc ++ "[0m" |}.

(** The color variables after [setup_colors]. *)
Definition palette : Palette := setup_colors.

Definition log_info (msg : string) : Sh unit :=
  when (OUTPUT C =? "text")
    (err_line (BLUE palette ++ "[INFO]" ++ RESET palette ++ " " ++ msg)).

Definition log_success (msg : string) : Sh unit :=
  when (OUTPUT C =? "text")
    (err_line (GREEN palette ++ "[PASS]" ++ RESET palette ++ " " ++ msg)).

Definition log_error (msg : string) : Sh unit :=
  when (OUTPUT C =? "text")
    (err_line (RED palette ++ "[FAIL]" ++ RESET palette ++ " " ++ msg)).

Definition log_warning (msg : string) : Sh unit :=
  when (OUTPUT C =? "text")
    (err_line (YELLOW palette ++ "[WARN]" ++ RESET palette ++ " " ++ msg)).

Definition log_verbose (msg : string) : Sh unit :=
  when ((VERBOSE C =? "1") && (OUTPUT C =? "text"))
    (err_line (CYAN palette ++ "[DEBUG]" ++ RESET palette ++ " " ++ msg)).

(** *** check_dependencies *)

Definition targets_backend : bool :=
  (TARGET C =? "all") || (TARGET C =? "backend").

Definition targets_frontend : bool :=
  (TARGET C =? "all") || (TARGET C =? "frontend").

Definition missing_dependencies : string :=
  (if targets_backend && negb (command_v E "python3") then " python3"
   else "") ++
  (if targets_frontend && negb (command_v E "node") then " node" else "") ++
  (if targets_frontend && negb (command_v E "npm") then " npm" else "").

Definition check_dependencies : Sh unit :=
  let missing := missing_dependencies in
  when (negb (missing =? ""))
    (err_line ("Missing dependencies:" ++ missing) ;; exit 3).

(** *** Result storage *)

Definition TEMP_DIR : string := mktemp_d E.

(** [setup_temp]: the scratch directory is created; the [EXIT] trap it
    installs is [cleanup], which [main] below runs when the script stops. *)
Definition setup_temp : Sh unit := modify (emit [MkTemp TEMP_DIR]).

(** [cleanup]: the scratch directory exists, so it is removed. *)
Definition cleanup (s : RunState) : RunState := emit [RmTemp TEMP_DIR] s.

Definition store_result (name status duration output_file : string)
  : Sh unit :=
  modify (with_store (append_result name status duration output_file)).

(** *** Output formatters

    A formatter runs inside [$(...)]: it reads the store and prints; what it
    prints is given line by line.  The loops read [names.txt] line by line
    and fetch line [i] of the other three files. *)

Definition q (text : string) : string := dq ++ text ++ dq.

Fixpoint text_rows (s : Store) (names : list string) (i passed failed : nat)
  : list string * nat * nat :=
  match names with
  | [] => ([], passed, failed)
  | name :: rest =>
      let status := sed_n_p i (statuses_txt s) in
      let duration := sed_n_p i (durations_txt s) in
      let duration_sec := awk_seconds E 2 duration in
      if status =? "passed" then
        let '(rows, p, f) := text_rows s rest (i + 1) (passed + 1) failed in
        ((GREEN palette ++ "[PASS]" ++ RESET palette ++ " " ++ name ++
          " (" ++ duration_sec ++ "s)") :: rows, p, f)
      else
        let '(rows, p, f) := text_rows s rest (i + 1) passed (failed + 1) in
        ((RED palette ++ "[FAIL]" ++ RESET palette ++ " " ++ name ++
          " (" ++ duration_sec ++ "s)") :: rows, p, f)
  end.

(** The second loop of [output_text].  [head -30] copies the file byte for
    byte: when the file does not end in a newline, neither does what the
    loop has printed so far. *)
Fixpoint text_failures (s : Store) (names : list string) (i : nat)
  : string :=
  match names with
  | [] => ""
  | name :: rest =>
      let status := sed_n_p i (statuses_txt s) in
      let output_file := sed_n_p i (outputs_txt s) in
      (if (status =? "failed") && negb (output_file =? "") then
         match scratch_file output_file (scratch s) with
         | Some text =>
             unlines [""; "--- " ++ name ++ " ---"] ++ head 30 text
         | None => ""
         end
       else "") ++ text_failures s rest (i + 1)
  end.

(** The lines [output_text] prints before the failures. *)
Definition text_summary (s : Store) : list string :=
  let '(rows, passed, failed) := text_rows s (names_txt s) 1 0 0 in
  let heading :=
    [""; "=========================================="; "CODE REVIEW SUMMARY";
     "=========================================="; "";
     "Level:    " ++ LEVEL C; "Target:   " ++ TARGET C;
     "Time:     " ++ iso_timestamp E; ""] in
  let results :=
    [""; "------------------------------------------";
     "Results: " ++ dec_nat passed ++ " passed, " ++ dec_nat failed ++
     " failed";
     "------------------------------------------"] in
  (heading ++ rows ++ results)%list.

(** What [output_text] prints, byte for byte. *)
Definition output_text (s : Store) : string :=
  let '(_, _, failed) := text_rows s (names_txt s) 1 0 0 in
  unlines (text_summary s) ++
  (if (0 <? failed)%nat then
     unlines [""; "FAILURES:"] ++ text_failures s (names_txt s) 1
   else "").

(** What the loop of [output_json] has built when it ends: the entries of
    [checks_json], which the [first] flag separates by commas, and the two
    counters. *)
Record json_scan : Type := {
  json_checks : list string;
  json_passed : nat;
  json_failed : nat
}.

Definition json_output_content (s : Store) (output_file : string) : string :=
  if negb (output_file =? "") then
    match scratch_file output_file (scratch s) with
    | Some text =>
        match json_dumps E text with
        | Some j => cmd_subst j
        | None => q ""
        end
    | None => q ""
    end
  else q "".

Definition json_entry (name status duration output_content : string) : string :=
  nl ++ "    {" ++ nl ++
  "      " ++ q "name" ++ ": " ++ q name ++ "," ++ nl ++
  "      " ++ q "status" ++ ": " ++ q status ++ "," ++ nl ++
  "      " ++ q "duration_ms" ++ ": " ++ duration ++ "," ++ nl ++
  "      " ++ q "output" ++ ": " ++ output_content ++ nl ++
  "    }".

Fixpoint json_loop (s : Store) (names : list string) (i passed failed : nat)
  : json_scan :=
  match names with
  | [] => {| json_checks := []; json_passed := passed; json_failed := failed |}
  | name :: rest =>
      let status := sed_n_p i (statuses_txt s) in
      let duration := sed_n_p i (durations_txt s) in
      let output_file := sed_n_p i (outputs_txt s) in
      let passed' := if status =? "passed" then passed + 1 else passed in
      let failed' := if status =? "passed" then failed else failed + 1 in
      let entry :=
        json_entry name status duration (json_output_content s output_file) in
      let r := json_loop s rest (i + 1) passed' failed' in
      {| json_checks := entry :: json_checks r;
         json_passed := json_passed r; json_failed := json_failed r |}
  end.

(** The [summary] object of the JSON report. *)
Record json_summary : Type := {
  summary_total : nat;
  summary_passed : nat;
  summary_failed : nat
}.

Definition output_json_summary (s : Store) : json_summary :=
  let r := json_loop s (names_txt s) 1 0 0 in
  {| summary_total := CHECK_COUNT s;
     summary_passed := json_passed r;
     summary_failed := json_failed r |}.

Definition output_json_checks (s : Store) : list string :=
  json_checks (json_loop s (names_txt s) 1 0 0).

Definition output_json (s : Store) : list string :=
  let sm := output_json_summary s in
  ["{";
   "  " ++ q "version" ++ ": " ++ q "1.0" ++ ",";
   "  " ++ q "timestamp" ++ ": " ++ q (iso_timestamp E) ++ ",";
   "  " ++ q "level" ++ ": " ++ q (LEVEL C) ++ ",";
   "  " ++ q "target" ++ ": " ++ q (TARGET C) ++ ",";
   "  " ++ q "summary" ++ ": {";
   "    " ++ q "total" ++ ": " ++ dec_nat (summary_total sm) ++ ",";
   "    " ++ q "passed" ++ ": " ++ dec_nat (summary_passed sm) ++ ",";
   "    " ++ q "failed" ++ ": " ++ dec_nat (summary_failed sm);
   "  },";
   "  " ++ q "checks" ++ ": [" ++ join "," (output_json_checks s);
   "  ]";
   "}"].

(** The [sed] script of [output_junit]: four substitutions, one after the
    other, on every line. *)
Definition sed_xml_escape (line : string) : string :=
  sed_subst_char "034"%char "&quot;"
    (sed_subst_char ">"%char "&gt;"
       (sed_subst_char "<"%char "&lt;"
          (sed_subst_char "&"%char "&amp;" line))).

(** [$(head -50 FILE | sed ...)] *)
Definition junit_failure_body (text : list string) : string :=
  cmd_subst (unlines (map sed_xml_escape (firstn 50 text))).

Definition junit_failure (body : string) : string :=
  "      <failure message=" ++ q "Check failed" ++ "><![CDATA[" ++ body ++
  "]]></failure>".

Definition junit_open (name duration_sec : string) : string :=
  "    <testcase name=" ++ q name ++ " classname=" ++ q "code-review" ++
  " time=" ++ q duration_sec ++ ">".

Definition junit_close : string := "    </testcase>".

(** One turn of the loop of [output_junit]. *)
Definition junit_testcase (s : Store) (i : nat) (name : string)
  : list string :=
  let status := sed_n_p i (statuses_txt s) in
  let duration := sed_n_p i (durations_txt s) in
  let output_file := sed_n_p i (outputs_txt s) in
  let duration_sec := awk_seconds E 3 duration in
  [junit_open name duration_sec] ++
  (if (status =? "failed") && negb (output_file =? "") then
     match scratch_file output_file (scratch s) with
     | Some text => [junit_failure (junit_failure_body (lines text))]
     | None => []
     end
   else []) ++
  [junit_close].

Fixpoint junit_loop (s : Store) (names : list string) (i : nat)
  : list string :=
  match names with
  | [] => []
  | name :: rest => junit_testcase s i name ++ junit_loop s rest (i + 1)
  end.

Definition output_junit (s : Store) : list string :=
  let total := CHECK_COUNT s in
  let failures := TOTAL_ERRORS s in
  ["<?xml version=" ++ q "1.0" ++ " encoding=" ++ q "UTF-8" ++ "?>";
   "<testsuites name=" ++ q "Code Review" ++ " tests=" ++ q (dec_nat total) ++
   " failures=" ++ q (dec_nat failures) ++ " time=" ++ q "0" ++ ">";
   "  <testsuite name=" ++ q "code-review" ++ " tests=" ++ q (dec_nat total) ++
   " failures=" ++ q (dec_nat failures) ++ " timestamp=" ++
   q (iso_timestamp E) ++ ">"] ++
  junit_loop s (names_txt s) 1 ++
  ["  </testsuite>"; "</testsuites>"].

(** [output_content=$(output_FORMAT)] *)
Definition render (s : Store) : string :=
  if OUTPUT C =? "text" then cmd_subst (output_text s)
  else if OUTPUT C =? "json" then cmd_subst (unlines (output_json s))
  else if OUTPUT C =? "junit" then cmd_subst (unlines (output_junit s))
  else "".

(** [output_results].  When the redirection to [OUTPUT_FILE] fails, bash
    says so on standard error and the [echo] has status 1: a shell with
    [errexit] on stops there with that status, a shell with [errexit] off
    goes on to the next command. *)
Definition output_results : Sh unit :=
  s <- get ;;
  let output_content := render (store s) in
  if negb (OUTPUT_FILE C =? "") then
    if writable E (OUTPUT_FILE C) then
      modify (emit [FileWrite (OUTPUT_FILE C) output_content]) ;;
      log_info ("Results written to: " ++ OUTPUT_FILE C)
    else
      modify (emit [FileWriteFailed (OUTPUT_FILE C)]) ;;
      err_line (redirect_error E (OUTPUT_FILE C)) ;;
      if errexit s then exit 1
      else log_info ("Results written to: " ++ OUTPUT_FILE C)
  else modify (emit [Stdout output_content]).

(** *** Check runner *)

Definition output_path (n : nat) : string :=
  TEMP_DIR ++ "/output_" ++ dec_nat n ++ ".txt".

(** [duration=$((end_ts - start_ts))], floored at zero. *)
Definition clamp_duration (start_ts end_ts : Z) : Z :=
  let duration := (end_ts - start_ts)%Z in
  if (duration <? 0)%Z then 0%Z else duration.

(** [run_check name description cmd...].  The command runs between
    [set +e] and [set -e]; the second leaves [errexit] on for the rest of
    the script.  The function returns status 0 whenever it returns. *)
Definition run_check (name description : string) (cmd : list string)
  : Sh unit :=
  log_verbose ("Running: " ++ join " " cmd) ;;
  s <- get ;;
  let output_file := output_path (CHECK_COUNT (store s)) in
  modify (set_errexit false) ;;
  let r := exec E (cwd s) cmd in
  modify (emit [Spawn (cwd s) cmd (Some output_file)]) ;;
  modify (with_store (write_scratch output_file (combined r))) ;;
  modify (set_errexit true) ;;
  let duration := clamp_duration (ts_before r) (ts_after r) in
  if (exit_code r =? 0)%Z then
    store_result name "passed" (dec_Z duration) "" ;;
    log_success description
  else
    store_result name "failed" (dec_Z duration) output_file ;;
    modify (with_store incr_TOTAL_ERRORS) ;;
    log_error description ;;
    when ((VERBOSE C =? "1") && (OUTPUT C =? "text"))
      (err_bytes (head 50 (combined r))) ;;
    when (FAIL_FAST C =? "1") (output_results ;; exit 1).

(** *** Backend checks *)

(** The tool from the virtual environment, else the one on [PATH], else
    the empty string. *)
Definition resolve_tool (tool : string) : string :=
  let venv_bin := PROJECT_ROOT E ++ "/.venv/bin" in
  if is_executable E (venv_bin ++ "/" ++ tool) then venv_bin ++ "/" ++ tool
  else if command_v E tool then tool
  else "".

Definition or_none (cmd : string) : string :=
  if cmd =? "" then "none" else cmd.

Definition level_standard_or_full : bool :=
  (LEVEL C =? "standard") || (LEVEL C =? "full").

(** [run_backend_checks].  [tests] is looked up in the directory the
    function has just entered. *)
Definition run_backend_checks : Sh unit :=
  if negb (is_dir E (BACKEND_PATH C)) then
    log_warning ("Backend directory not found: " ++ BACKEND_PATH C)
  else
    log_info "Running backend checks..." ;;
    modify (set_cwd (BACKEND_PATH C)) ;;
    let black_cmd := resolve_tool "black" in
    let isort_cmd := resolve_tool "isort" in
    let flake8_cmd := resolve_tool "flake8" in
    let mypy_cmd := resolve_tool "mypy" in
    let pytest_cmd := resolve_tool "pytest" in
    let tests := is_dir E (in_dir (BACKEND_PATH C) "tests") in
    log_verbose ("Tool paths: black=" ++ or_none black_cmd ++
                 ", isort=" ++ or_none isort_cmd) ;;
    (if negb (black_cmd =? "") then
       run_check "backend_black" "Backend: Black formatting"
         [black_cmd; "--check"; "--quiet"; "."]
     else log_warning "black not installed - skipping format check") ;;
    (if negb (isort_cmd =? "") then
       run_check "backend_isort" "Backend: Import sorting (isort)"
         [isort_cmd; "--check-only"; "--quiet"; "."]
     else log_warning "isort not installed - skipping import sort check") ;;
    when level_standard_or_full
      ((if negb (flake8_cmd =? "") then
          run_check "backend_flake8" "Backend: Flake8 linting"
            [flake8_cmd; "."; "--max-line-length=88"; "--count";
             "--statistics"]
        else log_warning "flake8 not installed - skipping lint check") ;;
       (if negb (mypy_cmd =? "") then
          run_check "backend_mypy" "Backend: Type checking (mypy)"
            [mypy_cmd; "."; "--ignore-missing-imports"; "--no-error-summary"]
        else log_warning "mypy not installed - skipping type check")) ;;
    when (LEVEL C =? "full")
      (if tests && negb (pytest_cmd =? "") then
         run_check "backend_pytest" "Backend: Unit tests (pytest)"
           [pytest_cmd; "tests/"; "-v"; "--tb=short"; "-q"]
       else when tests (log_warning "pytest not installed - skipping tests")) ;;
    modify (set_cwd (PROJECT_ROOT E)).

(** *** Frontend checks *)

Definition package_json : option (list string) :=
  read_file E (in_dir (FRONTEND_PATH C) "package.json").

(** [grep -q '"SCRIPT"' package.json 2>/dev/null] *)
Definition package_has (script : string) : bool :=
  match package_json with
  | Some text => grep_q (q script) text
  | None => false
  end.

(** [npm install --silent 2>/dev/null || true]: the command keeps the
    standard output of the script, and its status is not looked at. *)
Definition npm_install : Sh unit :=
  s <- get ;;
  let cmd := ["npm"; "install"; "--silent"] in
  modify (emit [Spawn (cwd s) cmd None;
                StdoutBytes (stdout_only (exec E (cwd s) cmd))]).

(** [run_frontend_checks].  The first three checks are called as
    [run_check ... 2>/dev/null || npm ...]: the redirection applies to the
    call of [run_check], and since [run_check] returns status 0 the
    command after [||] never runs. *)
Definition run_frontend_checks : Sh unit :=
  if negb (is_dir E (FRONTEND_PATH C)) then
    log_warning ("Frontend directory not found: " ++ FRONTEND_PATH C)
  else
    log_info "Running frontend checks..." ;;
    modify (set_cwd (FRONTEND_PATH C)) ;;
    when (negb (is_dir E (in_dir (FRONTEND_PATH C) "node_modules")))
      (log_warning "node_modules not found - installing dependencies..." ;;
       npm_install) ;;
    when (package_has "lint")
      (stderr_to_null
         (run_check "frontend_eslint" "Frontend: ESLint"
            ["npm"; "run"; "lint"; "--silent"])) ;;
    when level_standard_or_full
      (when (package_has "type-check")
         (stderr_to_null
            (run_check "frontend_typecheck" "Frontend: TypeScript type check"
               ["npm"; "run"; "type-check"; "--silent"]))) ;;
    when (LEVEL C =? "full")
      (when (package_has "test")
         (stderr_to_null
            (run_check "frontend_jest" "Frontend: Jest tests"
               ["npm"; "test"; "--"; "--passWithNoTests";
                "--watchAll=false"])) ;;
       when (package_has "build")
         (run_check "frontend_build" "Frontend: Build check"
            ["npm"; "run"; "build"])) ;;
    modify (set_cwd (PROJECT_ROOT E)).

(** *** Main *)

(** [main] after [parse_args]; [setup_colors] is [palette] above. *)
Definition main_body : Sh unit :=
  setup_temp ;;
  log_info "Starting code review..." ;;
  log_info ("Level: " ++ LEVEL C ++ " | Target: " ++ TARGET C ++
            " | Output: " ++ OUTPUT C) ;;
  check_dependencies ;;
  (if TARGET C =? "all" then run_backend_checks ;; run_frontend_checks
   else if TARGET C =? "backend" then run_backend_checks
   else if TARGET C =? "frontend" then run_frontend_checks
   else ret tt) ;;
  output_results ;;
  s <- get ;;
  if (0 <? TOTAL_ERRORS (store s))%nat then exit 1 else exit 0.

End Runner.

(** The script after [parse_args]: [main] goes on until an [exit], and the
    [EXIT] trap then runs [cleanup]. *)
Definition run (E : Env) (C : Config) : Z * RunState :=
  let r := run_script (main_body E C) (initial (PWD E)) in
  (fst r, cleanup E (snd r)).

(** The script.  When [parse_args] stops it, no trap has been installed. *)
Definition main (E : Env) (args : list string) : Z * RunState :=
  match parse_args args (defaults E) with
  | Left status printed => (status, emit printed (initial (PWD E)))
  | Parsed C => run E C
  end.

(* ====================================================================== *)
(** ** Laws of commands *)
(* ====================================================================== *)

Lemma bind_ret_tt (m : Sh unit) (s : RunState) :
  bind m (fun _ => ret tt) s = m s.
Proof.
  unfold bind, ret. destruct (m s) as [[[]|st] s']; reflexivity.
Qed.

Lemma bind_assoc {A B D} (m : Sh A) (f : A -> Sh B) (g : B -> Sh D) s :
  bind (bind m f) g s = bind m (fun a => bind (f a) g) s.
Proof.
  unfold bind. destruct (m s) as [[a|st] s']; reflexivity.
Qed.

Lemma bind_ext {A B} (m : Sh A) (f g : A -> Sh B) s :
  (forall a s', f a s' = g a s') -> bind m f s = bind m g s.
Proof.
  intros H. unfold bind. destruct (m s) as [[a|st] s']; auto.
Qed.

Lemma bind_ret_l {A B} (a : A) (k : A -> Sh B) s :
  bind (ret a) k s = k a s.
Proof. reflexivity. Qed.

(* ====================================================================== *)
(** ** States *)
(* ====================================================================== *)

Lemma emit_nil s : emit [] s = s.
Proof. destruct s; unfold emit; simpl. now rewrite app_nil_r. Qed.

Lemma emit_emit a b s : emit b (emit a s) = emit (a ++ b) s.
Proof. unfold emit; simpl. now rewrite app_assoc. Qed.

Lemma state_ext (a b : RunState) :
  store a = store b -> errexit a = errexit b -> cwd a = cwd b ->
  stderr_null a = stderr_null b -> trace a = trace b -> a = b.
Proof. destruct a, b; simpl; intros; subst; reflexivity. Qed.

Ltac state_fields :=
  cbn [store errexit cwd stderr_null trace emit set_errexit set_cwd
       set_stderr_null with_store].

(** Lines on standard error, unless it is /dev/null. *)
Definition on_stderr (null : bool) (lines : list string) : list event :=
  if null then [] else map Stderr lines.

(** Bytes on standard error, unless it is /dev/null. *)
Definition bytes_on_stderr (null : bool) (bytes : string) : list event :=
  if null then [] else [StderrBytes bytes].

(** Brings two sequences of commands to the same shape. *)
Ltac sh_norm :=
  repeat first
    [ reflexivity
    | rewrite bind_ret_tt
    | rewrite bind_assoc
    | rewrite bind_ret_l
    | apply bind_ext; intros [] ? ].

(* ====================================================================== *)
(** ** Check sequences

    Which commands [run_backend_checks] and [run_frontend_checks] run
    depends on the machine and the configuration only, never on the result
    of an earlier command.  Each of them is therefore a straight-line
    sequence of the instructions below, and what holds of every sequence
    is proved once, by induction on the sequence. *)
(* ====================================================================== *)

Inductive instr : Type :=
| IRun (quiet : bool) (name description : string) (cmd : list string)
| ICd (dir : string)
| IInfo (msg : string)
| IWarn (msg : string)
| IVerbose (msg : string)
| INpmInstall.

Section Sequences.

Variable E : Env.
Variable C : Config.

Definition step (i : instr) : Sh unit :=
  match i with
  | IRun true name description cmd =>
      stderr_to_null (run_check E C name description cmd)
  | IRun false name description cmd => run_check E C name description cmd
  | ICd dir => modify (set_cwd dir)
  | IInfo msg => log_info E C msg
  | IWarn msg => log_warning E C msg
  | IVerbose msg => log_verbose E C msg
  | INpmInstall => npm_install E
  end.

Fixpoint interp (p : list instr) : Sh unit :=
  match p with
  | [] => ret tt
  | i :: rest => step i ;; interp rest
  end.

Lemma interp_app (p1 p2 : list instr) (s : RunState) :
  interp (p1 ++ p2) s = bind (interp p1) (fun _ => interp p2) s.
Proof.
  revert s. induction p1 as [|i p1 IH]; intros s; simpl.
  - reflexivity.
  - rewrite bind_assoc. apply bind_ext. intros _ s'. apply IH.
Qed.

(** The slots of the backend catalogue. *)
Definition backend_slot (tool name description : string) (args : list string)
  (warning : string) : list instr :=
  if negb (resolve_tool E tool =? "") then
    [IRun false name description (resolve_tool E tool :: args)]
  else [IWarn warning].

Definition backend_plan : list instr :=
  if negb (is_dir E (BACKEND_PATH C)) then
    [IWarn ("Backend directory not found: " ++ BACKEND_PATH C)]
  else
    [IInfo "Running backend checks..."; ICd (BACKEND_PATH C);
     IVerbose ("Tool paths: black=" ++ or_none (resolve_tool E "black") ++
               ", isort=" ++ or_none (resolve_tool E "isort"))] ++
    backend_slot "black" "backend_black" "Backend: Black formatting"
      ["--check"; "--quiet"; "."]
      "black not installed - skipping format check" ++
    backend_slot "isort" "backend_isort" "Backend: Import sorting (isort)"
      ["--check-only"; "--quiet"; "."]
      "isort not installed - skipping import sort check" ++
    (if level_standard_or_full C then
       backend_slot "flake8" "backend_flake8" "Backend: Flake8 linting"
         ["."; "--max-line-length=88"; "--count"; "--statistics"]
         "flake8 not installed - skipping lint check" ++
       backend_slot "mypy" "backend_mypy" "Backend: Type checking (mypy)"
         ["."; "--ignore-missing-imports"; "--no-error-summary"]
         "mypy not installed - skipping type check"
     else []) ++
    (if LEVEL C =? "full" then
       if is_dir E (in_dir (BACKEND_PATH C) "tests") then
         backend_slot "pytest" "backend_pytest" "Backend: Unit tests (pytest)"
           ["tests/"; "-v"; "--tb=short"; "-q"]
           "pytest not installed - skipping tests"
       else []
     else []) ++
    [ICd (PROJECT_ROOT E)].

Definition frontend_slot (quiet : bool) (script name description : string)
  (cmd : list string) : list instr :=
  if package_has E C script then [IRun quiet name description cmd] else [].

Definition frontend_plan : list instr :=
  if negb (is_dir E (FRONTEND_PATH C)) then
    [IWarn ("Frontend directory not found: " ++ FRONTEND_PATH C)]
  else
    [IInfo "Running frontend checks..."; ICd (FRONTEND_PATH C)] ++
    (if negb (is_dir E (in_dir (FRONTEND_PATH C) "node_modules")) then
       [IWarn "node_modules not found - installing dependencies...";
        INpmInstall]
     else []) ++
    frontend_slot true "lint" "frontend_eslint" "Frontend: ESLint"
      ["npm"; "run"; "lint"; "--silent"] ++
    (if level_standard_or_full C then
       frontend_slot true "type-check" "frontend_typecheck"
         "Frontend: TypeScript type check"
         ["npm"; "run"; "type-check"; "--silent"]
     else []) ++
    (if LEVEL C =? "full" then
       frontend_slot true "test" "frontend_jest" "Frontend: Jest tests"
         ["npm"; "test"; "--"; "--passWithNoTests"; "--watchAll=false"] ++
       frontend_slot false "build" "frontend_build" "Frontend: Build check"
         ["npm"; "run"; "build"]
     else []) ++
    [ICd (PROJECT_ROOT E)].

Definition main_plan : list instr :=
  if TARGET C =? "all" then backend_plan ++ frontend_plan
  else if TARGET C =? "backend" then backend_plan
  else if TARGET C =? "frontend" then frontend_plan
  else [].

Lemma interp_slot (p p' : list instr) (m k : Sh unit) (s : RunState) :
  (forall s', m s' = interp p s') -> (forall s', k s' = interp p' s') ->
  bind m (fun _ => k) s = interp (p ++ p') s.
Proof.
  intros Hm Hk. rewrite interp_app. unfold bind. rewrite Hm.
  destruct (interp p s) as [[[]|st] s']; auto.
Qed.

Lemma interp_backend_slot tool name description args warning (s : RunState) :
  (if negb (resolve_tool E tool =? "") then
     run_check E C name description (resolve_tool E tool :: args)
   else log_warning E C warning) s =
  interp (backend_slot tool name description args warning) s.
Proof.
  unfold backend_slot. destruct (negb (resolve_tool E tool =? ""));
    cbn [interp step]; now rewrite bind_ret_tt.
Qed.

Lemma interp_frontend_slot quiet script name description cmd (m : Sh unit) :
  m = step (IRun quiet name description cmd) ->
  forall s : RunState,
    when (package_has E C script) m s =
    interp (frontend_slot quiet script name description cmd) s.
Proof.
  intros -> s. unfold frontend_slot. destruct (package_has E C script);
    cbn [interp when]; now rewrite ?bind_ret_tt.
Qed.

Lemma run_backend_checks_plan (s : RunState) :
  run_backend_checks E C s = interp backend_plan s.
Proof.
  unfold run_backend_checks, backend_plan.
  destruct (negb (is_dir E (BACKEND_PATH C))).
  { cbn [interp step]. now rewrite bind_ret_tt. }
  cbn [app interp step]. do 3 (apply bind_ext; intros [] ?).
  apply interp_slot; [apply interp_backend_slot|intros ?].
  apply interp_slot; [apply interp_backend_slot|intros ?].
  apply interp_slot; [intros ?|intros ?].
  { destruct (level_standard_or_full C); cbn [when]; [|reflexivity].
    apply interp_slot; apply interp_backend_slot. }
  apply interp_slot; [intros ?|intros ?].
  { destruct (LEVEL C =? "full"); cbn [when]; [|reflexivity].
    destruct (is_dir E (in_dir (BACKEND_PATH C) "tests")); cbn [andb when].
    - apply interp_backend_slot.
    - destruct (negb (resolve_tool E "pytest" =? "")); reflexivity. }
  cbn [interp step]. now rewrite bind_ret_tt.
Qed.

Lemma run_frontend_checks_plan (s : RunState) :
  run_frontend_checks E C s = interp frontend_plan s.
Proof.
  unfold run_frontend_checks, frontend_plan.
  destruct (negb (is_dir E (FRONTEND_PATH C))).
  { cbn [interp step]. now rewrite bind_ret_tt. }
  cbn [app interp step]. do 2 (apply bind_ext; intros [] ?).
  apply interp_slot; [intros ?|intros ?].
  { destruct (negb (is_dir E (in_dir (FRONTEND_PATH C) "node_modules")));
      cbn [when interp step]; [|reflexivity].
    apply bind_ext; intros [] ?. now rewrite bind_ret_tt. }
  apply interp_slot; [now apply interp_frontend_slot|intros ?].
  apply interp_slot; [intros ?|intros ?].
  { destruct (level_standard_or_full C); cbn [when]; [|reflexivity].
    now apply interp_frontend_slot. }
  apply interp_slot; [intros ?|intros ?].
  { destruct (LEVEL C =? "full"); cbn [when]; [|reflexivity].
    apply interp_slot; now apply interp_frontend_slot. }
  cbn [interp step]. now rewrite bind_ret_tt.
Qed.

(** The [case "${TARGET}"] of [main]. *)
Definition check_phase : Sh unit :=
  if TARGET C =? "all" then
    run_backend_checks E C ;; run_frontend_checks E C
  else if TARGET C =? "backend" then run_backend_checks E C
  else if TARGET C =? "frontend" then run_frontend_checks E C
  else ret tt.

Lemma check_phase_plan (s : RunState) :
  check_phase s = interp main_plan s.
Proof.
  unfold check_phase, main_plan.
  destruct (TARGET C =? "all").
  - rewrite interp_app. unfold bind.
    rewrite run_backend_checks_plan.
    destruct (interp backend_plan s) as [[[]|st] s']; auto.
    apply run_frontend_checks_plan.
  - destruct (TARGET C =? "backend"); [apply run_backend_checks_plan|].
    destruct (TARGET C =? "frontend"); [apply run_frontend_checks_plan|].
    reflexivity.
Qed.

(** [main_body], phase by phase. *)
Definition after_banner (s : RunState) : RunState :=
  snd ((setup_temp E ;;
        log_info E C "Starting code review..." ;;
        log_info E C ("Level: " ++ LEVEL C ++ " | Target: " ++ TARGET C ++
                      " | Output: " ++ OUTPUT C)) s).

Definition finish (s : RunState) : result unit * RunState :=
  match output_results E C s with
  | (Done _, s') =>
      (Exited (if (0 <? TOTAL_ERRORS (store s'))%nat then 1%Z else 0%Z), s')
  | (Exited st, s') => (Exited st, s')
  end.

Lemma main_body_phases (s : RunState) :
  main_body E C s =
  match check_dependencies E C (after_banner s) with
  | (Exited st, s1) => (Exited st, s1)
  | (Done _, s1) =>
      match interp main_plan s1 with
      | (Exited st, s2) => (Exited st, s2)
      | (Done _, s2) => finish s2
      end
  end.
Proof.
  unfold main_body, after_banner, finish.
  assert (Hs : forall (A : Type) (k : Sh A),
             (setup_temp E ;; k) s = k (emit [MkTemp (TEMP_DIR E)] s))
    by reflexivity.
  rewrite !Hs. generalize (emit [MkTemp (TEMP_DIR E)] s). clear Hs s.
  intros s.
  rewrite <- (bind_assoc (log_info E C "Starting code review...")).
  unfold bind at 1.
  destruct ((log_info E C "Starting code review..." ;; log_info E C _) s)
    as [[[]|st] s0] eqn:Hb.
  2:{ exfalso. revert Hb. unfold bind, log_info, when, err_line, modify, ret.
      destruct (OUTPUT C =? "text"); discriminate. }
  simpl snd. unfold bind at 1.
  destruct (check_dependencies E C s0) as [[[]|st] s1]; [|reflexivity].
  unfold bind at 1. fold check_phase. rewrite check_phase_plan.
  destruct (interp main_plan s1) as [[[]|st] s2]; [|reflexivity].
  unfold bind at 1.
  destruct (output_results E C s2) as [[[]|st] s3]; [|reflexivity].
  unfold bind, get.
  destruct (0 <? TOTAL_ERRORS (store s3))%nat; reflexivity.
Qed.

(** *** What a command does, written out *)

Definition tagged (color tag msg : string) : string :=
  color ++ tag ++ RESET (palette E C) ++ " " ++ msg.

Definition text_only (lines : list string) : list string :=
  if OUTPUT C =? "text" then lines else [].

Definition report_events (null ee : bool) (t : Store) : list event :=
  if negb (OUTPUT_FILE C =? "") then
    if writable E (OUTPUT_FILE C) then
      FileWrite (OUTPUT_FILE C) (render E C t) ::
      on_stderr null
        (text_only [tagged (BLUE (palette E C)) "[INFO]"
                      ("Results written to: " ++ OUTPUT_FILE C)])
    else
      FileWriteFailed (OUTPUT_FILE C) ::
      on_stderr null [redirect_error E (OUTPUT_FILE C)] ++
      (if ee then []
       else on_stderr null
              (text_only [tagged (BLUE (palette E C)) "[INFO]"
                            ("Results written to: " ++ OUTPUT_FILE C)]))
  else [Stdout (render E C t)].

Definition write_fails : bool :=
  negb (OUTPUT_FILE C =? "") && negb (writable E (OUTPUT_FILE C)).

Lemma output_results_eq s :
  output_results E C s =
  (if write_fails && errexit s then Exited 1%Z else Done tt,
   emit (report_events (stderr_null s) (errexit s) (store s)) s).
Proof.
  cbv beta iota delta [output_results write_fails report_events bind get
    modify log_info when err_line exit ret text_only on_stderr tagged].
  destruct (negb (OUTPUT_FILE C =? "")); cbv beta iota; [|reflexivity].
  destruct (writable E (OUTPUT_FILE C)); cbn [negb andb].
  - destruct (OUTPUT C =? "text"); rewrite ?emit_emit;
      cbn [stderr_null emit]; destruct (stderr_null s);
      cbn [map app]; rewrite ?app_nil_r; reflexivity.
  - destruct (errexit s); cbv beta iota;
      destruct (OUTPUT C =? "text"); rewrite ?emit_emit;
      cbn [stderr_null emit]; destruct (stderr_null s);
      cbn [map app]; rewrite ?app_nil_r; reflexivity.
Qed.

Definition check_failed (dir : string) (cmd : list string) : bool :=
  negb (exit_code (exec E dir cmd) =? 0)%Z.

Definition duration_of (dir : string) (cmd : list string) : string :=
  dec_Z (clamp_duration (ts_before (exec E dir cmd))
           (ts_after (exec E dir cmd))).

(** The store after one check. *)
Definition store_after_check (name dir : string) (cmd : list string)
  (t : Store) : Store :=
  let output_file := output_path E (CHECK_COUNT t) in
  let t1 := write_scratch output_file (combined (exec E dir cmd)) t in
  if check_failed dir cmd then
    incr_TOTAL_ERRORS
      (append_result name "failed" (duration_of dir cmd) output_file t1)
  else append_result name "passed" (duration_of dir cmd) "" t1.

Definition verbose_only (lines : list string) : list string :=
  if (VERBOSE C =? "1") && (OUTPUT C =? "text") then lines else [].

(** The [head -50] of [run_check]. *)
Definition verbose_dump (null : bool) (dir : string) (cmd : list string)
  : list event :=
  if (VERBOSE C =? "1") && (OUTPUT C =? "text") then
    bytes_on_stderr null (head 50 (combined (exec E dir cmd)))
  else [].

(** What one check does to the outside. *)
Definition check_events (null : bool) (name description dir : string)
  (cmd : list string) (t : Store) : list event :=
  on_stderr null
    (verbose_only [tagged (CYAN (palette E C)) "[DEBUG]"
                     ("Running: " ++ join " " cmd)]) ++
  Spawn dir cmd (Some (output_path E (CHECK_COUNT t))) ::
  (if check_failed dir cmd then
     on_stderr null
       (text_only [tagged (RED (palette E C)) "[FAIL]" description]) ++
     verbose_dump null dir cmd ++
     (if FAIL_FAST C =? "1" then
        report_events null true (store_after_check name dir cmd t)
      else [])
   else
     on_stderr null
       (text_only [tagged (GREEN (palette E C)) "[PASS]" description])).

Definition checked (name : string) (cmd : list string) (s : RunState)
  : RunState :=
  {| store := store_after_check name (cwd s) cmd (store s);
     errexit := true; cwd := cwd s; stderr_null := stderr_null s;
     trace := trace s |}.

Lemma run_check_eq name description cmd s :
  run_check E C name description cmd s =
  (if check_failed (cwd s) cmd && (FAIL_FAST C =? "1") then Exited 1%Z
   else Done tt,
   emit (check_events (stderr_null s) name description (cwd s) cmd (store s))
     (checked name cmd s)).
Proof.
  cbv beta iota zeta delta [run_check bind get modify log_verbose log_success
    log_error store_result when err_line err_bytes exit ret check_events
    check_failed verbose_only verbose_dump bytes_on_stderr text_only tagged].
  destruct (OUTPUT C =? "text"), (VERBOSE C =? "1");
    cbn [andb negb]; cbv beta iota; state_fields;
    (destruct (exit_code (exec E (cwd s) cmd) =? 0)%Z eqn:Hx;
     cbn [andb negb]; cbv beta iota;
     [| destruct (FAIL_FAST C =? "1"); cbv beta iota;
        rewrite ?output_results_eq; state_fields;
        rewrite ?andb_true_r; try destruct write_fails; cbv beta iota ]);
    (f_equal; apply state_ext; unfold checked; state_fields;
     unfold store_after_check, check_failed, duration_of; rewrite ?Hx;
     cbn [negb]; try reflexivity;
     unfold on_stderr; destruct (stderr_null s); cbn [map app];
     rewrite <- ?app_assoc; cbn [app]; rewrite ?app_nil_r; reflexivity).
Qed.

(** *** What a sequence does, written out *)

Definition instr_exits (dir : string) (i : instr) : bool :=
  match i with
  | IRun _ _ _ cmd => check_failed dir cmd && (FAIL_FAST C =? "1")
  | _ => false
  end.

Definition instr_store (dir : string) (t : Store) (i : instr) : Store :=
  match i with
  | IRun _ name _ cmd => store_after_check name dir cmd t
  | _ => t
  end.

Definition instr_dir (dir : string) (i : instr) : string :=
  match i with
  | ICd d => d
  | _ => dir
  end.

Definition instr_errexit (ee : bool) (i : instr) : bool :=
  match i with
  | IRun _ _ _ _ => true
  | _ => ee
  end.

Definition instr_events (null : bool) (dir : string) (t : Store) (i : instr)
  : list event :=
  match i with
  | IRun quiet name description cmd =>
      check_events (quiet || null) name description dir cmd t
  | ICd _ => []
  | IInfo msg =>
      on_stderr null (text_only [tagged (BLUE (palette E C)) "[INFO]" msg])
  | IWarn msg =>
      on_stderr null (text_only [tagged (YELLOW (palette E C)) "[WARN]" msg])
  | IVerbose msg =>
      on_stderr null
        (verbose_only [tagged (CYAN (palette E C)) "[DEBUG]" msg])
  | INpmInstall =>
      [Spawn dir ["npm"; "install"; "--silent"] None;
       StdoutBytes (stdout_only (exec E dir ["npm"; "install"; "--silent"]))]
  end.

Definition after_instr (i : instr) (s : RunState) : RunState :=
  {| store := instr_store (cwd s) (store s) i;
     errexit := instr_errexit (errexit s) i;
     cwd := instr_dir (cwd s) i;
     stderr_null := stderr_null s;
     trace := trace s ++ instr_events (stderr_null s) (cwd s) (store s) i |}.

Lemma log_eq (color tag msg : string) (s : RunState) :
  when (OUTPUT C =? "text")
    (err_line (color ++ tag ++ RESET (palette E C) ++ " " ++ msg)) s =
  (Done tt,
   emit (on_stderr (stderr_null s) (text_only [tagged color tag msg])) s).
Proof.
  unfold when, err_line, modify, ret, text_only, on_stderr, tagged.
  destruct (OUTPUT C =? "text"), (stderr_null s); cbn [map];
    rewrite ?emit_nil; reflexivity.
Qed.

Lemma step_eq (i : instr) (s : RunState) :
  step i s =
  (if instr_exits (cwd s) i then Exited 1%Z else Done tt, after_instr i s).
Proof.
  destruct i as [[|] name description cmd|dir|msg|msg|msg|];
    cbn [step instr_exits].
  - unfold stderr_to_null. rewrite run_check_eq. reflexivity.
  - rewrite run_check_eq. reflexivity.
  - unfold modify, after_instr. f_equal. apply state_ext; state_fields;
      cbn [instr_events instr_store instr_errexit instr_dir];
      rewrite ?app_nil_r; reflexivity.
  - unfold log_info. rewrite log_eq. reflexivity.
  - unfold log_warning. rewrite log_eq. reflexivity.
  - unfold log_verbose, when, err_line, modify, ret, after_instr.
    cbn [instr_events instr_store instr_errexit instr_dir].
    unfold verbose_only, on_stderr, tagged.
    destruct ((VERBOSE C =? "1") && (OUTPUT C =? "text"));
      f_equal; apply state_ext; state_fields; try reflexivity;
      destruct (stderr_null s); cbn [map]; rewrite ?app_nil_r; reflexivity.
  - unfold npm_install, bind, get, modify. reflexivity.
Qed.

Fixpoint after_plan (p : list instr) (s : RunState) : RunState :=
  match p with
  | [] => s
  | i :: rest =>
      if instr_exits (cwd s) i then after_instr i s
      else after_plan rest (after_instr i s)
  end.

Fixpoint plan_exits (dir : string) (p : list instr) : bool :=
  match p with
  | [] => false
  | i :: rest => instr_exits dir i || plan_exits (instr_dir dir i) rest
  end.

Lemma interp_eq (p : list instr) (s : RunState) :
  interp p s =
  (if plan_exits (cwd s) p then Exited 1%Z else Done tt, after_plan p s).
Proof.
  revert s. induction p as [|i p IH]; intros s; cbn [interp after_plan plan_exits].
  - reflexivity.
  - unfold bind. rewrite step_eq.
    destruct (instr_exits (cwd s) i); cbn [orb]; [reflexivity|].
    rewrite IH. reflexivity.
Qed.

(** A property of states kept by every instruction is kept by every
    sequence, whether it runs to its end or stops at a failed check. *)
Lemma after_plan_invariant (I : RunState -> Prop) :
  (forall i s, I s -> I (after_instr i s)) ->
  forall p s, I s -> I (after_plan p s).
Proof.
  intros Hstep p. induction p as [|i p IH]; intros s Hs; cbn [after_plan].
  - exact Hs.
  - destruct (instr_exits (cwd s) i); auto.
Qed.

(** The checks a sequence attempts, in order, each with whether it failed:
    all of its checks, or with fail-fast those up to the first failure. *)
Fixpoint attempted (dir : string) (p : list instr) : list (string * bool) :=
  match p with
  | [] => []
  | IRun _ name _ cmd :: rest =>
      (name, check_failed dir cmd) ::
      (if check_failed dir cmd && (FAIL_FAST C =? "1") then []
       else attempted dir rest)
  | i :: rest => attempted (instr_dir dir i) rest
  end.

Definition status_of (failed : bool) : string :=
  if failed then "failed" else "passed".

Lemma names_after_check name dir cmd t :
  names_txt (store_after_check name dir cmd t) = (names_txt t ++ [name])%list.
Proof. unfold store_after_check. destruct (check_failed dir cmd); reflexivity. Qed.

Lemma statuses_after_check name dir cmd t :
  statuses_txt (store_after_check name dir cmd t) =
  (statuses_txt t ++ [status_of (check_failed dir cmd)])%list.
Proof. unfold store_after_check. destruct (check_failed dir cmd); reflexivity. Qed.

Lemma names_after_plan (p : list instr) (s : RunState) :
  names_txt (store (after_plan p s)) =
  (names_txt (store s) ++ map fst (attempted (cwd s) p))%list.
Proof.
  revert s. induction p as [|i p IH]; intros s; cbn [after_plan attempted].
  - cbn [map]. now rewrite app_nil_r.
  - destruct i as [qu name description cmd|dir|msg|msg|msg|];
      cbn [instr_exits]; try (rewrite IH; reflexivity).
    destruct (check_failed (cwd s) cmd && (FAIL_FAST C =? "1")).
    + cbn [after_instr store instr_store map fst].
      now rewrite names_after_check.
    + rewrite IH. cbn [after_instr store instr_store cwd instr_dir map fst].
      rewrite names_after_check, <- app_assoc. reflexivity.
Qed.

Lemma statuses_after_plan (p : list instr) (s : RunState) :
  statuses_txt (store (after_plan p s)) =
  (statuses_txt (store s) ++
   map (fun c => status_of (snd c)) (attempted (cwd s) p))%list.
Proof.
  revert s. induction p as [|i p IH]; intros s; cbn [after_plan attempted].
  - cbn [map]. now rewrite app_nil_r.
  - destruct i as [qu name description cmd|dir|msg|msg|msg|];
      cbn [instr_exits]; try (rewrite IH; reflexivity).
    destruct (check_failed (cwd s) cmd && (FAIL_FAST C =? "1")).
    + cbn [after_instr store instr_store map snd].
      now rewrite statuses_after_check.
    + rewrite IH. cbn [after_instr store instr_store cwd instr_dir map snd].
      rewrite statuses_after_check, <- app_assoc. reflexivity.
Qed.

(** *** The whole run, written out *)

Definition deps_ok : bool := missing_dependencies E C =? "".

Lemma check_dependencies_eq (s : RunState) :
  check_dependencies E C s =
  if deps_ok then (Done tt, s)
  else (Exited 3%Z,
        emit (on_stderr (stderr_null s)
                ["Missing dependencies:" ++ missing_dependencies E C]) s).
Proof.
  unfold check_dependencies, deps_ok, when, bind, err_line, modify, exit, ret.
  destruct (missing_dependencies E C =? ""); cbn [negb]; [reflexivity|].
  unfold on_stderr. destruct (stderr_null s); cbn [map]; reflexivity.
Qed.

Definition banner : list string :=
  text_only
    [tagged (BLUE (palette E C)) "[INFO]" "Starting code review...";
     tagged (BLUE (palette E C)) "[INFO]"
       ("Level: " ++ LEVEL C ++ " | Target: " ++ TARGET C ++
        " | Output: " ++ OUTPUT C)].

Lemma after_banner_eq (s : RunState) :
  after_banner s =
  emit (MkTemp (TEMP_DIR E) :: on_stderr (stderr_null s) banner) s.
Proof.
  unfold after_banner, bind, setup_temp, modify, log_info. rewrite log_eq.
  rewrite log_eq. cbn [snd]. rewrite !emit_emit. state_fields.
  unfold banner, text_only, on_stderr.
  destruct (OUTPUT C =? "text"), (stderr_null s); reflexivity.
Qed.

(** The state in which [main] leaves the check phase. *)
Definition checked_state : RunState :=
  after_plan main_plan (after_banner (initial (PWD E))).

(** Whether the check phase stopped the script at a failed check. *)
Definition stopped_early : bool := plan_exits (PWD E) main_plan.

(** The last thing a run does. *)
Definition cleanup_events : list event := [RmTemp (TEMP_DIR E)].

Lemma run_eq :
  run E C =
  if deps_ok then
    if stopped_early then (1%Z, emit cleanup_events checked_state)
    else
      (if write_fails && errexit checked_state then 1%Z
       else if (0 <? TOTAL_ERRORS (store checked_state))%nat then 1%Z
       else 0%Z,
       emit cleanup_events
         (emit (report_events (stderr_null checked_state)
                  (errexit checked_state) (store checked_state))
            checked_state))
  else
    (3%Z,
     emit cleanup_events
       (emit [Stderr ("Missing dependencies:" ++ missing_dependencies E C)]
          (after_banner (initial (PWD E))))).
Proof.
  unfold run, run_script, cleanup, cleanup_events.
  rewrite main_body_phases, check_dependencies_eq.
  destruct deps_ok.
  - rewrite interp_eq. unfold stopped_early, checked_state.
    assert (Hc : cwd (after_banner (initial (PWD E))) = PWD E)
      by (rewrite after_banner_eq; reflexivity).
    rewrite Hc.
    destruct (plan_exits (PWD E) main_plan); [reflexivity|].
    unfold finish. rewrite output_results_eq.
    destruct (write_fails && errexit _); reflexivity.
  - rewrite after_banner_eq. reflexivity.
Qed.

(** *** Invariants of the result store *)

Definition failed_count (statuses : list string) : nat :=
  count_occ string_dec statuses "failed".

(** The four files have one line per stored check, [CHECK_COUNT] counts
    the lines, every status is one of the two words [run_check] writes, and
    [TOTAL_ERRORS] counts the failed ones. *)
Record store_ok (t : Store) : Prop := {
  ok_count : CHECK_COUNT t = length (names_txt t);
  ok_statuses : length (statuses_txt t) = length (names_txt t);
  ok_durations : length (durations_txt t) = length (names_txt t);
  ok_outputs : length (outputs_txt t) = length (names_txt t);
  ok_values :
    Forall (fun st => st = "passed" \/ st = "failed") (statuses_txt t);
  ok_errors : TOTAL_ERRORS t = failed_count (statuses_txt t)
}.

Lemma failed_count_app (l1 l2 : list string) :
  failed_count (l1 ++ l2) = failed_count l1 + failed_count l2.
Proof. apply count_occ_app. Qed.

Lemma store_ok_empty : store_ok empty_store.
Proof. split; cbn; auto. Qed.

Lemma store_ok_after_check name dir cmd t :
  store_ok t -> store_ok (store_after_check name dir cmd t).
Proof.
  intros [Hc Hs Hd Ho Hv He]. unfold store_after_check.
  destruct (check_failed dir cmd); split;
    cbn [incr_TOTAL_ERRORS append_result write_scratch CHECK_COUNT
         TOTAL_ERRORS names_txt statuses_txt durations_txt outputs_txt];
    rewrite ?length_app, ?failed_count_app; cbn [length];
    try lia;
    try (apply Forall_app; split; [assumption|]; constructor; auto);
    cbn; lia.
Qed.

Lemma store_ok_after_instr i s :
  store_ok (store s) -> store_ok (store (after_instr i s)).
Proof.
  destruct i; cbn [after_instr store instr_store]; auto.
  apply store_ok_after_check.
Qed.

Lemma store_ok_after_plan p s :
  store_ok (store s) -> store_ok (store (after_plan p s)).
Proof.
  apply (after_plan_invariant (fun s => store_ok (store s))).
  apply store_ok_after_instr.
Qed.

Lemma store_after_banner s : store (after_banner s) = store s.
Proof. rewrite after_banner_eq. reflexivity. Qed.

Lemma store_ok_checked_state : store_ok (store checked_state).
Proof.
  apply store_ok_after_plan. rewrite store_after_banner. apply store_ok_empty.
Qed.

(** [errexit] is on exactly when a check has been run. *)
Definition errexit_ok (s : RunState) : Prop :=
  errexit s = (0 <? CHECK_COUNT (store s))%nat.

Lemma count_after_check name dir cmd t :
  CHECK_COUNT (store_after_check name dir cmd t) = CHECK_COUNT t + 1.
Proof. unfold store_after_check. destruct (check_failed dir cmd); reflexivity. Qed.

Lemma errexit_ok_after_plan p s :
  errexit_ok s -> errexit_ok (after_plan p s).
Proof.
  apply (after_plan_invariant errexit_ok).
  intros i s0 H. unfold errexit_ok in *.
  destruct i; cbn [after_instr store instr_store errexit instr_errexit]; auto.
  rewrite count_after_check. symmetry. apply Nat.ltb_lt. lia.
Qed.

Lemma errexit_ok_checked_state : errexit_ok checked_state.
Proof.
  apply errexit_ok_after_plan. rewrite after_banner_eq. reflexivity.
Qed.

Lemma errors_after_check name dir cmd t :
  TOTAL_ERRORS (store_after_check name dir cmd t) =
  TOTAL_ERRORS t + (if check_failed dir cmd then 1 else 0).
Proof.
  unfold store_after_check. destruct (check_failed dir cmd); cbn; lia.
Qed.

(** A sequence stops the script only after counting a failure. *)
Lemma plan_exits_errors p s :
  plan_exits (cwd s) p = true -> 0 < TOTAL_ERRORS (store (after_plan p s)).
Proof.
  revert s. induction p as [|i p IH]; intros s; cbn [plan_exits after_plan].
  - discriminate.
  - destruct (instr_exits (cwd s) i) eqn:Hx; cbn [orb].
    + intros _. destruct i; try discriminate. cbn [instr_exits] in Hx.
      apply andb_prop in Hx as [Hf _].
      cbn [after_instr store instr_store]. rewrite errors_after_check, Hf. lia.
    + intros H. apply IH. exact H.
Qed.

(** With fail-fast, a failed check is the last one attempted and stops
    the script. *)
Lemma attempted_fail_fast dir p name rest :
  FAIL_FAST C = "1" ->
  attempted dir p = (name, true) :: rest ->
  rest = [] /\ plan_exits dir p = true.
Proof.
  intros Hff. revert dir.
  induction p as [|i p IH]; intros dir; cbn [attempted plan_exits].
  - discriminate.
  - destruct i as [qu n d cmd|dir'|msg|msg|msg|];
      cbn [instr_exits instr_dir orb]; try apply IH.
    rewrite Hff. intros H. injection H as _ Hf Hr.
    rewrite Hf in *. cbn in Hr. auto.
Qed.

(** *** Invariants of the trace *)

Definition is_check_spawn (e : event) : bool :=
  match e with
  | Spawn _ _ (Some _) => true
  | _ => false
  end.

(** The checks run so far: the commands spawned with their output
    captured. *)
Definition checks_run (tr : list event) : list event :=
  filter is_check_spawn tr.

Lemma checks_run_on_stderr null lines : checks_run (on_stderr null lines) = [].
Proof.
  unfold on_stderr. destruct null; [reflexivity|].
  induction lines; cbn; auto.
Qed.

Lemma checks_run_app a b : checks_run (a ++ b) = (checks_run a ++ checks_run b)%list.
Proof. apply filter_app. Qed.

Lemma checks_run_cons e tr :
  checks_run (e :: tr) =
  if is_check_spawn e then e :: checks_run tr else checks_run tr.
Proof. reflexivity. Qed.

Lemma checks_run_report null ee t : checks_run (report_events null ee t) = [].
Proof.
  unfold report_events.
  destruct (negb (OUTPUT_FILE C =? "")); [|reflexivity].
  destruct (writable E (OUTPUT_FILE C)); rewrite checks_run_cons;
    cbn [is_check_spawn]; rewrite ?checks_run_app, ?checks_run_on_stderr;
    [reflexivity|].
  destruct ee; [reflexivity|]. apply checks_run_on_stderr.
Qed.

Lemma checks_run_verbose_dump null dir cmd :
  checks_run (verbose_dump null dir cmd) = [].
Proof.
  unfold verbose_dump, bytes_on_stderr.
  destruct ((VERBOSE C =? "1") && (OUTPUT C =? "text")), null; reflexivity.
Qed.

Lemma checks_run_check_events null name description dir cmd t :
  checks_run (check_events null name description dir cmd t) =
  [Spawn dir cmd (Some (output_path E (CHECK_COUNT t)))].
Proof.
  unfold check_events. rewrite checks_run_app, checks_run_on_stderr.
  cbn [app]. rewrite checks_run_cons. cbn [is_check_spawn]. f_equal.
  destruct (check_failed dir cmd).
  - rewrite !checks_run_app, checks_run_on_stderr, checks_run_verbose_dump.
    destruct (FAIL_FAST C =? "1"); [apply checks_run_report|reflexivity].
  - apply checks_run_on_stderr.
Qed.

(** One captured command per stored result. *)
Definition trace_ok (s : RunState) : Prop :=
  length (checks_run (trace s)) = CHECK_COUNT (store s).

Lemma trace_ok_after_plan p s : trace_ok s -> trace_ok (after_plan p s).
Proof.
  apply (after_plan_invariant trace_ok).
  intros i s0 H. unfold trace_ok in *.
  cbn [after_instr trace store]. rewrite checks_run_app, length_app, H.
  destruct i; cbn [instr_events instr_store];
    rewrite ?checks_run_on_stderr, ?checks_run_check_events,
      ?count_after_check; cbn; lia.
Qed.

Lemma trace_ok_checked_state : trace_ok checked_state.
Proof.
  apply trace_ok_after_plan. rewrite after_banner_eq. unfold trace_ok.
  cbn [emit trace store initial app]. rewrite checks_run_cons.
  cbn [is_check_spawn]. now rewrite checks_run_on_stderr.
Qed.

(** Where [output_results] starts: the report goes to standard output or
    to [OUTPUT_FILE], or the file cannot be opened. *)
Definition report_event (t : Store) : event :=
  if negb (OUTPUT_FILE C =? "") then
    if writable E (OUTPUT_FILE C) then FileWrite (OUTPUT_FILE C) (render E C t)
    else FileWriteFailed (OUTPUT_FILE C)
  else Stdout (render E C t).

Lemma report_event_first null ee t :
  exists rest, report_events null ee t = report_event t :: rest.
Proof.
  unfold report_events, report_event.
  destruct (negb (OUTPUT_FILE C =? "")); [|eauto].
  destruct (writable E (OUTPUT_FILE C)); eauto.
Qed.

(** A sequence that stops the script has rendered the store before. *)
Lemma plan_exits_report p s :
  plan_exits (cwd s) p = true ->
  In (report_event (store (after_plan p s))) (trace (after_plan p s)).
Proof.
  revert s. induction p as [|i p IH]; intros s; cbn [plan_exits after_plan].
  - discriminate.
  - destruct (instr_exits (cwd s) i) eqn:Hx; cbn [orb].
    + intros _. destruct i; try discriminate. cbn [instr_exits] in Hx.
      apply andb_prop in Hx as [Hf Hff].
      cbn [after_instr store trace instr_store instr_events].
      apply in_or_app. right. unfold check_events.
      apply in_or_app. right. right. rewrite Hf, Hff.
      apply in_or_app. right. apply in_or_app. right.
      destruct (report_event_first (quiet || stderr_null s) true
                  (store_after_check name (cwd s) cmd (store s))) as [r ->].
      left. reflexivity.
    + intros H. apply IH. exact H.
Qed.

(** *** The captured-output files *)

Lemma append_inj_l (p x y : string) : p ++ x = p ++ y -> x = y.
Proof.
  induction p as [|c p IH]; cbn; intros H; [exact H|].
  injection H as H. auto.
Qed.

Lemma append_inj_same_length (x y z z' : string) :
  String.length x = String.length y -> x ++ z = y ++ z' -> x = y.
Proof.
  revert y. induction x as [|c x IH]; intros [|d y]; cbn; try discriminate.
  - reflexivity.
  - intros Hl H. injection Hl as Hl. injection H as -> H.
    f_equal. eauto.
Qed.

Lemma length_append (x y : string) :
  String.length (x ++ y) = String.length x + String.length y.
Proof. induction x; cbn; auto. Qed.

Lemma append_inj_r (x y z : string) : x ++ z = y ++ z -> x = y.
Proof.
  intros H. apply append_inj_same_length with (z := z) (z' := z); [|exact H].
  apply (f_equal String.length) in H. rewrite !length_append in H. lia.
Qed.

Lemma dec_nat_inj (a b : nat) : dec_nat a = dec_nat b -> a = b.
Proof.
  unfold dec_nat. intros H. apply DecimalNat.Unsigned.to_uint_inj.
  apply (f_equal NilEmpty.uint_of_string) in H.
  rewrite !NilEmpty.usu in H. now injection H.
Qed.

(** Every check writes to a file of its own. *)
Lemma output_path_inj (a b : nat) : output_path E a = output_path E b -> a = b.
Proof.
  unfold output_path. intros H.
  apply append_inj_l, append_inj_l, append_inj_r in H.
  now apply dec_nat_inj.
Qed.

(** What the store and the trace keep of check number [i]: the command
    was spawned with its output sent to [output_i.txt], the file holds
    what the command printed, line [i+1] of [statuses.txt] tells whether it
    failed, and line [i+1] of [outputs.txt] names the file when it did. *)
Definition recorded (s : RunState) (i : nat) (dir : string)
  (cmd : list string) : Prop :=
  In (Spawn dir cmd (Some (output_path E i))) (trace s) /\
  scratch_file (output_path E i) (scratch (store s)) =
    Some (combined (exec E dir cmd)) /\
  nth i (statuses_txt (store s)) "" = status_of (check_failed dir cmd) /\
  nth i (outputs_txt (store s)) "" =
    (if check_failed dir cmd then output_path E i else "").

Definition files_ok (s : RunState) : Prop :=
  store_ok (store s) /\
  forall i, i < CHECK_COUNT (store s) -> exists dir cmd, recorded s i dir cmd.

Lemma scratch_after_check name dir cmd t :
  scratch (store_after_check name dir cmd t) =
  (output_path E (CHECK_COUNT t), combined (exec E dir cmd)) :: scratch t.
Proof. unfold store_after_check. destruct (check_failed dir cmd); reflexivity. Qed.

Lemma outputs_after_check name dir cmd t :
  outputs_txt (store_after_check name dir cmd t) =
  (outputs_txt t ++
   [if check_failed dir cmd then output_path E (CHECK_COUNT t) else ""])%list.
Proof. unfold store_after_check. destruct (check_failed dir cmd); reflexivity. Qed.

Lemma files_ok_after_instr i s : files_ok s -> files_ok (after_instr i s).
Proof.
  intros [Hok Hrec]. split; [now apply store_ok_after_instr|].
  destruct i as [qu name description cmd|dir|msg|msg|msg|];
    try (intros j Hj; destruct (Hrec j Hj) as (d & c & Hin & Hf & Hs & Ho);
         exists d, c; repeat split; auto;
         cbn [after_instr trace]; apply in_or_app; now left).
  cbn [after_instr store instr_store]. rewrite count_after_check.
  intros j Hj.
  assert (Hls : length (statuses_txt (store s)) = CHECK_COUNT (store s))
    by (destruct Hok; lia).
  assert (Hlo : length (outputs_txt (store s)) = CHECK_COUNT (store s))
    by (destruct Hok; lia).
  destruct (Nat.eq_dec j (CHECK_COUNT (store s))) as [->|Hne].
  - exists (cwd s), cmd. unfold recorded.
    cbn [after_instr store trace instr_store instr_events].
    rewrite scratch_after_check, statuses_after_check, outputs_after_check.
    repeat split.
    + apply in_or_app. right. unfold check_events.
      apply in_or_app. right. left. reflexivity.
    + cbn [scratch_file]. now rewrite String.eqb_refl.
    + rewrite app_nth2, Hls, Nat.sub_diag by lia. reflexivity.
    + rewrite app_nth2, Hlo, Nat.sub_diag by lia. reflexivity.
  - destruct (Hrec j ltac:(lia)) as (d & c & Hin & Hf & Hs & Ho).
    exists d, c. unfold recorded.
    cbn [after_instr store trace instr_store instr_events].
    rewrite scratch_after_check, statuses_after_check, outputs_after_check.
    repeat split.
    + apply in_or_app. now left.
    + cbn [scratch_file].
      destruct (String.eqb_spec (output_path E (CHECK_COUNT (store s)))
                  (output_path E j)) as [Heq|_]; [|exact Hf].
      apply output_path_inj in Heq. lia.
    + rewrite app_nth1 by lia. exact Hs.
    + rewrite app_nth1 by lia. exact Ho.
Qed.

Lemma files_ok_checked_state : files_ok checked_state.
Proof.
  apply (after_plan_invariant files_ok); [apply files_ok_after_instr|].
  rewrite after_banner_eq. split; [apply store_ok_empty|].
  cbn. intros i Hi. lia.
Qed.

(** *** The catalogue behind a sequence *)

(** The checks of a sequence, each with whether it fails in the directory
    it is run in. *)
Fixpoint scheduled (dir : string) (p : list instr) : list (string * bool) :=
  match p with
  | [] => []
  | IRun _ name _ cmd :: rest =>
      (name, check_failed dir cmd) :: scheduled dir rest
  | i :: rest => scheduled (instr_dir dir i) rest
  end.

Fixpoint up_to_first_failure (l : list (string * bool)) : list (string * bool) :=
  match l with
  | [] => []
  | c :: rest => c :: (if snd c then [] else up_to_first_failure rest)
  end.

Definition cut (l : list (string * bool)) : list (string * bool) :=
  if FAIL_FAST C =? "1" then up_to_first_failure l else l.

Lemma attempted_eq dir p : attempted dir p = cut (scheduled dir p).
Proof.
  unfold cut. revert dir.
  induction p as [|i p IH]; intros dir; cbn [attempted scheduled].
  - now destruct (FAIL_FAST C =? "1").
  - destruct i as [qu n d cmd|dir'|msg|msg|msg|]; try apply IH.
    rewrite IH. destruct (FAIL_FAST C =? "1"); cbn [up_to_first_failure snd];
      rewrite ?andb_true_r, ?andb_false_r; reflexivity.
Qed.

Lemma cut_incl l : incl (cut l) l.
Proof.
  unfold cut. destruct (FAIL_FAST C =? "1"); [|apply incl_refl].
  induction l as [|c l IH]; cbn [up_to_first_failure]; [apply incl_refl|].
  destruct (snd c).
  - intros x [<-|[]]. now left.
  - intros x [<-|H]; [now left|right; auto].
Qed.

(** Checks added at the end of a catalogue take none away. *)
Lemma cut_prefix_incl a b : incl (cut a) (cut (a ++ b)).
Proof.
  unfold cut. destruct (FAIL_FAST C =? "1"); [|now apply incl_appl, incl_refl].
  induction a as [|c a IH]; cbn [up_to_first_failure app].
  - intros x [].
  - destruct (snd c).
    + intros x [<-|[]]. now left.
    + intros x [<-|H]; [now left|right; auto].
Qed.

Definition end_dir (dir : string) (p : list instr) : string :=
  fold_left instr_dir p dir.

Lemma scheduled_app dir p1 p2 :
  scheduled dir (p1 ++ p2) =
  (scheduled dir p1 ++ scheduled (end_dir dir p1) p2)%list.
Proof.
  revert dir. induction p1 as [|i p1 IH]; intros dir; [reflexivity|].
  destruct i; cbn [app scheduled end_dir fold_left instr_dir];
    rewrite IH; reflexivity.
Qed.

Definition tool_check (tool name : string) (args : list string)
  : list (string * bool) :=
  if negb (resolve_tool E tool =? "") then
    [(name, check_failed (BACKEND_PATH C) (resolve_tool E tool :: args))]
  else [].

(** The backend catalogue: what is installed, gated by the level. *)
Definition backend_checks : list (string * bool) :=
  if negb (is_dir E (BACKEND_PATH C)) then []
  else
    (tool_check "black" "backend_black" ["--check"; "--quiet"; "."] ++
     tool_check "isort" "backend_isort" ["--check-only"; "--quiet"; "."]) ++
    (if level_standard_or_full C then
       tool_check "flake8" "backend_flake8"
         ["."; "--max-line-length=88"; "--count"; "--statistics"] ++
       tool_check "mypy" "backend_mypy"
         ["."; "--ignore-missing-imports"; "--no-error-summary"]
     else []) ++
    (if LEVEL C =? "full" then
       if is_dir E (in_dir (BACKEND_PATH C) "tests") then
         tool_check "pytest" "backend_pytest"
           ["tests/"; "-v"; "--tb=short"; "-q"]
       else []
     else []).

Definition script_check (script name : string) (cmd : list string)
  : list (string * bool) :=
  if package_has E C script then
    [(name, check_failed (FRONTEND_PATH C) cmd)]
  else [].

(** The frontend catalogue: what [package.json] declares, gated by the
    level. *)
Definition frontend_checks : list (string * bool) :=
  if negb (is_dir E (FRONTEND_PATH C)) then []
  else
    script_check "lint" "frontend_eslint" ["npm"; "run"; "lint"; "--silent"] ++
    (if level_standard_or_full C then
       script_check "type-check" "frontend_typecheck"
         ["npm"; "run"; "type-check"; "--silent"]
     else []) ++
    (if LEVEL C =? "full" then
       script_check "test" "frontend_jest"
         ["npm"; "test"; "--"; "--passWithNoTests"; "--watchAll=false"] ++
       script_check "build" "frontend_build" ["npm"; "run"; "build"]
     else []).

Lemma scheduled_backend_plan dir : scheduled dir backend_plan = backend_checks.
Proof.
  unfold backend_plan, backend_checks, backend_slot, tool_check.
  destruct (negb (is_dir E (BACKEND_PATH C))); [reflexivity|].
  destruct (negb (resolve_tool E "black" =? ""));
  destruct (negb (resolve_tool E "isort" =? ""));
  destruct (level_standard_or_full C);
  destruct (negb (resolve_tool E "flake8" =? ""));
  destruct (negb (resolve_tool E "mypy" =? ""));
  destruct (LEVEL C =? "full");
  destruct (is_dir E (in_dir (BACKEND_PATH C) "tests"));
  destruct (negb (resolve_tool E "pytest" =? ""));
  reflexivity.
Qed.

Lemma scheduled_frontend_plan dir : scheduled dir frontend_plan = frontend_checks.
Proof.
  unfold frontend_plan, frontend_checks, frontend_slot, script_check.
  destruct (negb (is_dir E (FRONTEND_PATH C))); [reflexivity|].
  destruct (negb (is_dir E (in_dir (FRONTEND_PATH C) "node_modules")));
  destruct (package_has E C "lint");
  destruct (level_standard_or_full C);
  destruct (package_has E C "type-check");
  destruct (LEVEL C =? "full");
  destruct (package_has E C "test");
  destruct (package_has E C "build");
  reflexivity.
Qed.

Definition main_checks : list (string * bool) :=
  if TARGET C =? "all" then (backend_checks ++ frontend_checks)%list
  else if TARGET C =? "backend" then backend_checks
  else if TARGET C =? "frontend" then frontend_checks
  else [].

Lemma scheduled_main_plan dir : scheduled dir main_plan = main_checks.
Proof.
  unfold main_plan, main_checks.
  destruct (TARGET C =? "all").
  - now rewrite scheduled_app, scheduled_backend_plan, scheduled_frontend_plan.
  - destruct (TARGET C =? "backend"); [apply scheduled_backend_plan|].
    destruct (TARGET C =? "frontend"); [apply scheduled_frontend_plan|].
    reflexivity.
Qed.

(** The checks a run attempts. *)
Definition run_checks : list (string * bool) :=
  if deps_ok then cut main_checks else [].

Lemma store_run :
  store (snd (run E C)) = if deps_ok then store checked_state else empty_store.
Proof.
  rewrite run_eq. destruct deps_ok.
  - destruct stopped_early; reflexivity.
  - cbn [snd emit store]. apply store_after_banner.
Qed.

Lemma checked_state_names :
  names_txt (store checked_state) = map fst (cut main_checks).
Proof.
  unfold checked_state. rewrite names_after_plan, store_after_banner.
  rewrite after_banner_eq. cbn [initial store empty_store names_txt app emit cwd].
  now rewrite attempted_eq, scheduled_main_plan.
Qed.

Lemma checked_state_statuses :
  statuses_txt (store checked_state) =
  map (fun c => status_of (snd c)) (cut main_checks).
Proof.
  unfold checked_state. rewrite statuses_after_plan, store_after_banner.
  rewrite after_banner_eq.
  cbn [initial store empty_store statuses_txt app emit cwd].
  now rewrite attempted_eq, scheduled_main_plan.
Qed.

Lemma names_run : names_txt (store (snd (run E C))) = map fst run_checks.
Proof.
  rewrite store_run. unfold run_checks.
  destruct deps_ok; [apply checked_state_names|reflexivity].
Qed.

Lemma statuses_run :
  statuses_txt (store (snd (run E C))) = map (fun c => status_of (snd c)) run_checks.
Proof.
  rewrite store_run. unfold run_checks.
  destruct deps_ok; [apply checked_state_statuses|reflexivity].
Qed.

(** *** The renderers *)

Lemma json_loop_counts t names i passed failed :
  json_passed (json_loop E t names i passed failed) +
  json_failed (json_loop E t names i passed failed) =
  passed + failed + length names /\
  length (json_checks (json_loop E t names i passed failed)) = length names.
Proof.
  revert i passed failed.
  induction names as [|name names IH]; intros i passed failed;
    cbn [json_loop json_passed json_failed json_checks length].
  - split; [lia|reflexivity].
  - destruct (IH (i + 1)
                (if sed_n_p i (statuses_txt t) =? "passed" then passed + 1
                 else passed)
                (if sed_n_p i (statuses_txt t) =? "passed" then failed
                 else failed + 1)) as [H1 H2].
    rewrite H1, H2. destruct (sed_n_p i (statuses_txt t) =? "passed"); lia.
Qed.

(** Escaping as the specification words it: every character is copied,
    except the four that are replaced by their entity. *)
Definition xml_entity (c : ascii) : string :=
  if Ascii.eqb c "&"%char then "&amp;"
  else if Ascii.eqb c "<"%char then "&lt;"
  else if Ascii.eqb c ">"%char then "&gt;"
  else if Ascii.eqb c "034"%char then "&quot;"
  else String c "".

Fixpoint xml_escape (s : string) : string :=
  match s with
  | EmptyString => EmptyString
  | String c r => xml_entity c ++ xml_escape r
  end.

Lemma append_assoc (a b c : string) : (a ++ b) ++ c = a ++ (b ++ c).
Proof. induction a; cbn [append]; congruence. Qed.

Lemma sed_subst_char_app c repl a b :
  sed_subst_char c repl (a ++ b) =
  sed_subst_char c repl a ++ sed_subst_char c repl b.
Proof.
  induction a as [|d a IH]; cbn [sed_subst_char append]; [reflexivity|].
  destruct (Ascii.eqb d c); rewrite IH; cbn [append]; [|reflexivity].
  now rewrite append_assoc.
Qed.

(** The four substitutions of the [sed] script, run in sequence, escape
    each character once: none of them touches what an earlier one put. *)
Lemma sed_xml_escape_spec line : sed_xml_escape line = xml_escape line.
Proof.
  unfold sed_xml_escape.
  induction line as [|c line IH]; [reflexivity|].
  cbn [xml_escape]. rewrite <- IH. unfold xml_entity.
  cbn [sed_subst_char].
  destruct (Ascii.eqb c "&") eqn:H1.
  { rewrite !sed_subst_char_app. reflexivity. }
  cbn [sed_subst_char]. destruct (Ascii.eqb c "<") eqn:H2.
  { rewrite !sed_subst_char_app. reflexivity. }
  cbn [sed_subst_char]. destruct (Ascii.eqb c ">") eqn:H3.
  { rewrite !sed_subst_char_app. reflexivity. }
  cbn [sed_subst_char]. destruct (Ascii.eqb c "034") eqn:H4; reflexivity.
Qed.

Lemma output_path_nonempty n : (output_path E n =? "") = false.
Proof.
  apply String.eqb_neq. intros H. apply (f_equal String.length) in H.
  unfold output_path in H. rewrite !length_append in H. cbn in H. lia.
Qed.

(** The [testcase] element of a recorded check. *)
Lemma junit_testcase_recorded s i dir cmd name :
  recorded s i dir cmd ->
  junit_testcase E (store s) (i + 1) name =
  if check_failed dir cmd then
    [junit_open name (awk_seconds E 3 (nth i (durations_txt (store s)) ""));
     junit_failure (junit_failure_body (captured (exec E dir cmd)));
     junit_close]
  else
    [junit_open name (awk_seconds E 3 (nth i (durations_txt (store s)) ""));
     junit_close].
Proof.
  intros (_ & Hf & Hs & Ho). unfold junit_testcase, sed_n_p.
  replace (i + 1 - 1) with i by lia. rewrite Hs, Ho.
  destruct (check_failed dir cmd); cbn [status_of].
  - rewrite output_path_nonempty, Hf. reflexivity.
  - reflexivity.
Qed.

(** The loop of [output_junit] prints the [testcase] elements of lines
    1, 2, ... of [names.txt], in this order. *)
Lemma junit_loop_seq t names k :
  junit_loop E t names (k + 1) =
  concat (map (fun i => junit_testcase E t (k + i + 1) (nth i names ""))
            (seq 0 (length names))).
Proof.
  revert k. induction names as [|name names IH]; intros k; [reflexivity|].
  cbn [junit_loop length seq map concat nth].
  rewrite Nat.add_0_r. f_equal.
  rewrite (IH (k + 1)), <- seq_shift, map_map. f_equal.
  apply map_ext. intros i. cbn [nth]. f_equal. lia.
Qed.
End Sequences.

(* ====================================================================== *)
(** ** From the command line to the run *)
(* ====================================================================== *)

Lemma validate_valid (c c' : Config) : validate c = Parsed c' -> c' = c /\ valid_config c.
Proof.
  unfold validate, valid_config.
  destruct (level_ok (LEVEL c)), (output_ok (OUTPUT c)), (target_ok (TARGET c));
    cbn [negb]; intros H; inversion H; auto.
Qed.

(** [parse_args] returns valid configurations only, and [main] then is the
    run of that configuration. *)
Lemma main_parsed (E : Env) (args : list string) (C : Config) :
  parse_args args (defaults E) = Parsed C ->
  valid_config C /\ main E args = run E C.
Proof.
  intros H. split.
  - unfold parse_args in H. destruct (parse_loop args (defaults E)); [|discriminate].
    apply validate_valid in H as [-> Hv]. exact Hv.
  - unfold main. rewrite H. reflexivity.
Qed.

(** The checks a run executes: the names in the result store when the
    script stops. *)
Definition executed (E : Env) (C : Config) : list string :=
  names_txt (store (snd (run E C))).

(* ====================================================================== *)
(** ** Example machines *)
(* ====================================================================== *)

Module Examples.

(** A machine described by the commands on its [PATH], its directories,
    the frontend [package.json], what commands do and which files can be
    written.  The project is in [/repo]; there is no virtual environment. *)
Definition machine (commands : string -> bool) (dirs : string -> bool)
  (package : option (list string)) (run_cmd : list string -> cmd_result)
  (can_write : string -> bool) : Env :=
  {| getenv := fun _ => None;
     PROJECT_ROOT := "/repo";
     PWD := "/repo";
     stdout_is_tty := false;
     command_v := commands;
     is_executable := fun _ => false;
     is_dir := dirs;
     read_file := fun path =>
       if path =? "/repo/frontend/package.json" then package else None;
     exec := fun _ argv => run_cmd argv;
     writable := can_write;
     redirect_error := fun path =>
       "code-reviewer.sh: line 700: " ++ path ++ ": Permission denied";
     mktemp_d := "/tmp/tmp.cr";
     iso_timestamp := "2024-01-01T00:00:00Z";
     awk_seconds := fun _ ms => ms;
     json_dumps := fun _ => None |}.

(** A command that prints nothing and succeeds. *)
Definition passes : cmd_result :=
  {| exit_code := 0; combined := ""; stdout_only := "";
     ts_before := 1000; ts_after := 1012 |}.

(** A command that prints the given lines and fails. *)
Definition fails_with (text : list string) : cmd_result :=
  {| exit_code := 1; combined := unlines text; stdout_only := unlines text;
     ts_before := 1000; ts_after := 1012 |}.

Definition everything (_ : string) : bool := true.

Definition package_with_lint : option (list string) :=
  Some ["{"; "  " ++ dq ++ "scripts" ++ dq ++ ": {";
        "    " ++ dq ++ "lint" ++ dq ++ ": " ++ dq ++ "eslint ." ++ dq;
        "  }"; "}"].

(** All tools installed, every check passes. *)
Definition healthy : Env :=
  machine everything everything package_with_lint (fun _ => passes) everything.

(** No [python3] on the [PATH]. *)
Definition no_python : Env :=
  machine (fun c => negb (c =? "python3")) everything package_with_lint
    (fun _ => passes) everything.

(** [black] reports a violation. *)
Definition black_fails : Env :=
  machine everything everything package_with_lint
    (fun argv => match argv with
                 | "black" :: _ => fails_with ["would reformat main.py"]
                 | _ => passes
                 end)
    everything.

End Examples.

(* ====================================================================== *)
(** ** Exit status *)
(* ====================================================================== *)

Lemma failed_count_pos (l : list string) :
  0 < failed_count l <-> Exists (fun st => st = "failed") l.
Proof.
  unfold failed_count. rewrite Exists_exists. split.
  - intros H. exists "failed". split; [|reflexivity].
    apply (count_occ_In string_dec). exact H.
  - intros (x & Hin & ->). apply (count_occ_In string_dec) in Hin. exact Hin.
Qed.

Lemma failed_count_zero (l : list string) :
  Forall (fun st => st = "passed" \/ st = "failed") l ->
  failed_count l = 0 <-> Forall (fun st => st = "passed") l.
Proof.
  intros Hv. split.
  - intros Hz. rewrite Forall_forall in *. intros x Hin.
    destruct (Hv x Hin) as [->| ->]; [reflexivity|].
    apply (count_occ_In string_dec) in Hin. unfold failed_count in Hz. lia.
  - intros Hp. apply count_occ_not_In. intros Hin.
    rewrite Forall_forall in Hp. apply Hp in Hin. discriminate.
Qed.

Lemma cwd_after_banner (E : Env) (C : Config) (s : RunState) :
  cwd (after_banner E C s) = cwd s.
Proof. rewrite after_banner_eq. reflexivity. Qed.

Lemma stopped_early_errors (E : Env) (C : Config) :
  stopped_early E C = true -> 0 < TOTAL_ERRORS (store (checked_state E C)).
Proof.
  intros H. apply plan_exits_errors. rewrite cwd_after_banner. exact H.
Qed.

(** The status of a run whose runtimes are present and whose report can be
    written, in terms of the error counter. *)
Lemma run_status (E : Env) (C : Config) :
  deps_ok E C = true -> write_fails E C = false ->
  fst (run E C) =
    (if (0 <? TOTAL_ERRORS (store (snd (run E C))))%nat then 1%Z else 0%Z).
Proof.
  intros Hd Hw. rewrite run_eq, Hd, Hw. cbn [andb].
  destruct (stopped_early E C) eqn:Hs; cbn [fst snd emit store].
  - apply stopped_early_errors, Nat.ltb_lt in Hs. now rewrite Hs.
  - reflexivity.
Qed.

Lemma store_ok_run (E : Env) (C : Config) : store_ok (store (snd (run E C))).
Proof.
  rewrite store_run. destruct (deps_ok E C).
  - apply store_ok_checked_state.
  - apply store_ok_empty.
Qed.

(** C1 (as amended).  When the runtimes of the selected targets are present
    and the report is not lost to an unwritable output file, the script
    exits with status 0 exactly when every stored check result is [passed]
    (in particular when no check was executed), and with status 1 exactly
    when some stored check result is [failed]. *)
Theorem C1_exit_status (E : Env) (C : Config) :
  deps_ok E C = true ->
  write_fails E C = false ->
  (fst (run E C) = 0%Z <->
   Forall (fun st => st = "passed") (statuses_txt (store (snd (run E C))))) /\
  (fst (run E C) = 1%Z <->
   Exists (fun st => st = "failed") (statuses_txt (store (snd (run E C))))).
Proof.
  intros Hd Hw. rewrite (run_status E C Hd Hw).
  destruct (store_ok_run E C) as [_ _ _ _ Hv He].
  rewrite <- (failed_count_zero Hv), <- failed_count_pos, <- He.
  destruct (0 <? TOTAL_ERRORS (store (snd (run E C))))%nat eqn:Hlt.
  - apply Nat.ltb_lt in Hlt. split; split; intros; try lia; discriminate.
  - apply Nat.ltb_ge in Hlt. split; split; intros; try lia; discriminate.
Qed.

Lemma C1_exit_status_witness :
  deps_ok Examples.black_fails (defaults Examples.black_fails) = true /\
  write_fails Examples.black_fails (defaults Examples.black_fails) = false /\
  (fst (run Examples.black_fails (defaults Examples.black_fails)) = 0%Z <->
   Forall (fun st => st = "passed")
     (statuses_txt
        (store (snd (run Examples.black_fails
                       (defaults Examples.black_fails)))))) /\
  (fst (run Examples.black_fails (defaults Examples.black_fails)) = 1%Z <->
   Exists (fun st => st = "failed")
     (statuses_txt
        (store (snd (run Examples.black_fails
                       (defaults Examples.black_fails)))))).
Proof.
  split; [reflexivity|]. split; [reflexivity|].
  apply (C1_exit_status Examples.black_fails (defaults Examples.black_fails));
    reflexivity.
Defined.

(** C1 as stated fails: with [python3] missing the configuration is valid,
    no check is executed, and the script exits with status 3, not 0. *)
Lemma C1_counterexample :
  valid_config (defaults Examples.no_python) /\
  statuses_txt (store (snd (main Examples.no_python []))) = [] /\
  ~ (fst (main Examples.no_python []) = 0%Z <->
     Forall (fun st => st = "passed")
       (statuses_txt (store (snd (main Examples.no_python []))))).
Proof.
  split; [repeat split|]. split; [reflexivity|].
  intros [_ H]. specialize (H (Forall_nil _)). discriminate H.
Qed.

(* ====================================================================== *)
(** ** Fail-fast *)
(* ====================================================================== *)

Lemma trace_ok_run (E : Env) (C : Config) :
  length (checks_run (trace (snd (run E C)))) =
  CHECK_COUNT (store (snd (run E C))).
Proof.
  rewrite run_eq. destruct (deps_ok E C).
  - destruct (stopped_early E C); cbn [snd emit trace store];
      rewrite ?checks_run_app, ?length_app, ?checks_run_report; cbn [length];
      rewrite ?Nat.add_0_r; apply trace_ok_checked_state.
  - cbn [snd emit trace store]. rewrite store_after_banner, after_banner_eq.
    cbn [emit trace initial app].
    rewrite checks_run_cons, !checks_run_app, checks_run_on_stderr.
    reflexivity.
Qed.

(** C2.  With fail-fast on, when the first check that runs fails (the first
    line of [statuses.txt] is [failed]), the script exits with status 1,
    the store holds exactly one result, exactly one check command has been
    run, and the report of that store has been rendered and sent to its
    destination.  Nothing is assumed about the level. *)
Theorem C2_fail_fast_first_failure (E : Env) (C : Config) :
  FAIL_FAST C = "1" ->
  hd_error (statuses_txt (store (snd (run E C)))) = Some "failed" ->
  fst (run E C) = 1%Z /\
  CHECK_COUNT (store (snd (run E C))) = 1 /\
  length (names_txt (store (snd (run E C)))) = 1 /\
  statuses_txt (store (snd (run E C))) = ["failed"] /\
  length (checks_run (trace (snd (run E C)))) = 1 /\
  In (report_event E C (store (snd (run E C)))) (trace (snd (run E C))).
Proof.
  intros Hff Hhd.
  assert (Hcount : length (checks_run (trace (snd (run E C)))) =
                   CHECK_COUNT (store (snd (run E C)))) by apply trace_ok_run.
  pose proof (store_ok_run E C) as [Hc _ _ _ _ _].
  revert Hhd Hcount Hc. rewrite run_eq.
  destruct (deps_ok E C).
  2:{ cbn [snd emit store]. rewrite store_after_banner. discriminate. }
  assert (Hst : forall name rest,
             cut C (main_checks E C) = (name, true) :: rest ->
             rest = [] /\ stopped_early E C = true).
  { intros name rest H. unfold stopped_early.
    apply (attempted_fail_fast E C (PWD E) (main_plan E C) Hff (name := name)).
    now rewrite attempted_eq, scheduled_main_plan. }
  assert (Hs : statuses_txt (store (checked_state E C)) = ["failed"] /\
               names_txt (store (checked_state E C)) <> [] /\
               length (names_txt (store (checked_state E C))) = 1 /\
               stopped_early E C = true \/
               hd_error (statuses_txt (store (checked_state E C))) <>
               Some "failed").
  { rewrite checked_state_statuses, checked_state_names.
    destruct (cut C (main_checks E C)) as [|[name [|]] rest] eqn:Hcut;
      cbn [map hd_error snd status_of]; try (right; discriminate).
    destruct (Hst name rest eq_refl) as [-> Hstop].
    left. repeat split; auto. discriminate. }
  destruct (stopped_early E C) eqn:Hstop; cbn [fst snd emit store trace].
  - intros Hhd Hcount Hc.
    destruct Hs as [(Hs1 & _ & Hs2 & _)|Hn]; [|contradiction].
    repeat split; auto; try lia.
    apply in_or_app. left.
    apply plan_exits_report. rewrite cwd_after_banner. exact Hstop.
  - intros Hhd. destruct Hs as [(_ & _ & _ & Habs)|Hn];
      [discriminate|contradiction].
Qed.

Lemma C2_fail_fast_first_failure_witness :
  let C := set_FAIL_FAST "1" (set_LEVEL "full" (defaults Examples.black_fails)) in
  FAIL_FAST C = "1" /\
  hd_error (statuses_txt (store (snd (run Examples.black_fails C)))) =
    Some "failed" /\
  fst (run Examples.black_fails C) = 1%Z /\
  CHECK_COUNT (store (snd (run Examples.black_fails C))) = 1 /\
  length (names_txt (store (snd (run Examples.black_fails C)))) = 1 /\
  statuses_txt (store (snd (run Examples.black_fails C))) = ["failed"] /\
  length (checks_run (trace (snd (run Examples.black_fails C)))) = 1 /\
  In (report_event Examples.black_fails C
        (store (snd (run Examples.black_fails C))))
     (trace (snd (run Examples.black_fails C))).
Proof.
  intros C. split; [reflexivity|]. split; [reflexivity|].
  apply (C2_fail_fast_first_failure Examples.black_fails C); reflexivity.
Defined.

(* ====================================================================== *)
(** ** Levels *)
(* ====================================================================== *)

Definition prefix_of {A} (a b : list A) : Prop := exists x, b = (a ++ x)%list.

Lemma prefix_of_refl {A} (a : list A) : prefix_of a a.
Proof. exists []. now rewrite app_nil_r. Qed.

Lemma prefix_of_app {A} (a x : list A) : prefix_of a (a ++ x).
Proof. now exists x. Qed.

Lemma prefix_of_incl {A} (a b : list A) : prefix_of a b -> incl a b.
Proof. intros [x ->]. apply incl_appl, incl_refl. Qed.

(** The two catalogues with their level gates as parameters. *)
Lemma backend_checks_gates (E : Env) (C : Config) :
  backend_checks E C =
  if negb (is_dir E (BACKEND_PATH C)) then []
  else
    ((tool_check E C "black" "backend_black" ["--check"; "--quiet"; "."] ++
      tool_check E C "isort" "backend_isort" ["--check-only"; "--quiet"; "."]) ++
     (if level_standard_or_full C then
        tool_check E C "flake8" "backend_flake8"
          ["."; "--max-line-length=88"; "--count"; "--statistics"] ++
        tool_check E C "mypy" "backend_mypy"
          ["."; "--ignore-missing-imports"; "--no-error-summary"]
      else []) ++
     (if LEVEL C =? "full" then
        if is_dir E (in_dir (BACKEND_PATH C) "tests") then
          tool_check E C "pytest" "backend_pytest"
            ["tests/"; "-v"; "--tb=short"; "-q"]
        else []
      else []))%list.
Proof. reflexivity. Qed.

Lemma backend_checks_quick_standard (E : Env) (C : Config) :
  prefix_of (backend_checks E (set_LEVEL "quick" C))
            (backend_checks E (set_LEVEL "standard" C)).
Proof.
  rewrite !backend_checks_gates.
  change (BACKEND_PATH (set_LEVEL "quick" C)) with (BACKEND_PATH C).
  change (BACKEND_PATH (set_LEVEL "standard" C)) with (BACKEND_PATH C).
  destruct (negb (is_dir E (BACKEND_PATH C))); [apply prefix_of_refl|].
  change (level_standard_or_full (set_LEVEL "quick" C)) with false.
  change (level_standard_or_full (set_LEVEL "standard" C)) with true.
  change (LEVEL (set_LEVEL "quick" C) =? "full") with false.
  change (LEVEL (set_LEVEL "standard" C) =? "full") with false.
  cbv beta iota.
  exists (tool_check E C "flake8" "backend_flake8"
            ["."; "--max-line-length=88"; "--count"; "--statistics"] ++
          tool_check E C "mypy" "backend_mypy"
            ["."; "--ignore-missing-imports"; "--no-error-summary"])%list.
  rewrite !app_nil_r. reflexivity.
Qed.

Lemma backend_checks_standard_full (E : Env) (C : Config) :
  prefix_of (backend_checks E (set_LEVEL "standard" C))
            (backend_checks E (set_LEVEL "full" C)).
Proof.
  rewrite !backend_checks_gates.
  change (BACKEND_PATH (set_LEVEL "full" C)) with (BACKEND_PATH C).
  change (BACKEND_PATH (set_LEVEL "standard" C)) with (BACKEND_PATH C).
  destruct (negb (is_dir E (BACKEND_PATH C))); [apply prefix_of_refl|].
  change (level_standard_or_full (set_LEVEL "full" C)) with true.
  change (level_standard_or_full (set_LEVEL "standard" C)) with true.
  change (LEVEL (set_LEVEL "full" C) =? "full") with true.
  change (LEVEL (set_LEVEL "standard" C) =? "full") with false.
  cbv beta iota.
  exists (if is_dir E (in_dir (BACKEND_PATH C) "tests") then
            tool_check E C "pytest" "backend_pytest"
              ["tests/"; "-v"; "--tb=short"; "-q"]
          else []).
  rewrite !app_nil_r, <- !app_assoc. reflexivity.
Qed.

Lemma frontend_checks_quick_standard (E : Env) (C : Config) :
  prefix_of (frontend_checks E (set_LEVEL "quick" C))
            (frontend_checks E (set_LEVEL "standard" C)).
Proof.
  unfold frontend_checks.
  change (FRONTEND_PATH (set_LEVEL "quick" C)) with (FRONTEND_PATH C).
  change (FRONTEND_PATH (set_LEVEL "standard" C)) with (FRONTEND_PATH C).
  destruct (negb (is_dir E (FRONTEND_PATH C))); [apply prefix_of_refl|].
  change (level_standard_or_full (set_LEVEL "quick" C)) with false.
  change (level_standard_or_full (set_LEVEL "standard" C)) with true.
  change (LEVEL (set_LEVEL "quick" C) =? "full") with false.
  change (LEVEL (set_LEVEL "standard" C) =? "full") with false.
  cbv beta iota.
  exists (script_check E C "type-check" "frontend_typecheck"
            ["npm"; "run"; "type-check"; "--silent"]).
  rewrite !app_nil_r. reflexivity.
Qed.

Lemma frontend_checks_standard_full (E : Env) (C : Config) :
  prefix_of (frontend_checks E (set_LEVEL "standard" C))
            (frontend_checks E (set_LEVEL "full" C)).
Proof.
  unfold frontend_checks.
  change (FRONTEND_PATH (set_LEVEL "full" C)) with (FRONTEND_PATH C).
  change (FRONTEND_PATH (set_LEVEL "standard" C)) with (FRONTEND_PATH C).
  destruct (negb (is_dir E (FRONTEND_PATH C))); [apply prefix_of_refl|].
  change (level_standard_or_full (set_LEVEL "full" C)) with true.
  change (level_standard_or_full (set_LEVEL "standard" C)) with true.
  change (LEVEL (set_LEVEL "full" C) =? "full") with true.
  change (LEVEL (set_LEVEL "standard" C) =? "full") with false.
  cbv beta iota.
  exists (script_check E C "test" "frontend_jest"
            ["npm"; "test"; "--"; "--passWithNoTests"; "--watchAll=false"] ++
          script_check E C "build" "frontend_build" ["npm"; "run"; "build"])%list.
  rewrite !app_nil_r, <- !app_assoc. reflexivity.
Qed.

Lemma executed_eq (E : Env) (C : Config) :
  executed E C = map fst (run_checks E C).
Proof. apply names_run. Qed.

(** Two configurations that differ in the level only, the catalogues of the
    second extending those of the first. *)
Lemma executed_mono (E : Env) (C1 C2 : Config) :
  FAIL_FAST C1 = FAIL_FAST C2 -> TARGET C1 = TARGET C2 ->
  prefix_of (backend_checks E C1) (backend_checks E C2) ->
  prefix_of (frontend_checks E C1) (frontend_checks E C2) ->
  FAIL_FAST C1 <> "1" \/ TARGET C1 <> "all" ->
  incl (executed E C1) (executed E C2).
Proof.
  intros Hff Ht [xb Hb] [xf Hf] Hcase. rewrite !executed_eq.
  unfold run_checks, deps_ok, missing_dependencies, targets_backend,
    targets_frontend.
  rewrite <- Ht.
  destruct (_ =? ""); [|apply incl_refl].
  apply incl_map. unfold main_checks. rewrite <- Ht, Hb, Hf.
  assert (Hcut : forall l, cut C2 l = cut C1 l)
    by (intros l; unfold cut; now rewrite Hff).
  rewrite Hcut.
  destruct (TARGET C1 =? "all") eqn:Hall.
  - destruct Hcase as [Hn|Hn].
    + apply String.eqb_neq in Hn. unfold cut. rewrite Hn.
      apply incl_app; [apply incl_appl, incl_appl, incl_refl|].
      apply incl_appr, incl_appl, incl_refl.
    + apply String.eqb_eq in Hall. contradiction.
  - destruct (TARGET C1 =? "backend"); [apply cut_prefix_incl|].
    destruct (TARGET C1 =? "frontend"); [apply cut_prefix_incl|].
    apply incl_refl.
Qed.

(** C3 (as amended).  For a fixed machine and a configuration fixed but for
    its level, when fail-fast is off or a single sub-project is targeted,
    the checks executed at level [quick] are among those executed at level
    [standard], and these among those executed at level [full]. *)
Theorem C3_levels_inclusive (E : Env) (C : Config) :
  FAIL_FAST C <> "1" \/ TARGET C <> "all" ->
  incl (executed E (set_LEVEL "quick" C))
       (executed E (set_LEVEL "standard" C)) /\
  incl (executed E (set_LEVEL "standard" C))
       (executed E (set_LEVEL "full" C)).
Proof.
  intros H. split; apply executed_mono; try reflexivity; try exact H.
  - apply backend_checks_quick_standard.
  - apply frontend_checks_quick_standard.
  - apply backend_checks_standard_full.
  - apply frontend_checks_standard_full.
Qed.

Module Examples3.

(** [black] and [isort] are not installed, [flake8] reports violations, the
    frontend lint passes. *)
Definition flake8_fails : Env :=
  Examples.machine
    (fun c => negb (c =? "black") && negb (c =? "isort"))
    Examples.everything Examples.package_with_lint
    (fun argv => match argv with
                 | "flake8" :: _ => Examples.fails_with ["E501 line too long"]
                 | _ => Examples.passes
                 end)
    Examples.everything.

Definition fail_fast_all : Config :=
  set_FAIL_FAST "1" (defaults flake8_fails).

End Examples3.

Lemma C3_levels_inclusive_witness :
  (FAIL_FAST (defaults Examples.black_fails) <> "1" \/
   TARGET (defaults Examples.black_fails) <> "all") /\
  incl (executed Examples.black_fails
          (set_LEVEL "quick" (defaults Examples.black_fails)))
       (executed Examples.black_fails
          (set_LEVEL "standard" (defaults Examples.black_fails))) /\
  incl (executed Examples.black_fails
          (set_LEVEL "standard" (defaults Examples.black_fails)))
       (executed Examples.black_fails
          (set_LEVEL "full" (defaults Examples.black_fails))).
Proof.
  split; [left; discriminate|].
  apply (C3_levels_inclusive Examples.black_fails
           (defaults Examples.black_fails)).
  left. discriminate.
Defined.

(** C3 as stated fails under fail-fast with both sub-projects targeted:
    at level [quick] the frontend lint is executed, at level [standard]
    the failing backend lint stops the script before the frontend. *)
Lemma C3_counterexample :
  executed Examples3.flake8_fails
    (set_LEVEL "quick" Examples3.fail_fast_all) = ["frontend_eslint"] /\
  executed Examples3.flake8_fails
    (set_LEVEL "standard" Examples3.fail_fast_all) = ["backend_flake8"] /\
  ~ incl (executed Examples3.flake8_fails
            (set_LEVEL "quick" Examples3.fail_fast_all))
         (executed Examples3.flake8_fails
            (set_LEVEL "standard" Examples3.fail_fast_all)).
Proof.
  split; [reflexivity|]. split; [reflexivity|].
  intros H. specialize (H "frontend_eslint" (or_introl eq_refl)).
  destruct H as [H|[]]. discriminate H.
Qed.

(* ====================================================================== *)
(** ** Skipped checks *)
(* ====================================================================== *)

(** What a check of the catalogue needs in order to run: a backend tool,
    or a script declared in [package.json]. *)
Inductive requirement : Type :=
| Tool (tool : string)
| Script (script : string).

(** The catalogue as the specification tables it: the name of each check,
    the lowest level that selects it, and what it needs. *)
Definition catalogue : list (string * string * requirement) :=
  [("backend_black", "quick", Tool "black");
   ("backend_isort", "quick", Tool "isort");
   ("backend_flake8", "standard", Tool "flake8");
   ("backend_mypy", "standard", Tool "mypy");
   ("backend_pytest", "full", Tool "pytest");
   ("frontend_eslint", "quick", Script "lint");
   ("frontend_typecheck", "standard", Script "type-check");
   ("frontend_jest", "full", Script "test");
   ("frontend_build", "full", Script "build")].

Definition level_selects (level gate : string) : bool :=
  if gate =? "quick" then true
  else if gate =? "standard" then (level =? "standard") || (level =? "full")
  else level =? "full".

Definition available (E : Env) (C : Config) (r : requirement) : bool :=
  match r with
  | Tool tool => negb (resolve_tool E tool =? "")
  | Script script => package_has E C script
  end.

(** A check is skipped when its level is not selected, its tool is not
    installed, or its script is not declared. *)
Definition skipped (E : Env) (C : Config) (gate : string) (r : requirement)
  : bool :=
  negb (level_selects (LEVEL C) gate) || negb (available E C r).

Definition selected (E : Env) (C : Config) (name : string) : Prop :=
  exists gate r,
    In (name, gate, r) catalogue /\
    level_selects (LEVEL C) gate = true /\ available E C r = true.

Lemma in_tool_check E C tool name args n :
  In n (map fst (tool_check E C tool name args)) ->
  n = name /\ available E C (Tool tool) = true.
Proof.
  unfold tool_check. cbn [available].
  destruct (negb (resolve_tool E tool =? "")); cbn; [|tauto].
  intros [<-|[]]. auto.
Qed.

Lemma in_script_check E C script name cmd n :
  In n (map fst (script_check E C script name cmd)) ->
  n = name /\ available E C (Script script) = true.
Proof.
  unfold script_check. cbn [available].
  destruct (package_has E C script); cbn; [|tauto].
  intros [<-|[]]. auto.
Qed.

Ltac pick_entry gate r :=
  exists gate, r; split; [cbn; tauto|]; split; [|assumption];
  try reflexivity; try assumption.

Lemma backend_checks_selected E C n :
  In n (map fst (backend_checks E C)) -> selected E C n.
Proof.
  rewrite backend_checks_gates.
  destruct (negb (is_dir E (BACKEND_PATH C))); [intros []|].
  rewrite !map_app, !in_app_iff.
  intros [[H|H]|[H|H]].
  - apply in_tool_check in H as [-> H]. pick_entry "quick" (Tool "black").
  - apply in_tool_check in H as [-> H]. pick_entry "quick" (Tool "isort").
  - destruct (level_standard_or_full C) eqn:Hl; [|destruct H].
    rewrite map_app, in_app_iff in H. destruct H as [H|H].
    + apply in_tool_check in H as [-> H].
      pick_entry "standard" (Tool "flake8").
    + apply in_tool_check in H as [-> H].
      pick_entry "standard" (Tool "mypy").
  - destruct (LEVEL C =? "full") eqn:Hl; [|destruct H].
    destruct (is_dir E (in_dir (BACKEND_PATH C) "tests")); [|destruct H].
    apply in_tool_check in H as [-> H]. pick_entry "full" (Tool "pytest").
Qed.

Lemma frontend_checks_selected E C n :
  In n (map fst (frontend_checks E C)) -> selected E C n.
Proof.
  unfold frontend_checks.
  destruct (negb (is_dir E (FRONTEND_PATH C))); [intros []|].
  rewrite !map_app, !in_app_iff.
  intros [H|[H|H]].
  - apply in_script_check in H as [-> H]. pick_entry "quick" (Script "lint").
  - destruct (level_standard_or_full C) eqn:Hl; [|destruct H].
    apply in_script_check in H as [-> H].
    pick_entry "standard" (Script "type-check").
  - destruct (LEVEL C =? "full") eqn:Hl; [|destruct H].
    rewrite map_app, in_app_iff in H. destruct H as [H|H].
    + apply in_script_check in H as [-> H]. pick_entry "full" (Script "test").
    + apply in_script_check in H as [-> H]. pick_entry "full" (Script "build").
Qed.

(** Only selected checks of the catalogue are ever executed. *)
Lemma executed_selected E C n : In n (executed E C) -> selected E C n.
Proof.
  rewrite executed_eq. unfold run_checks.
  destruct (deps_ok E C); [|intros []].
  intros H. apply (incl_map fst (cut_incl C (main_checks E C))) in H.
  revert H. unfold main_checks.
  destruct (TARGET C =? "all").
  { rewrite map_app, in_app_iff.
    intros [H|H]; [now apply backend_checks_selected|
                   now apply frontend_checks_selected]. }
  destruct (TARGET C =? "backend"); [apply backend_checks_selected|].
  destruct (TARGET C =? "frontend"); [apply frontend_checks_selected|].
  intros [].
Qed.

(** A name stands for one check of the catalogue. *)
Lemma catalogue_functional name gate r gate' r' :
  In (name, gate, r) catalogue -> In (name, gate', r') catalogue ->
  gate = gate' /\ r = r'.
Proof.
  unfold catalogue. cbn [In]. intros H H'.
  repeat match goal with
         | K : _ \/ _ |- _ => destruct K as [K|K]
         end; try contradiction;
    inversion H; subst; inversion H'; subst; auto.
Qed.

(** C4.  A check of the catalogue that is skipped, because the level does
    not select it, its tool is not installed or its script is not declared
    in [package.json], has no entry in the result store when the script
    stops.  The store holds a status [passed] or [failed] for every entry
    and nothing else, and the error counter counts the [failed] entries
    only. *)
Theorem C4_skipped_checks_absent (E : Env) (C : Config)
  (name gate : string) (r : requirement) :
  In (name, gate, r) catalogue ->
  skipped E C gate r = true ->
  ~ In name (names_txt (store (snd (run E C)))) /\
  length (statuses_txt (store (snd (run E C)))) =
    length (names_txt (store (snd (run E C)))) /\
  Forall (fun st => st = "passed" \/ st = "failed")
    (statuses_txt (store (snd (run E C)))) /\
  TOTAL_ERRORS (store (snd (run E C))) =
    failed_count (statuses_txt (store (snd (run E C)))).
Proof.
  intros Hin Hskip. destruct (store_ok_run E C) as [_ Hs _ _ Hv He].
  repeat split; auto.
  intros Hex. apply executed_selected in Hex as (gate' & r' & Hin' & Hl & Ha).
  destruct (catalogue_functional Hin Hin') as [<- <-].
  unfold skipped in Hskip. rewrite Hl, Ha in Hskip. discriminate.
Qed.

Module Examples4.

(** Scenario B: a [package.json] with [lint] and [test] scripts and no
    [build] script. *)
Definition package_without_build : option (list string) :=
  Some ["{"; "  " ++ dq ++ "scripts" ++ dq ++ ": {";
        "    " ++ dq ++ "lint" ++ dq ++ ": " ++ dq ++ "eslint ." ++ dq ++ ",";
        "    " ++ dq ++ "test" ++ dq ++ ": " ++ dq ++ "jest" ++ dq;
        "  }"; "}"].

Definition no_build_script : Env :=
  Examples.machine Examples.everything Examples.everything
    package_without_build (fun _ => Examples.passes) Examples.everything.

Definition frontend_full : Config :=
  set_TARGET "frontend" (set_LEVEL "full" (defaults no_build_script)).

End Examples4.

Lemma C4_skipped_checks_absent_witness :
  In ("frontend_build", "full", Script "build") catalogue /\
  skipped Examples4.no_build_script Examples4.frontend_full "full"
    (Script "build") = true /\
  names_txt (store (snd (run Examples4.no_build_script
                           Examples4.frontend_full))) =
    ["frontend_eslint"; "frontend_jest"] /\
  ~ In "frontend_build"
      (names_txt (store (snd (run Examples4.no_build_script
                                Examples4.frontend_full)))).
Proof.
  split; [cbn; tauto|]. split; [reflexivity|]. split; [reflexivity|].
  apply (@C4_skipped_checks_absent Examples4.no_build_script
           Examples4.frontend_full "frontend_build" "full" (Script "build")).
  - cbn; tauto.
  - reflexivity.
Defined.


(* ====================================================================== *)
(** ** The JSON report *)
(* ====================================================================== *)


(** The loop of [output_json] over the lines that are left of
    [statuses.txt]: every line that is not [passed] counts as failed. *)
Lemma json_failed_rest (E : Env) t names done rest passed failed :
  statuses_txt t = (done ++ rest)%list ->
  length names = length rest ->
  json_failed (json_loop E t names (length done + 1) passed failed) =
  failed + length (filter (fun st => negb (st =? "passed")) rest).
Proof.
  revert done rest passed failed.
  induction names as [|name names IH]; intros done rest passed failed Hs Hl.
  - destruct rest; [|discriminate]. cbn. lia.
  - destruct rest as [|st rest]; [discriminate|].
    cbn [json_loop json_failed].
    assert (Hst : sed_n_p (length done + 1) (statuses_txt t) = st).
    { unfold sed_n_p. rewrite Hs.
      replace (length done + 1 - 1) with (length done) by lia.
      rewrite app_nth2, Nat.sub_diag by lia. reflexivity. }
    rewrite Hst.
    replace (length done + 1 + 1) with (length (done ++ [st]) + 1)
      by (rewrite length_app; cbn; lia).
    rewrite (IH (done ++ [st])%list rest).
    + cbn [filter]. destruct (st =? "passed"); cbn [negb length]; lia.
    + now rewrite <- app_assoc.
    + cbn in Hl. lia.
Qed.

Lemma failed_count_filter (l : list string) :
  Forall (fun st => st = "passed" \/ st = "failed") l ->
  length (filter (fun st => negb (st =? "passed")) l) = failed_count l.
Proof.
  unfold failed_count. induction 1 as [|st l [-> | ->] _ IH]; cbn; auto.
Qed.

Lemma passed_failed_count (l : list string) :
  Forall (fun st => st = "passed" \/ st = "failed") l ->
  count_occ string_dec l "passed" + failed_count l = length l.
Proof.
  unfold failed_count. induction 1 as [|st l [-> | ->] _ IH]; cbn; lia.
Qed.

(** The two counters of the loop of [output_json], on the store of a run. *)
Lemma json_counters (E : Env) (C : Config) :
  let t := store (snd (run E C)) in
  json_passed (json_loop E t (names_txt t) 1 0 0) =
    count_occ string_dec (statuses_txt t) "passed" /\
  json_failed (json_loop E t (names_txt t) 1 0 0) =
    count_occ string_dec (statuses_txt t) "failed".
Proof.
  intros t. destruct (store_ok_run E C) as [Hc Hs _ _ Hv _]. fold t in Hs, Hv.
  destruct (json_loop_counts E t (names_txt t) 1 0 0) as [Hsum _].
  assert (Hf : json_failed (json_loop E t (names_txt t) 1 0 0) =
               failed_count (statuses_txt t)).
  { pose proof (@json_failed_rest E t (names_txt t) [] (statuses_txt t) 0 0
                  eq_refl (eq_sym Hs)) as H.
    cbn [length Nat.add] in H. rewrite H. now apply failed_count_filter. }
  pose proof (passed_failed_count Hv) as Hp.
  unfold failed_count in *. split; lia.
Qed.




(* ====================================================================== *)
(** ** The JUnit report *)
(* ====================================================================== *)

Lemma files_ok_emit (E : Env) (ev : list event) (s : RunState) :
  files_ok E s -> files_ok E (emit ev s).
Proof.
  intros [Hok Hrec]. split; [exact Hok|].
  intros i Hi. destruct (Hrec i Hi) as (d & c & Hin & H).
  exists d, c. split; [|exact H].
  cbn [emit trace]. apply in_or_app. now left.
Qed.

Lemma files_ok_run (E : Env) (C : Config) : files_ok E (snd (run E C)).
Proof.
  rewrite run_eq. destruct (deps_ok E C).
  - destruct (stopped_early E C); cbn [snd].
    + apply files_ok_emit, files_ok_checked_state.
    + apply files_ok_emit, files_ok_emit, files_ok_checked_state.
  - cbn [snd]. apply files_ok_emit, files_ok_emit. rewrite after_banner_eq.
    apply files_ok_emit. split; [apply store_ok_empty|].
    cbn. intros i Hi. lia.
Qed.


Module Examples6.



End Examples6.



(* ====================================================================== *)
(** ** Invalid options *)
(* ====================================================================== *)

(** C7 (as amended).  When the option loop ends with a level that is none
    of [quick], [standard] and [full], the script prints the line
    [Invalid level: LEVEL] on standard error and nothing else (the usage
    text is not printed), exits with status 2, and has run no check. *)
Theorem C7_invalid_level (E : Env) (args : list string) (c : Config) :
  parse_loop args (defaults E) = Parsed c ->
  level_ok (LEVEL c) = false ->
  fst (main E args) = 2%Z /\
  trace (snd (main E args)) = [Stderr ("Invalid level: " ++ LEVEL c)] /\
  ~ In (Stdout usage_text) (trace (snd (main E args))) /\
  checks_run (trace (snd (main E args))) = [] /\
  store (snd (main E args)) = empty_store.
Proof.
  intros Hloop Hlevel. unfold main, parse_args, validate.
  rewrite Hloop, Hlevel. cbn [negb fst snd emit initial trace store app].
  repeat split; try reflexivity.
  intros [H|[]]. discriminate H.
Qed.

Lemma C7_invalid_level_witness :
  let E := Examples.healthy in
  let args := ["--level"; "nightly"] in
  let c := set_LEVEL "nightly" (defaults E) in
  parse_loop args (defaults E) = Parsed c /\
  level_ok (LEVEL c) = false /\
  fst (main E args) = 2%Z /\
  trace (snd (main E args)) = [Stderr ("Invalid level: " ++ LEVEL c)] /\
  ~ In (Stdout usage_text) (trace (snd (main E args))) /\
  checks_run (trace (snd (main E args))) = [] /\
  store (snd (main E args)) = empty_store.
Proof.
  intros E args c. split; [reflexivity|]. split; [reflexivity|].
  apply (C7_invalid_level E args (c := c)); reflexivity.
Defined.

(** C7 as stated fails: [--level nightly] prints one line, which is not
    the usage text. *)
Lemma C7_counterexample :
  fst (main Examples.healthy ["--level"; "nightly"]) = 2%Z /\
  trace (snd (main Examples.healthy ["--level"; "nightly"])) =
    [Stderr "Invalid level: nightly"] /\
  ~ In (Stdout usage_text)
      (trace (snd (main Examples.healthy ["--level"; "nightly"]))) /\
  ~ In (Stderr usage_text)
      (trace (snd (main Examples.healthy ["--level"; "nightly"]))).
Proof.
  split; [reflexivity|]. split; [reflexivity|].
  split; intros [H|[]]; discriminate H.
Qed.

(* ====================================================================== *)
(** ** Verbose output of a failed check *)
(* ====================================================================== *)

(** [head -N] writes the first [N] lines: all of the text when it has no
    more than [N], and never more than [N]. *)
Lemma lines_head (n : nat) (s : string) :
  lines (head n s) = firstn n (lines s).
Proof.
  revert n. induction s as [|c s IH]; intros n.
  - destruct n; reflexivity.
  - destruct n as [|m]; [reflexivity|]. cbn [head lines].
    destruct (Ascii.eqb c "010").
    + rewrite IH. reflexivity.
    + rewrite IH. destruct (lines s) as [|l ls]; cbn [firstn];
        rewrite ?firstn_nil; reflexivity.
Qed.

Lemma lines_nil (s : string) : lines s = [] -> s = "".
Proof.
  destruct s as [|c s]; [reflexivity|]. cbn [lines].
  destruct (Ascii.eqb c "010"); [discriminate|].
  destruct (lines s); discriminate.
Qed.

Lemma head_all (n : nat) (s : string) :
  length (lines s) <= n -> head n s = s.
Proof.
  revert n. induction s as [|c s IH]; intros n; [destruct n; reflexivity|].
  cbn [lines]. destruct (Ascii.eqb c "010") eqn:Hc.
  - cbn [length]. destruct n as [|m]; [lia|]. intros H.
    cbn [head]. rewrite Hc, IH by lia. reflexivity.
  - intros H. destruct n as [|m].
    { destruct (lines s); cbn in H; lia. }
    cbn [head]. rewrite Hc. f_equal. apply IH.
    destruct (lines s); cbn [length] in *; lia.
Qed.

(** What reaches the diagnostic stream: the lines the script writes there
    and the output of the commands that write there. *)
Definition is_stderr (e : event) : bool :=
  match e with
  | Stderr _ => true
  | StderrBytes _ => true
  | _ => false
  end.

(** The output of a command. *)
Definition is_dump (e : event) : bool :=
  match e with
  | StderrBytes _ => true
  | _ => false
  end.

Lemma text_only_off (C : Config) (lines : list string) :
  OUTPUT C <> "text" -> text_only C lines = [].
Proof. intros H. unfold text_only. apply String.eqb_neq in H. now rewrite H. Qed.

Lemma verbose_only_off (C : Config) (lines : list string) :
  OUTPUT C <> "text" -> verbose_only C lines = [].
Proof.
  intros H. unfold verbose_only. apply String.eqb_neq in H.
  now rewrite H, andb_false_r.
Qed.

Lemma verbose_dump_off (E : Env) (C : Config) null dir cmd :
  OUTPUT C <> "text" -> verbose_dump E C null dir cmd = [].
Proof.
  intros H. unfold verbose_dump. apply String.eqb_neq in H.
  now rewrite H, andb_false_r.
Qed.

(** The part of [output_results] that is a line on standard error, when
    the output format is not [text]: the complaint of the shell about a
    file it cannot open. *)
Definition unwritable_complaint (E : Env) (C : Config) (null : bool)
  : list event :=
  if write_fails E C && negb null then
    [Stderr (redirect_error E (OUTPUT_FILE C))]
  else [].

Lemma report_events_silent (E : Env) (C : Config) null ee t :
  OUTPUT C <> "text" ->
  filter is_stderr (report_events E C null ee t) =
  unwritable_complaint E C null.
Proof.
  intros H. unfold report_events, unwritable_complaint, write_fails.
  rewrite text_only_off by exact H.
  destruct (negb (OUTPUT_FILE C =? "")); [|reflexivity].
  destruct (writable E (OUTPUT_FILE C)), null, ee; reflexivity.
Qed.

Lemma report_events_no_dump (E : Env) (C : Config) null ee t :
  filter is_dump (report_events E C null ee t) = [].
Proof.
  unfold report_events, text_only.
  destruct (negb (OUTPUT_FILE C =? "")); [|reflexivity].
  destruct (writable E (OUTPUT_FILE C)), null, ee, (OUTPUT C =? "text");
    reflexivity.
Qed.

(** C8 (as amended).  When a check fails in verbose mode, what [run_check]
    adds to the trace is known event by event.

    With the [text] format and a diagnostic stream that is not discarded:
    the [DEBUG] line with the command, the command itself, the [FAIL] line,
    the output of [head -50] on the captured output, and with fail-fast what
    [output_results] does.  [head -50] writes the first 50 lines of the
    captured output, that is all of it when it has no more than 50 lines,
    and it is the only output of a command on the diagnostic stream.

    With another format, no output of a command reaches the diagnostic
    stream; the only line a failing check can put there is the complaint of
    the shell when fail-fast makes it write the report to a file that
    cannot be opened. *)
Theorem C8_verbose_failure_output (E : Env) (C : Config)
  (name description : string) (cmd : list string) (s : RunState) :
  VERBOSE C = "1" ->
  exit_code (exec E (cwd s) cmd) <> 0%Z ->
  let printed := combined (exec E (cwd s) cmd) in
  exists added,
    trace (snd (run_check E C name description cmd s)) =
      (trace s ++ added)%list /\
    (OUTPUT C = "text" -> stderr_null s = false ->
     added =
       ([Stderr (tagged E C (CYAN (palette E C)) "[DEBUG]"
                   ("Running: " ++ join " " cmd));
         Spawn (cwd s) cmd (Some (output_path E (CHECK_COUNT (store s))));
         Stderr (tagged E C (RED (palette E C)) "[FAIL]" description);
         StderrBytes (head 50 printed)] ++
        (if FAIL_FAST C =? "1" then
           report_events E C false true
             (store (snd (run_check E C name description cmd s)))
         else []))%list /\
     filter is_dump added = [StderrBytes (head 50 printed)] /\
     lines (head 50 printed) = firstn 50 (lines printed) /\
     (length (lines printed) <= 50 -> head 50 printed = printed)) /\
    (OUTPUT C <> "text" ->
     filter is_dump added = [] /\
     filter is_stderr added =
       if FAIL_FAST C =? "1" then unwritable_complaint E C (stderr_null s)
       else []).
Proof.
  intros Hv Hx printed. rewrite run_check_eq.
  cbn [snd emit trace checked store].
  eexists. split; [reflexivity|].
  assert (Hf : check_failed E (cwd s) cmd = true).
  { unfold check_failed. apply Z.eqb_neq in Hx. now rewrite Hx. }
  unfold check_events. rewrite Hf. split.
  - intros Ho Hn. rewrite Hn.
    unfold verbose_only, verbose_dump, text_only, bytes_on_stderr.
    rewrite Hv, Ho.
    cbn [String.eqb Ascii.eqb Bool.eqb andb on_stderr map app].
    split; [reflexivity|]. split; [|split].
    + cbn [filter is_dump].
      destruct (FAIL_FAST C =? "1"); [|reflexivity].
      now rewrite report_events_no_dump.
    + apply lines_head.
    + apply head_all.
  - intros Ho.
    rewrite !verbose_only_off, !text_only_off, verbose_dump_off by exact Ho.
    assert (Hnil : forall null, on_stderr null [] = [])
      by (intros []; reflexivity).
    rewrite !Hnil. cbn [app filter is_stderr is_dump].
    destruct (FAIL_FAST C =? "1"); [|split; reflexivity].
    split; [apply report_events_no_dump|now apply report_events_silent].
Qed.

Module Examples8.

(** [npm run lint] fails: a check whose diagnostic stream is discarded. *)
Definition lint_fails : Env :=
  Examples.machine Examples.everything Examples.everything
    Examples.package_with_lint
    (fun argv => match argv with
                 | "npm" :: "run" :: _ =>
                     Examples.fails_with ["1 problem (1 error, 0 warnings)"]
                 | _ => Examples.passes
                 end)
    Examples.everything.

(** [flake8] reports the same violation on 60 lines. *)
Definition flake8_chatty : Env :=
  Examples.machine Examples.everything Examples.everything
    Examples.package_with_lint
    (fun argv => match argv with
                 | "flake8" :: _ =>
                     Examples.fails_with
                       (repeat "main.py:1:89: E501 line too long" 60)
                 | _ => Examples.passes
                 end)
    Examples.everything.

End Examples8.

Lemma C8_verbose_failure_output_witness :
  let E := Examples8.flake8_chatty in
  let C := set_VERBOSE "1" (defaults E) in
  let cmd := ["flake8"; "."; "--max-line-length=88"; "--count"; "--statistics"] in
  let s := initial "/repo/backend" in
  VERBOSE C = "1" /\
  exit_code (exec E (cwd s) cmd) <> 0%Z /\
  OUTPUT C = "text" /\
  length (lines (combined (exec E (cwd s) cmd))) = 60 /\
  trace (snd (run_check E C "backend_flake8" "Backend: Flake8 linting"
                cmd s)) =
    [Stderr ("[DEBUG] Running: flake8 . --max-line-length=88 --count " ++
             "--statistics");
     Spawn "/repo/backend" cmd (Some "/tmp/tmp.cr/output_0.txt");
     Stderr "[FAIL] Backend: Flake8 linting";
     StderrBytes (unlines (repeat "main.py:1:89: E501 line too long" 50))] /\
  exists added,
    trace (snd (run_check E C "backend_flake8" "Backend: Flake8 linting"
                  cmd s)) = (trace s ++ added)%list /\
    (OUTPUT C = "text" -> stderr_null s = false ->
     added =
       ([Stderr (tagged E C (CYAN (palette E C)) "[DEBUG]"
                   ("Running: " ++ join " " cmd));
         Spawn (cwd s) cmd (Some (output_path E (CHECK_COUNT (store s))));
         Stderr (tagged E C (RED (palette E C)) "[FAIL]"
                   "Backend: Flake8 linting");
         StderrBytes (head 50 (combined (exec E (cwd s) cmd)))] ++
        (if FAIL_FAST C =? "1" then
           report_events E C false true
             (store (snd (run_check E C "backend_flake8"
                            "Backend: Flake8 linting" cmd s)))
         else []))%list /\
     filter is_dump added =
       [StderrBytes (head 50 (combined (exec E (cwd s) cmd)))] /\
     lines (head 50 (combined (exec E (cwd s) cmd))) =
       firstn 50 (lines (combined (exec E (cwd s) cmd))) /\
     (length (lines (combined (exec E (cwd s) cmd))) <= 50 ->
      head 50 (combined (exec E (cwd s) cmd)) =
      combined (exec E (cwd s) cmd))) /\
    (OUTPUT C <> "text" ->
     filter is_dump added = [] /\
     filter is_stderr added =
       if FAIL_FAST C =? "1" then unwritable_complaint E C (stderr_null s)
       else []).
Proof.
  intros E C cmd s. split; [reflexivity|]. split; [vm_compute; lia|].
  split; [reflexivity|]. split; [vm_compute; reflexivity|].
  split; [vm_compute; reflexivity|].
  apply (C8_verbose_failure_output E C "backend_flake8"
           "Backend: Flake8 linting" cmd s).
  - reflexivity.
  - vm_compute; lia.
Defined.

(** C8 as stated fails, in two ways.  In verbose mode with the JSON format,
    [black] fails and nothing it printed, nor anything else, reaches the
    diagnostic stream.  In verbose mode with the text format, [npm run lint]
    fails with its diagnostic stream discarded, and nothing it printed
    reaches the diagnostic stream either. *)
Lemma C8_counterexample :
  (let E := Examples.black_fails in
   let args := ["-v"; "-o"; "json"; "-t"; "backend"] in
   parse_args args (defaults E) =
     Parsed (set_TARGET "backend" (set_OUTPUT "json"
               (set_VERBOSE "1" (defaults E)))) /\
   hd_error (statuses_txt (store (snd (main E args)))) = Some "failed" /\
   combined (exec E "/repo/backend" ["black"; "--check"; "--quiet"; "."]) =
     "would reformat main.py" ++ nl /\
   filter is_stderr (trace (snd (main E args))) = []) /\
  (let E := Examples8.lint_fails in
   let args := ["-v"; "-t"; "frontend"; "-l"; "quick"] in
   parse_args args (defaults E) =
     Parsed (set_LEVEL "quick" (set_TARGET "frontend"
               (set_VERBOSE "1" (defaults E)))) /\
   statuses_txt (store (snd (main E args))) = ["failed"] /\
   combined (exec E "/repo/frontend" ["npm"; "run"; "lint"; "--silent"]) =
     "1 problem (1 error, 0 warnings)" ++ nl /\
   filter is_stderr (trace (snd (main E args))) =
     [Stderr "[INFO] Starting code review...";
      Stderr "[INFO] Level: quick | Target: frontend | Output: text";
      Stderr "[INFO] Running frontend checks..."]).
Proof.
  split; repeat split; reflexivity.
Qed.

(* ====================================================================== *)
(** ** Report write failure *)
(* ====================================================================== *)

(** The same machine, but for the files that can be opened for writing. *)
Definition with_writable (w : string -> bool) (E : Env) : Env :=
  {| getenv := getenv E; PROJECT_ROOT := PROJECT_ROOT E; PWD := PWD E;
     stdout_is_tty := stdout_is_tty E; command_v := command_v E;
     is_executable := is_executable E; is_dir := is_dir E;
     read_file := read_file E; exec := exec E; writable := w;
     redirect_error := redirect_error E;
     mktemp_d := mktemp_d E; iso_timestamp := iso_timestamp E;
     awk_seconds := awk_seconds E; json_dumps := json_dumps E |}.

Lemma main_plan_with_writable (E : Env) (C : Config) w :
  main_plan (with_writable w E) C = main_plan E C.
Proof. reflexivity. Qed.

(** What a sequence stores does not depend on which files are writable. *)
Lemma after_plan_store_with_writable (E : Env) (C : Config) w p :
  forall s s', store s = store s' -> cwd s = cwd s' ->
    store (after_plan (with_writable w E) C p s) =
    store (after_plan E C p s').
Proof.
  induction p as [|i p IH]; intros s s' Hs Hc; cbn [after_plan]; [exact Hs|].
  change (instr_exits (with_writable w E) C (cwd s) i)
    with (instr_exits E C (cwd s) i).
  rewrite Hc. destruct (instr_exits E C (cwd s') i).
  - cbn [after_instr store].
    change (instr_store (with_writable w E) (cwd s) (store s) i)
      with (instr_store E (cwd s) (store s) i).
    now rewrite Hs, Hc.
  - apply IH; cbn [after_instr store cwd].
    + change (instr_store (with_writable w E) (cwd s) (store s) i)
        with (instr_store E (cwd s) (store s) i).
      now rewrite Hs, Hc.
    + now rewrite Hc.
Qed.

Lemma store_run_with_writable (E : Env) (C : Config) w :
  store (snd (run (with_writable w E) C)) = store (snd (run E C)).
Proof.
  rewrite !store_run.
  change (deps_ok (with_writable w E) C) with (deps_ok E C).
  destruct (deps_ok E C); [|reflexivity].
  unfold checked_state. rewrite main_plan_with_writable.
  apply after_plan_store_with_writable.
  - now rewrite !store_after_banner.
  - now rewrite !cwd_after_banner.
Qed.

(** A sequence that stops the script ends with the report. *)
Lemma plan_exits_report_last (E : Env) (C : Config) p s :
  plan_exits E C (cwd s) p = true ->
  exists before null,
    trace (after_plan E C p s) =
    (before ++ report_events E C null true (store (after_plan E C p s)))%list.
Proof.
  revert s. induction p as [|i p IH]; intros s; cbn [plan_exits after_plan].
  - discriminate.
  - destruct (instr_exits E C (cwd s) i) eqn:Hx; cbn [orb].
    + intros _. destruct i; try discriminate. cbn [instr_exits] in Hx.
      apply andb_prop in Hx as [Hf Hff].
      cbn [after_instr store trace instr_store instr_events].
      unfold check_events. rewrite Hf, Hff.
      assert (Hlast : forall (t a b c r : list event) x,
                 (t ++ a ++ x :: (b ++ c ++ r) =
                  (t ++ a ++ x :: b ++ c) ++ r)%list).
      { intros t a b c r x. rewrite <- !app_assoc. cbn [app].
        rewrite <- !app_assoc. reflexivity. }
      do 2 eexists. apply Hlast.
    + intros H. apply IH. exact H.
Qed.

Lemma report_events_write_fails (E : Env) (C : Config) null ee t :
  write_fails E C = true ->
  report_events E C null ee t =
    (FileWriteFailed (OUTPUT_FILE C) ::
     on_stderr null [redirect_error E (OUTPUT_FILE C)] ++
     (if ee then []
      else on_stderr null
             (text_only C [tagged E C (BLUE (palette E C)) "[INFO]"
                             ("Results written to: " ++ OUTPUT_FILE C)])))%list.
Proof.
  unfold write_fails, report_events. intros H.
  apply andb_prop in H as [H1 H2]. rewrite H1.
  destruct (writable E (OUTPUT_FILE C)); [discriminate|reflexivity].
Qed.

Lemma stderr_null_after_plan (E : Env) (C : Config) p s :
  stderr_null (after_plan E C p s) = stderr_null s.
Proof.
  apply (@after_plan_invariant E C
           (fun s' => stderr_null s' = stderr_null s)); [|reflexivity].
  intros i s0 H. exact H.
Qed.

Lemma stderr_null_checked_state (E : Env) (C : Config) :
  stderr_null (checked_state E C) = false.
Proof.
  unfold checked_state. rewrite stderr_null_after_plan, after_banner_eq.
  reflexivity.
Qed.

(** C9.  What the script does when the report cannot be written to
    [OUTPUT_FILE], the runtimes being present.  The result store is the one
    the same run leaves on a machine where the file can be written.  The
    failed write is in the trace.  Whether it ends the script depends on
    [errexit], which the first [run_check] has left on: when at least one
    check has run the exit status is 1 and nothing follows the failed write
    but the complaint of the shell; when no check has run the script goes
    on, its exit status is 0, and with the [text] format it logs
    [Results written to:] for the file it could not write. *)
Theorem C9_report_write_failure (E : Env) (C : Config) :
  deps_ok E C = true ->
  write_fails E C = true ->
  store (snd (run E C)) =
    store (snd (run (with_writable (fun _ => true) E) C)) /\
  In (FileWriteFailed (OUTPUT_FILE C)) (trace (snd (run E C))) /\
  fst (run E C) =
    (if (0 <? CHECK_COUNT (store (snd (run E C))))%nat then 1%Z else 0%Z) /\
  (0 < CHECK_COUNT (store (snd (run E C))) ->
   exists before null,
     trace (snd (run E C)) =
     (before ++
      FileWriteFailed (OUTPUT_FILE C) ::
      on_stderr null [redirect_error E (OUTPUT_FILE C)] ++
      [RmTemp (TEMP_DIR E)])%list) /\
  (CHECK_COUNT (store (snd (run E C))) = 0 ->
   exists before,
     trace (snd (run E C)) =
     (before ++
      [FileWriteFailed (OUTPUT_FILE C);
       Stderr (redirect_error E (OUTPUT_FILE C))] ++
      map Stderr
        (text_only C [tagged E C (BLUE (palette E C)) "[INFO]"
                        ("Results written to: " ++ OUTPUT_FILE C)]) ++
      [RmTemp (TEMP_DIR E)])%list).
Proof.
  intros Hd Hw.
  pose proof (errexit_ok_checked_state E C) as He. unfold errexit_ok in He.
  pose proof (stderr_null_checked_state E C) as Hn.
  split; [symmetry; apply store_run_with_writable|].
  rewrite run_eq, Hd, Hw.
  destruct (stopped_early E C) eqn:Hs; cbn [fst snd emit store trace].
  - unfold stopped_early in Hs.
    destruct (plan_exits_report_last E C (main_plan E C)
                (after_banner E C (initial (PWD E)))) as (b & n & Ht).
    { now rewrite cwd_after_banner. }
    fold (checked_state E C) in Ht.
    rewrite (report_events_write_fails E C n true _ Hw) in Ht.
    rewrite app_nil_r in Ht.
    assert (Hpos : 0 < CHECK_COUNT (store (checked_state E C))).
    { destruct (store_ok_checked_state E C) as [Hc Hst _ _ _ Herr].
      pose proof (plan_exits_errors E C (main_plan E C)
                    (after_banner E C (initial (PWD E)))) as Hp.
      rewrite cwd_after_banner in Hp. specialize (Hp Hs).
      fold (checked_state E C) in Hp. rewrite Herr in Hp.
      apply failed_count_pos, Exists_exists in Hp as (x & Hin & _).
      destruct (statuses_txt (store (checked_state E C))); [destruct Hin|].
      cbn [length] in Hst. lia. }
    apply Nat.ltb_lt in Hpos. rewrite Hpos. apply Nat.ltb_lt in Hpos.
    split; [|split; [reflexivity|split]].
    + rewrite Ht. apply in_or_app. left. apply in_or_app. right. now left.
    + intros _. exists b, n. rewrite Ht. unfold cleanup_events.
      rewrite <- app_assoc. reflexivity.
    + intros H0. lia.
  - rewrite (report_events_write_fails E C _ _ _ Hw), Hn, He.
    cbn [andb on_stderr map].
    split; [apply in_or_app; left; apply in_or_app; right; now left|].
    destruct (0 <? CHECK_COUNT (store (checked_state E C)))%nat eqn:Hpos.
    + split; [reflexivity|]. split.
      * intros _. exists (trace (checked_state E C)), false.
        unfold cleanup_events. cbn [on_stderr map app].
        rewrite <- app_assoc. reflexivity.
      * intros H0. apply Nat.ltb_lt in Hpos. lia.
    + destruct (store_ok_checked_state E C) as [_ Hst _ _ _ Herr].
      apply Nat.ltb_ge in Hpos.
      assert (Hz : TOTAL_ERRORS (store (checked_state E C)) = 0).
      { destruct (store_ok_checked_state E C) as [Hc Hst' _ _ _ _].
        assert (Hnil : statuses_txt (store (checked_state E C)) = []).
        { destruct (statuses_txt (store (checked_state E C)));
            [reflexivity|cbn [length] in Hst'; lia]. }
        rewrite Herr, Hnil. reflexivity. }
      rewrite Hz. cbn [Nat.ltb Nat.leb].
      split; [reflexivity|]. split; [intros H0; lia|].
      intros _. exists (trace (checked_state E C)).
      unfold cleanup_events. rewrite <- !app_assoc. reflexivity.
Qed.

Module Examples9.

(** No file can be written and there is no backend directory. *)
Definition read_only_no_backend : Env :=
  Examples.machine Examples.everything
    (fun d => negb (d =? "/repo/backend")) Examples.package_with_lint
    (fun _ => Examples.passes) (fun _ => false).

(** No file can be written; every check passes. *)
Definition read_only : Env :=
  with_writable (fun _ => false) Examples.healthy.

Definition to_file : list string :=
  ["-t"; "backend"; "-l"; "quick"; "-f"; "/srv/report.txt"].

Definition to_file_config (E : Env) : Config :=
  set_OUTPUT_FILE "/srv/report.txt"
    (set_LEVEL "quick" (set_TARGET "backend" (defaults E))).

End Examples9.

(** The report cannot be written and no check runs: the script tells that
    the results were written and exits with status 0.  On the machine where
    two checks run and pass, the same failed write ends the script with
    status 1. *)
Lemma C9_report_write_failure_witness :
  let E := Examples9.read_only_no_backend in
  let E' := Examples9.read_only in
  let args := Examples9.to_file in
  let C := Examples9.to_file_config E in
  parse_args args (defaults E) = Parsed C /\
  deps_ok E C = true /\
  write_fails E C = true /\
  fst (main E args) = 0%Z /\
  trace (snd (main E args)) =
    [MkTemp "/tmp/tmp.cr";
     Stderr "[INFO] Starting code review...";
     Stderr "[INFO] Level: quick | Target: backend | Output: text";
     Stderr "[WARN] Backend directory not found: /repo/backend";
     FileWriteFailed "/srv/report.txt";
     Stderr "code-reviewer.sh: line 700: /srv/report.txt: Permission denied";
     Stderr "[INFO] Results written to: /srv/report.txt";
     RmTemp "/tmp/tmp.cr"] /\
  statuses_txt (store (snd (main E' args))) = ["passed"; "passed"] /\
  fst (main E' args) = 1%Z /\
  (store (snd (run E C)) =
     store (snd (run (with_writable (fun _ => true) E) C)) /\
   In (FileWriteFailed (OUTPUT_FILE C)) (trace (snd (run E C))) /\
   fst (run E C) =
     (if (0 <? CHECK_COUNT (store (snd (run E C))))%nat then 1%Z else 0%Z) /\
   (0 < CHECK_COUNT (store (snd (run E C))) ->
    exists before null,
      trace (snd (run E C)) =
      (before ++
       FileWriteFailed (OUTPUT_FILE C) ::
       on_stderr null [redirect_error E (OUTPUT_FILE C)] ++
       [RmTemp (TEMP_DIR E)])%list) /\
   (CHECK_COUNT (store (snd (run E C))) = 0 ->
    exists before,
      trace (snd (run E C)) =
      (before ++
       [FileWriteFailed (OUTPUT_FILE C);
        Stderr (redirect_error E (OUTPUT_FILE C))] ++
       map Stderr
         (text_only C [tagged E C (BLUE (palette E C)) "[INFO]"
                         ("Results written to: " ++ OUTPUT_FILE C)]) ++
       [RmTemp (TEMP_DIR E)])%list)).
Proof.
  intros E E' args C.
  do 7 (split; [reflexivity|]).
  apply (C9_report_write_failure E C); reflexivity.
Defined.

(* ====================================================================== *)
(** ** Installing the frontend dependencies *)
(* ====================================================================== *)

Lemma trace_after_plan_grows (E : Env) (C : Config) p s :
  exists added, trace (after_plan E C p s) = (trace s ++ added)%list.
Proof.
  revert s. induction p as [|i p IH]; intros s; cbn [after_plan].
  - exists []. now rewrite app_nil_r.
  - destruct (instr_exits E C (cwd s) i).
    + eexists. reflexivity.
    + destruct (IH (after_instr E C i s)) as [added H]. rewrite H.
      cbn [after_instr trace]. eexists. rewrite <- app_assoc. reflexivity.
Qed.

Lemma on_stderr_all_stderr null lines :
  forallb is_stderr (on_stderr null lines) = true.
Proof.
  unfold on_stderr. destruct null; [reflexivity|].
  induction lines; cbn; auto.
Qed.

(** A sequence in two parts: the second part runs when the first has not
    stopped the script. *)
Lemma after_plan_app (E : Env) (C : Config) p1 p2 s :
  after_plan E C (p1 ++ p2) s =
  if plan_exits E C (cwd s) p1 then after_plan E C p1 s
  else after_plan E C p2 (after_plan E C p1 s).
Proof.
  revert s. induction p1 as [|i p1 IH]; intros s;
    cbn [app after_plan plan_exits]; [reflexivity|].
  destruct (instr_exits E C (cwd s) i); cbn [orb]; [reflexivity|].
  rewrite IH. reflexivity.
Qed.

Lemma plan_exits_no_fail_fast (E : Env) (C : Config) dir p :
  FAIL_FAST C <> "1" -> plan_exits E C dir p = false.
Proof.
  intros H. apply String.eqb_neq in H. revert dir.
  induction p as [|i p IH]; intros dir; cbn [plan_exits]; [reflexivity|].
  rewrite IH, orb_false_r. destruct i; cbn [instr_exits]; try reflexivity.
  now rewrite H, andb_false_r.
Qed.

(** A command run without its output captured: [npm install] is the only
    one. *)
Definition is_uncaptured (e : event) : bool :=
  match e with
  | Spawn _ _ None => true
  | _ => false
  end.

Definition npm_install_event (C : Config) : event :=
  Spawn (FRONTEND_PATH C) ["npm"; "install"; "--silent"] None.

(** The state of the script when [main] reaches its [case]: after the two
    lines of the banner and a successful runtime probe. *)
Definition before_checks (E : Env) (C : Config) : RunState :=
  after_banner E C (initial (PWD E)).

(** C10 (as amended).  When the frontend directory exists and has no
    [node_modules], [run_frontend_checks] runs [npm install --silent] in the
    frontend directory: it is the first command the function runs, after
    diagnostic lines only, hence before every frontend check.

    A run whose target is [frontend] or [all], whose runtimes are present
    and whose backend phase, if any, returns (no failed backend check has
    stopped the script) runs it right after the backend phase.  The
    backend phase returns whenever fail-fast is off. *)
Theorem C10_npm_install_before_frontend_checks (E : Env) (C : Config) :
  is_dir E (FRONTEND_PATH C) = true ->
  is_dir E (in_dir (FRONTEND_PATH C) "node_modules") = false ->
  (forall s, exists logs rest,
     trace (snd (run_frontend_checks E C s)) =
       (trace s ++ logs ++ npm_install_event C :: rest)%list /\
     forallb is_stderr logs = true) /\
  (TARGET C = "frontend" -> deps_ok E C = true ->
   exists logs rest,
     trace (snd (run E C)) =
       (trace (before_checks E C) ++ logs ++ npm_install_event C :: rest)%list /\
     forallb is_stderr logs = true) /\
  (TARGET C = "all" -> deps_ok E C = true ->
   fst (run_backend_checks E C (before_checks E C)) = Done tt ->
   exists logs rest,
     trace (snd (run E C)) =
       (trace (snd (run_backend_checks E C (before_checks E C))) ++
        logs ++ npm_install_event C :: rest)%list /\
     forallb is_stderr logs = true) /\
  (FAIL_FAST C <> "1" ->
   forall s, fst (run_backend_checks E C s) = Done tt).
Proof.
  intros Hdir Hnm.
  assert (Hplan : forall s0, exists logs rest,
             trace (after_plan E C (frontend_plan E C) s0) =
               (trace s0 ++ logs ++ npm_install_event C :: rest)%list /\
             forallb is_stderr logs = true).
  { intros s0. unfold frontend_plan. rewrite Hdir, Hnm. cbn [negb app].
    cbn [after_plan instr_exits].
    destruct (trace_after_plan_grows E C
      (frontend_slot E C true "lint" "frontend_eslint" "Frontend: ESLint"
         ["npm"; "run"; "lint"; "--silent"] ++
       (if level_standard_or_full C then
          frontend_slot E C true "type-check" "frontend_typecheck"
            "Frontend: TypeScript type check"
            ["npm"; "run"; "type-check"; "--silent"]
        else []) ++
       (if LEVEL C =? "full" then
          frontend_slot E C true "test" "frontend_jest" "Frontend: Jest tests"
            ["npm"; "test"; "--"; "--passWithNoTests"; "--watchAll=false"] ++
          frontend_slot E C false "build" "frontend_build"
            "Frontend: Build check" ["npm"; "run"; "build"]
        else []) ++ [ICd (PROJECT_ROOT E)])
      (after_instr E C INpmInstall
         (after_instr E C
            (IWarn "node_modules not found - installing dependencies...")
            (after_instr E C (ICd (FRONTEND_PATH C))
               (after_instr E C (IInfo "Running frontend checks...") s0)))))
      as [added Hadd].
    rewrite Hadd.
    cbn [after_instr trace cwd store stderr_null instr_events instr_dir
         instr_store].
    assert (Hshape : forall (t a b r : list event) x y,
               (((((t ++ a) ++ []) ++ b) ++ [x; y]) ++ r =
                t ++ (a ++ b) ++ x :: y :: r)%list).
    { intros t a b r x y. rewrite app_nil_r, <- !app_assoc. reflexivity. }
    eexists (_ ++ _)%list, (_ :: added). split.
    - apply Hshape.
    - rewrite forallb_app, !on_stderr_all_stderr. reflexivity. }
  assert (Hrun : forall s1,
             deps_ok E C = true ->
             checked_state E C = after_plan E C (frontend_plan E C) s1 ->
             exists logs rest,
               trace (snd (run E C)) =
                 (trace s1 ++ logs ++ npm_install_event C :: rest)%list /\
               forallb is_stderr logs = true).
  { intros s1 Hd Hc. destruct (Hplan s1) as (logs & rest & Ht & Hl).
    rewrite <- Hc in Ht.
    assert (Hend : forall (t l r z : list event) x,
               ((t ++ l ++ x :: r) ++ z = t ++ l ++ x :: (r ++ z))%list).
    { intros t l r z x. rewrite <- !app_assoc. reflexivity. }
    rewrite run_eq, Hd.
    destruct (stopped_early E C); cbn [snd emit trace]; rewrite Ht.
    - exists logs, (rest ++ cleanup_events E)%list. split; [apply Hend|exact Hl].
    - exists logs.
      exists ((rest ++
               report_events E C (stderr_null (checked_state E C))
                 (errexit (checked_state E C)) (store (checked_state E C))) ++
              cleanup_events E)%list.
      split; [|exact Hl]. rewrite Hend, Hend. reflexivity. }
  split; [|split; [|split]].
  - intros s. rewrite run_frontend_checks_plan, interp_eq. cbn [snd].
    apply Hplan.
  - intros Ht Hd. apply Hrun; [exact Hd|].
    unfold checked_state, main_plan, before_checks. rewrite Ht. reflexivity.
  - intros Ht Hd. rewrite run_backend_checks_plan, interp_eq.
    cbn [fst snd]. unfold before_checks. rewrite cwd_after_banner.
    cbn [initial cwd].
    destruct (plan_exits E C (PWD E) (backend_plan E C)) eqn:Hx;
      [intros H; discriminate H|]. intros _.
    apply Hrun; [exact Hd|].
    assert (Hm : main_plan E C = (backend_plan E C ++ frontend_plan E C)%list)
      by (unfold main_plan; rewrite Ht; reflexivity).
    unfold checked_state. rewrite Hm, after_plan_app, cwd_after_banner.
    cbn [initial cwd]. rewrite Hx. reflexivity.
  - intros Hff s. rewrite run_backend_checks_plan, interp_eq. cbn [fst].
    now rewrite plan_exits_no_fail_fast.
Qed.

Module Examples10.

(** A frontend without [node_modules]; every check passes. *)
Definition fresh_checkout : Env :=
  Examples.machine Examples.everything
    (fun d => negb (d =? "/repo/frontend/node_modules"))
    Examples.package_with_lint (fun _ => Examples.passes) Examples.everything.

(** A frontend without [node_modules]; [black] fails in the backend. *)
Definition fresh_checkout_black_fails : Env :=
  Examples.machine Examples.everything
    (fun d => negb (d =? "/repo/frontend/node_modules"))
    Examples.package_with_lint
    (fun argv => match argv with
                 | "black" :: _ =>
                     Examples.fails_with ["would reformat main.py"]
                 | _ => Examples.passes
                 end)
    Examples.everything.

(** A frontend without [node_modules] on a machine without [node]. *)
Definition fresh_checkout_no_node : Env :=
  Examples.machine (fun c => negb (c =? "node"))
    (fun d => negb (d =? "/repo/frontend/node_modules"))
    Examples.package_with_lint (fun _ => Examples.passes) Examples.everything.

End Examples10.

Lemma C10_npm_install_before_frontend_checks_witness :
  let E := Examples10.fresh_checkout in
  let C := set_LEVEL "quick" (defaults E) in
  is_dir E (FRONTEND_PATH C) = true /\
  is_dir E (in_dir (FRONTEND_PATH C) "node_modules") = false /\
  TARGET C = "all" /\ deps_ok E C = true /\
  fst (run_backend_checks E C (before_checks E C)) = Done tt /\
  filter (fun e => negb (is_stderr e)) (trace (snd (run E C))) =
    [MkTemp "/tmp/tmp.cr";
     Spawn "/repo/backend" ["black"; "--check"; "--quiet"; "."]
       (Some "/tmp/tmp.cr/output_0.txt");
     Spawn "/repo/backend" ["isort"; "--check-only"; "--quiet"; "."]
       (Some "/tmp/tmp.cr/output_1.txt");
     npm_install_event C;
     StdoutBytes "";
     Spawn "/repo/frontend" ["npm"; "run"; "lint"; "--silent"]
       (Some "/tmp/tmp.cr/output_2.txt");
     Stdout (render E C (store (snd (run E C))));
     RmTemp "/tmp/tmp.cr"] /\
  exists logs rest,
    trace (snd (run E C)) =
      (trace (snd (run_backend_checks E C (before_checks E C))) ++
       logs ++ npm_install_event C :: rest)%list /\
    forallb is_stderr logs = true.
Proof.
  intros E C. do 5 (split; [reflexivity|]).
  split; [vm_compute; reflexivity|].
  destruct (C10_npm_install_before_frontend_checks E C) as (_ & _ & H & _);
    [reflexivity|reflexivity|].
  apply H; reflexivity.
Defined.

(** C10 as stated fails.  With the target [all], fail-fast and a failing
    [black], the frontend is selected, its directory exists without
    [node_modules], and the script stops in the backend phase: [npm install]
    never runs.  Nor does it run when [node] is missing: the script stops
    with status 3 before any phase. *)
Lemma C10_counterexample :
  (let E := Examples10.fresh_checkout_black_fails in
   let args := ["--fail-fast"] in
   let C := set_FAIL_FAST "1" (defaults E) in
   parse_args args (defaults E) = Parsed C /\
   targets_frontend C = true /\
   is_dir E (FRONTEND_PATH C) = true /\
   is_dir E (in_dir (FRONTEND_PATH C) "node_modules") = false /\
   fst (main E args) = 1%Z /\
   names_txt (store (snd (main E args))) = ["backend_black"] /\
   ~ In (npm_install_event C) (trace (snd (main E args)))) /\
  (let E := Examples10.fresh_checkout_no_node in
   let args := ["-t"; "frontend"] in
   let C := set_TARGET "frontend" (defaults E) in
   parse_args args (defaults E) = Parsed C /\
   targets_frontend C = true /\
   is_dir E (FRONTEND_PATH C) = true /\
   is_dir E (in_dir (FRONTEND_PATH C) "node_modules") = false /\
   fst (main E args) = 3%Z /\
   ~ In (npm_install_event C) (trace (snd (main E args)))).
Proof.
  assert (Hno : forall (e : event) (tr : list event),
             forallb (fun x => negb (is_uncaptured x)) tr = true ->
             is_uncaptured e = true -> ~ In e tr).
  { intros e tr Hall He Hin. rewrite forallb_forall in Hall.
    apply Hall in Hin. rewrite He in Hin. discriminate. }
  split.
  - do 6 (split; [reflexivity|]).
    apply Hno; [vm_compute; reflexivity|reflexivity].
  - do 5 (split; [reflexivity|]).
    apply Hno; [vm_compute; reflexivity|reflexivity].
Qed.

(* ====================================================================== *)
(** ** More on the command line *)
(* ====================================================================== *)

(** The words the option loop knows. *)
Definition is_option (a : string) : bool :=
  (a =? "-l") || (a =? "--level") || (a =? "-o") || (a =? "--output") ||
  (a =? "-t") || (a =? "--target") || (a =? "-f") || (a =? "--file") ||
  (a =? "--fail-fast") || (a =? "--no-color") ||
  (a =? "-v") || (a =? "--verbose") || (a =? "-h") || (a =? "--help").

Lemma parse_loop_app_gen (n : nat) :
  forall args more c c',
    length args <= n ->
    parse_loop args c = Parsed c' ->
    parse_loop (args ++ more) c = parse_loop more c'.
Proof.
  induction n as [|n IH]; intros args more c c' Hlen H.
  - destruct args; [|cbn in Hlen; lia]. cbn in H. now injection H as ->.
  - destruct args as [|a rest]; [cbn in H; now injection H as ->|].
    cbn [app parse_loop] in *. cbn [length] in Hlen.
    assert (Hvalue : forall f : string -> Config -> Config,
               match rest with
               | v :: rest' => parse_loop rest' (f v c)
               | [] => Left nounset_status [Stderr "$2: unbound variable"]
               end = Parsed c' ->
               match (rest ++ more)%list with
               | v :: rest' => parse_loop rest' (f v c)
               | [] => Left nounset_status [Stderr "$2: unbound variable"]
               end = parse_loop more c').
    { intros f Hf. destruct rest as [|v rest']; [discriminate Hf|].
      cbn [app]. apply IH; [cbn [length] in Hlen; lia|exact Hf]. }
    destruct ((a =? "-l") || (a =? "--level")); [now apply Hvalue|].
    destruct ((a =? "-o") || (a =? "--output")); [now apply Hvalue|].
    destruct ((a =? "-t") || (a =? "--target")); [now apply Hvalue|].
    destruct ((a =? "-f") || (a =? "--file")); [now apply Hvalue|].
    destruct (a =? "--fail-fast"); [apply IH; [lia|exact H]|].
    destruct (a =? "--no-color"); [apply IH; [lia|exact H]|].
    destruct ((a =? "-v") || (a =? "--verbose")); [apply IH; [lia|exact H]|].
    destruct ((a =? "-h") || (a =? "--help")); discriminate H.
Qed.

Lemma parse_loop_app (args more : list string) (c c' : Config) :
  parse_loop args c = Parsed c' ->
  parse_loop (args ++ more) c = parse_loop more c'.
Proof. apply (parse_loop_app_gen (n := length args)). lia. Qed.

Lemma one_of_three (v a b c : string) :
  (v =? a) || (v =? b) || (v =? c) = true <-> v = a \/ v = b \/ v = c.
Proof.
  rewrite !orb_true_iff, !String.eqb_eq. tauto.
Qed.

(** X1.  [parse_args] hands over a configuration exactly when the option
    loop reads the whole command line and ends with level [quick],
    [standard] or [full], output format [text], [json] or [junit], and
    target [all], [backend] or [frontend]: no other value gets through,
    whether it came from an option or from the environment. *)
Theorem X1_parse_args_accepts_valid_only (args : list string) (c c' : Config) :
  parse_args args c = Parsed c' <->
  parse_loop args c = Parsed c' /\
  (LEVEL c' = "quick" \/ LEVEL c' = "standard" \/ LEVEL c' = "full") /\
  (OUTPUT c' = "text" \/ OUTPUT c' = "json" \/ OUTPUT c' = "junit") /\
  (TARGET c' = "all" \/ TARGET c' = "backend" \/ TARGET c' = "frontend").
Proof.
  rewrite <- !one_of_three.
  change (parse_args args c = Parsed c' <->
          parse_loop args c = Parsed c' /\ valid_config c').
  unfold parse_args. split.
  - destruct (parse_loop args c) as [c0|st ev]; [|discriminate].
    intros H. apply validate_valid in H as [-> Hv]. auto.
  - intros [-> (Hl & Ho & Ht)]. unfold validate. now rewrite Hl, Ho, Ht.
Qed.

(** X2.  The option loop reads the command line from left to right: once a
    first part has been read, the rest is read from the configuration that
    part has left.  In particular an option given twice takes its last
    value, and an option on the command line replaces the value taken from
    the environment. *)
Theorem X2_options_read_in_order (args more : list string) (c c' : Config)
  (v : string) :
  parse_loop args c = Parsed c' ->
  parse_loop (args ++ more) c = parse_loop more c' /\
  parse_loop (args ++ ["--level"; v]) c = Parsed (set_LEVEL v c') /\
  parse_loop (args ++ ["--output"; v]) c = Parsed (set_OUTPUT v c') /\
  parse_loop (args ++ ["--target"; v]) c = Parsed (set_TARGET v c') /\
  parse_loop (args ++ ["--file"; v]) c = Parsed (set_OUTPUT_FILE v c').
Proof.
  intros H. repeat split; erewrite parse_loop_app by exact H; reflexivity.
Qed.

Lemma X2_options_read_in_order_witness :
  let c := defaults Examples.healthy in
  parse_loop ["--level"; "quick"; "-v"] c =
    Parsed (set_VERBOSE "1" (set_LEVEL "quick" c)) /\
  parse_loop (["--level"; "quick"; "-v"] ++ ["--level"; "full"]) c =
    Parsed (set_LEVEL "full" (set_VERBOSE "1" (set_LEVEL "quick" c))).
Proof.
  intros c. split; [reflexivity|].
  apply (@X2_options_read_in_order ["--level"; "quick"; "-v"] [] c
           (set_VERBOSE "1" (set_LEVEL "quick" c)) "full").
  reflexivity.
Defined.

(** X3.  [-h] and [--help] print the usage text on standard output and
    leave with status 0 as soon as the loop reaches them: nothing is
    validated and no check runs, whatever the options before them set. *)
Theorem X3_help_wins (E : Env) (before rest : list string) (c : Config)
  (h : string) :
  parse_loop before (defaults E) = Parsed c ->
  h = "-h" \/ h = "--help" ->
  main E (before ++ h :: rest) =
    (0%Z, emit [Stdout usage_text] (initial (PWD E))).
Proof.
  intros Hb Hh. unfold main, parse_args.
  erewrite parse_loop_app by exact Hb. destruct Hh as [-> | ->]; reflexivity.
Qed.

Lemma X3_help_wins_witness :
  parse_loop ["--level"; "nightly"] (defaults Examples.healthy) =
    Parsed (set_LEVEL "nightly" (defaults Examples.healthy)) /\
  ("--help" = "-h" \/ "--help" = "--help") /\
  main Examples.healthy (["--level"; "nightly"] ++ "--help" :: ["-x"]) =
    (0%Z, emit [Stdout usage_text] (initial (PWD Examples.healthy))).
Proof.
  split; [reflexivity|]. split; [right; reflexivity|].
  apply (@X3_help_wins Examples.healthy ["--level"; "nightly"] ["-x"]
           (set_LEVEL "nightly" (defaults Examples.healthy)) "--help").
  - reflexivity.
  - right. reflexivity.
Defined.

(** X4.  A word that is not an option, met where the loop expects one,
    is a configuration error: the script prints [Unknown option: WORD] on
    standard error and the usage text on standard output, leaves with
    status 2 and runs no check. *)
Theorem X4_unknown_option (E : Env) (before rest : list string) (c : Config)
  (a : string) :
  parse_loop before (defaults E) = Parsed c ->
  is_option a = false ->
  main E (before ++ a :: rest) =
    (2%Z,
     emit [Stderr ("Unknown option: " ++ a); Stdout usage_text]
       (initial (PWD E))).
Proof.
  intros Hb Ha. unfold main, parse_args.
  erewrite parse_loop_app by exact Hb. unfold is_option in Ha.
  repeat match type of Ha with
         | (_ || _)%bool = false => apply orb_false_elim in Ha as [Ha ?]
         end.
  cbn [parse_loop].
  repeat match goal with
         | H : (a =? _) = false |- _ => rewrite H; clear H
         end.
  reflexivity.
Qed.

Lemma X4_unknown_option_witness :
  parse_loop ["-v"] (defaults Examples.healthy) =
    Parsed (set_VERBOSE "1" (defaults Examples.healthy)) /\
  is_option "--fast" = false /\
  main Examples.healthy (["-v"] ++ "--fast" :: ["--level"; "quick"]) =
    (2%Z,
     emit [Stderr ("Unknown option: " ++ "--fast"); Stdout usage_text]
       (initial (PWD Examples.healthy))).
Proof.
  split; [reflexivity|]. split; [reflexivity|].
  apply (@X4_unknown_option Examples.healthy ["-v"] ["--level"; "quick"]
           (set_VERBOSE "1" (defaults Examples.healthy)) "--fast");
    reflexivity.
Defined.

(* ====================================================================== *)
(** ** The runtime probe *)
(* ====================================================================== *)

(** X5.  [check_dependencies] asks for [python3] when the backend is
    targeted and for [node] and [npm] when the frontend is targeted, and for
    nothing else: a run that targets one sub-project does not need the
    runtime of the other. *)
Theorem X5_runtimes_by_target (E : Env) (C : Config) :
  deps_ok E C = true <->
  (targets_backend C = true -> command_v E "python3" = true) /\
  (targets_frontend C = true ->
   command_v E "node" = true /\ command_v E "npm" = true).
Proof.
  unfold deps_ok, missing_dependencies.
  destruct (targets_backend C), (targets_frontend C),
    (command_v E "python3"), (command_v E "node"), (command_v E "npm");
    cbn; split; intros H; try discriminate; try reflexivity; auto;
    try (destruct H as [H1 H2]; try (specialize (H1 eq_refl); discriminate);
         destruct (H2 eq_refl); discriminate).
Qed.

Lemma X5_runtimes_by_target_witness :
  let E := Examples.no_python in
  let C := set_TARGET "frontend" (defaults E) in
  command_v E "python3" = false /\ deps_ok E C = true.
Proof.
  intros E C. split; [reflexivity|].
  apply (X5_runtimes_by_target E C). split.
  - vm_compute. discriminate.
  - split; reflexivity.
Defined.

(** X6.  The script exits with status 3 exactly when a required runtime is
    missing.  All it has done then is to create the scratch directory, to
    write the two lines of the banner (with the [text] format) and the line
    that names what is missing on standard error, and to remove the scratch
    directory: it has run no check, stored no result and rendered no
    report. *)
Theorem X6_missing_runtime_stops_the_run (E : Env) (C : Config) :
  (fst (run E C) = 3%Z <-> deps_ok E C = false) /\
  (deps_ok E C = false ->
   store (snd (run E C)) = empty_store /\
   trace (snd (run E C)) =
     (MkTemp (TEMP_DIR E) ::
      map Stderr (banner E C) ++
      [Stderr ("Missing dependencies:" ++ missing_dependencies E C);
       RmTemp (TEMP_DIR E)])%list).
Proof.
  rewrite run_eq. destruct (deps_ok E C) eqn:Hd.
  - split; [|discriminate].
    destruct (stopped_early E C); cbn [fst].
    + split; discriminate.
    + destruct (write_fails E C && errexit (checked_state E C));
        [split; discriminate|].
      destruct (0 <? TOTAL_ERRORS (store (checked_state E C)))%nat;
        split; discriminate.
  - cbn [fst snd]. split; [tauto|]. intros _.
    rewrite after_banner_eq.
    cbn [emit store trace initial app stderr_null on_stderr].
    split; [reflexivity|]. unfold cleanup_events.
    rewrite <- app_assoc. reflexivity.
Qed.

Lemma X6_missing_runtime_stops_the_run_witness :
  let E := Examples.no_python in
  let C := defaults E in
  deps_ok E C = false /\
  fst (run E C) = 3%Z /\
  store (snd (run E C)) = empty_store /\
  trace (snd (run E C)) =
    [MkTemp "/tmp/tmp.cr";
     Stderr "[INFO] Starting code review...";
     Stderr "[INFO] Level: standard | Target: all | Output: text";
     Stderr "Missing dependencies: python3";
     RmTemp "/tmp/tmp.cr"].
Proof.
  intros E C.
  destruct (X6_missing_runtime_stops_the_run E C) as [H1 H2].
  split; [reflexivity|]. split; [apply H1; reflexivity|].
  destruct (H2 eq_refl) as [H3 H4].
  split; [exact H3|]. rewrite H4. reflexivity.
Defined.

(* ====================================================================== *)
(** ** Durations *)
(* ====================================================================== *)

Lemma clamp_duration_spec (start_ts end_ts : Z) :
  (0 <= clamp_duration start_ts end_ts)%Z /\
  ((start_ts <= end_ts)%Z -> clamp_duration start_ts end_ts = (end_ts - start_ts)%Z) /\
  ((end_ts < start_ts)%Z -> clamp_duration start_ts end_ts = 0%Z).
Proof.
  unfold clamp_duration.
  destruct (end_ts - start_ts <? 0)%Z eqn:H;
    [apply Z.ltb_lt in H|apply Z.ltb_ge in H]; repeat split; lia.
Qed.

(** A line of [durations.txt] as [run_check] writes it: the decimal text of
    a number of milliseconds that is not negative. *)
Definition duration_line (d : string) : Prop :=
  exists ms : Z, (0 <= ms)%Z /\ d = dec_Z ms.

Lemma durations_after_check (E : Env) name dir cmd t :
  durations_txt (store_after_check E name dir cmd t) =
  (durations_txt t ++ [duration_of E dir cmd])%list.
Proof.
  unfold store_after_check. destruct (check_failed E dir cmd); reflexivity.
Qed.

Lemma durations_after_plan (E : Env) (C : Config) p s :
  Forall duration_line (durations_txt (store s)) ->
  Forall duration_line (durations_txt (store (after_plan E C p s))).
Proof.
  apply (@after_plan_invariant E C
           (fun s => Forall duration_line (durations_txt (store s)))).
  intros i s0 H. destruct i; cbn [after_instr store instr_store]; auto.
  rewrite durations_after_check. apply Forall_app. split; [exact H|].
  constructor; [|constructor]. unfold duration_of.
  eexists. split; [|reflexivity]. apply clamp_duration_spec.
Qed.

(** X7.  Every duration a run stores is the decimal text of a number of
    milliseconds that is not negative, whatever the two clock readings
    around the command were; [run_check] stores the difference of the
    readings when the clock did not go back, and 0 when it did. *)
Theorem X7_durations_not_negative (E : Env) (C : Config) :
  Forall duration_line (durations_txt (store (snd (run E C)))) /\
  forall start_ts end_ts : Z,
    (0 <= clamp_duration start_ts end_ts)%Z /\
    ((start_ts <= end_ts)%Z ->
     clamp_duration start_ts end_ts = (end_ts - start_ts)%Z) /\
    ((end_ts < start_ts)%Z -> clamp_duration start_ts end_ts = 0%Z).
Proof.
  split; [|apply clamp_duration_spec].
  rewrite store_run. destruct (deps_ok E C); [|constructor].
  apply durations_after_plan. rewrite store_after_banner. constructor.
Qed.

Module Examples7.

(** The clock goes back while [black] runs. *)
Definition clock_goes_back : Env :=
  Examples.machine Examples.everything Examples.everything
    Examples.package_with_lint
    (fun argv => match argv with
                 | "black" :: _ =>
                     {| exit_code := 0; combined := ""; stdout_only := "";
                        ts_before := 5000; ts_after := 4000 |}
                 | _ => Examples.passes
                 end)
    Examples.everything.

End Examples7.

Lemma X7_durations_not_negative_witness :
  let E := Examples7.clock_goes_back in
  let C := set_TARGET "backend" (set_LEVEL "quick" (defaults E)) in
  durations_txt (store (snd (run E C))) = ["0"; "12"] /\
  Forall duration_line (durations_txt (store (snd (run E C)))) /\
  ((4000 < 5000)%Z -> clamp_duration 5000 4000 = 0%Z).
Proof.
  intros E C. split; [reflexivity|].
  destruct (X7_durations_not_negative E C) as [H1 H2].
  split; [exact H1|]. apply (H2 5000%Z 4000%Z).
Defined.

(* ====================================================================== *)
(** ** Order of the stored results *)
(* ====================================================================== *)

(** [subseq l1 l2]: [l1] is [l2] with some elements left out. *)
Inductive subseq {A : Type} : list A -> list A -> Prop :=
| subseq_nil : subseq [] []
| subseq_skip x l1 l2 : subseq l1 l2 -> subseq l1 (x :: l2)
| subseq_take x l1 l2 : subseq l1 l2 -> subseq (x :: l1) (x :: l2).

Lemma subseq_nil_l {A} (l : list A) : subseq [] l.
Proof. induction l; [apply subseq_nil|now apply subseq_skip]. Qed.

Lemma subseq_refl {A} (l : list A) : subseq l l.
Proof. induction l; [apply subseq_nil|now apply subseq_take]. Qed.

Lemma subseq_app {A} (a b c d : list A) :
  subseq a b -> subseq c d -> subseq (a ++ c) (b ++ d).
Proof.
  intros H. induction H; intros Hc; cbn [app].
  - exact Hc.
  - apply subseq_skip. auto.
  - apply subseq_take. auto.
Qed.

Lemma subseq_trans {A} (a b c : list A) :
  subseq a b -> subseq b c -> subseq a c.
Proof.
  intros Hab Hbc. revert a Hab.
  induction Hbc; intros a Hab.
  - exact Hab.
  - apply subseq_skip. auto.
  - inversion Hab; subst; [apply subseq_skip|apply subseq_take]; auto.
Qed.

Lemma subseq_In {A} (a b : list A) x : subseq a b -> In x a -> In x b.
Proof.
  intros H. induction H; cbn; intros Hin; auto.
  destruct Hin; auto.
Qed.

Lemma subseq_NoDup {A} (a b : list A) : subseq a b -> NoDup b -> NoDup a.
Proof.
  intros H. induction H; intros Hb; auto.
  - inversion Hb; subst. auto.
  - inversion Hb; subst. constructor; auto.
    intros Hin. eapply subseq_In in Hin; eauto.
Qed.

Lemma subseq_map {A B} (f : A -> B) (a b : list A) :
  subseq a b -> subseq (map f a) (map f b).
Proof.
  intros H. induction H; cbn [map];
    [apply subseq_nil|now apply subseq_skip|now apply subseq_take].
Qed.

Lemma cut_subseq (C : Config) l : subseq (cut C l) l.
Proof.
  unfold cut. destruct (FAIL_FAST C =? "1"); [|apply subseq_refl].
  induction l as [|c l IH]; cbn [up_to_first_failure]; [apply subseq_nil|].
  destruct (snd c); apply subseq_take; [apply subseq_nil_l|exact IH].
Qed.

Lemma tool_check_names (E : Env) (C : Config) tool name args :
  map fst (tool_check E C tool name args) =
  if available E C (Tool tool) then [name] else [].
Proof.
  unfold tool_check. cbn [available].
  now destruct (negb (resolve_tool E tool =? "")).
Qed.

Lemma script_check_names (E : Env) (C : Config) script name cmd :
  map fst (script_check E C script name cmd) =
  if available E C (Script script) then [name] else [].
Proof.
  unfold script_check. cbn [available].
  now destruct (package_has E C script).
Qed.

Lemma subseq_optional {A} (b : bool) (x : A) :
  subseq (if b then [x] else []) [x].
Proof.
  destruct b; [apply subseq_take|apply subseq_skip]; apply subseq_nil.
Qed.

Definition backend_names : list string :=
  ["backend_black"; "backend_isort"; "backend_flake8"; "backend_mypy";
   "backend_pytest"].

Definition frontend_names : list string :=
  ["frontend_eslint"; "frontend_typecheck"; "frontend_jest";
   "frontend_build"].

Lemma backend_checks_subseq (E : Env) (C : Config) :
  subseq (map fst (backend_checks E C)) backend_names.
Proof.
  rewrite backend_checks_gates.
  destruct (negb (is_dir E (BACKEND_PATH C))); [apply subseq_nil_l|].
  rewrite !map_app, !tool_check_names.
  apply (subseq_app (b := ["backend_black"; "backend_isort"])
           (d := ["backend_flake8"; "backend_mypy"; "backend_pytest"])).
  { apply (subseq_app (b := ["backend_black"]) (d := ["backend_isort"]));
      apply subseq_optional. }
  apply (subseq_app (b := ["backend_flake8"; "backend_mypy"])
           (d := ["backend_pytest"])).
  - destruct (level_standard_or_full C); [|apply subseq_nil_l].
    rewrite map_app, !tool_check_names.
    apply (subseq_app (b := ["backend_flake8"]) (d := ["backend_mypy"]));
      apply subseq_optional.
  - destruct (LEVEL C =? "full"); [|apply subseq_nil_l].
    destruct (is_dir E (in_dir (BACKEND_PATH C) "tests"));
      [|apply subseq_nil_l].
    rewrite tool_check_names. apply subseq_optional.
Qed.

Lemma frontend_checks_subseq (E : Env) (C : Config) :
  subseq (map fst (frontend_checks E C)) frontend_names.
Proof.
  unfold frontend_checks.
  destruct (negb (is_dir E (FRONTEND_PATH C))); [apply subseq_nil_l|].
  rewrite !map_app, !script_check_names.
  apply (subseq_app (b := ["frontend_eslint"])
           (d := ["frontend_typecheck"; "frontend_jest"; "frontend_build"]));
    [apply subseq_optional|].
  apply (subseq_app (b := ["frontend_typecheck"])
           (d := ["frontend_jest"; "frontend_build"])).
  - destruct (level_standard_or_full C); [|apply subseq_nil_l].
    rewrite script_check_names. apply subseq_optional.
  - destruct (LEVEL C =? "full"); [|apply subseq_nil_l].
    rewrite map_app, !script_check_names.
    apply (subseq_app (b := ["frontend_jest"]) (d := ["frontend_build"]));
      apply subseq_optional.
Qed.

Lemma main_checks_subseq (E : Env) (C : Config) :
  subseq (map fst (main_checks E C)) (backend_names ++ frontend_names).
Proof.
  unfold main_checks. destruct (TARGET C =? "all").
  { rewrite map_app.
    apply subseq_app; [apply backend_checks_subseq|apply frontend_checks_subseq]. }
  destruct (TARGET C =? "backend").
  { rewrite <- (app_nil_r (map fst (backend_checks E C))).
    apply subseq_app; [apply backend_checks_subseq|apply subseq_nil_l]. }
  destruct (TARGET C =? "frontend"); [|apply subseq_nil_l].
  apply (subseq_app (a := []) (b := backend_names));
    [apply subseq_nil_l|apply frontend_checks_subseq].
Qed.

(** X8.  The names in the result store follow the order of the catalogue
    (backend before frontend, each in the order of its phases), and no name
    is stored twice. *)
Theorem X8_results_in_catalogue_order (E : Env) (C : Config) :
  subseq (names_txt (store (snd (run E C))))
         (map (fun entry => fst (fst entry)) catalogue) /\
  NoDup (names_txt (store (snd (run E C)))).
Proof.
  assert (H : subseq (names_txt (store (snd (run E C))))
                (backend_names ++ frontend_names)).
  { rewrite names_run. unfold run_checks.
    destruct (deps_ok E C); [|apply subseq_nil_l].
    apply subseq_trans with (b := map fst (main_checks E C)).
    - apply subseq_map, cut_subseq.
    - apply main_checks_subseq. }
  split; [exact H|].
  apply (subseq_NoDup H). cbn.
  repeat (constructor; [cbn; intuition discriminate|]). constructor.
Qed.

(* ====================================================================== *)
(** ** What a run without fail-fast executes *)
(* ====================================================================== *)

(** Whether a check of the catalogue is due in a run: its sub-project is
    targeted and its directory exists, the level selects it, what it needs
    is there, and for the unit tests the backend has a [tests] directory. *)
Definition due (E : Env) (C : Config)
  (entry : string * string * requirement) : bool :=
  let '(name, gate, r) := entry in
  match r with
  | Tool _ => targets_backend C && is_dir E (BACKEND_PATH C)
  | Script _ => targets_frontend C && is_dir E (FRONTEND_PATH C)
  end &&
  level_selects (LEVEL C) gate && available E C r &&
  (if name =? "backend_pytest" then is_dir E (in_dir (BACKEND_PATH C) "tests")
   else true).

Definition backend_catalogue : list (string * string * requirement) :=
  firstn 5 catalogue.

Definition frontend_catalogue : list (string * string * requirement) :=
  skipn 5 catalogue.

Definition entry_name (entry : string * string * requirement) : string :=
  fst (fst entry).

Lemma backend_checks_due (E : Env) (C : Config) :
  targets_backend C = true ->
  map fst (backend_checks E C) =
  map entry_name (filter (due E C) backend_catalogue).
Proof.
  intros Ht. rewrite backend_checks_gates.
  unfold backend_catalogue, catalogue, due. cbn [firstn filter].
  rewrite Ht. unfold level_selects, level_standard_or_full.
  cbn [String.eqb Ascii.eqb Bool.eqb andb].
  destruct (is_dir E (BACKEND_PATH C)); cbn [negb andb map]; [|reflexivity].
  rewrite !map_app, !tool_check_names.
  destruct ((LEVEL C =? "standard") || (LEVEL C =? "full")),
    (LEVEL C =? "full"),
    (is_dir E (in_dir (BACKEND_PATH C) "tests"));
    cbn [andb]; rewrite ?map_app, ?tool_check_names;
    destruct (available E C (Tool "black")),
      (available E C (Tool "isort")),
      (available E C (Tool "flake8")),
      (available E C (Tool "mypy")),
      (available E C (Tool "pytest")); reflexivity.
Qed.

Lemma frontend_checks_due (E : Env) (C : Config) :
  targets_frontend C = true ->
  map fst (frontend_checks E C) =
  map entry_name (filter (due E C) frontend_catalogue).
Proof.
  intros Ht. unfold frontend_checks.
  unfold frontend_catalogue, catalogue, due. cbn [skipn filter].
  rewrite Ht. unfold level_selects, level_standard_or_full.
  cbn [String.eqb Ascii.eqb Bool.eqb andb].
  destruct (is_dir E (FRONTEND_PATH C)); cbn [negb andb map]; [|reflexivity].
  rewrite !map_app, !script_check_names.
  destruct ((LEVEL C =? "standard") || (LEVEL C =? "full")),
    (LEVEL C =? "full");
    cbn [andb]; rewrite ?map_app, ?script_check_names;
    destruct (available E C (Script "lint")),
      (available E C (Script "type-check")),
      (available E C (Script "test")),
      (available E C (Script "build")); reflexivity.
Qed.

Lemma not_due_backend (E : Env) (C : Config) :
  targets_backend C = false -> filter (due E C) backend_catalogue = [].
Proof.
  intros Ht. unfold backend_catalogue, catalogue, due. cbn [firstn filter].
  rewrite Ht. reflexivity.
Qed.

Lemma not_due_frontend (E : Env) (C : Config) :
  targets_frontend C = false -> filter (due E C) frontend_catalogue = [].
Proof.
  intros Ht. unfold frontend_catalogue, catalogue, due. cbn [skipn filter].
  rewrite Ht. reflexivity.
Qed.

Lemma main_checks_due (E : Env) (C : Config) :
  map fst (main_checks E C) = map entry_name (filter (due E C) catalogue).
Proof.
  change catalogue with (backend_catalogue ++ frontend_catalogue)%list.
  rewrite filter_app, map_app. unfold main_checks.
  destruct (TARGET C =? "all") eqn:Ha.
  { rewrite map_app, backend_checks_due, frontend_checks_due;
      unfold targets_backend, targets_frontend; now rewrite ?Ha. }
  destruct (TARGET C =? "backend") eqn:Hb.
  { rewrite backend_checks_due, not_due_frontend.
    - now rewrite app_nil_r.
    - unfold targets_frontend. rewrite Ha. cbn [orb].
      apply String.eqb_eq in Hb. rewrite Hb. reflexivity.
    - unfold targets_backend. now rewrite Ha, Hb. }
  destruct (TARGET C =? "frontend") eqn:Hf.
  { rewrite frontend_checks_due, not_due_backend.
    - reflexivity.
    - unfold targets_backend. now rewrite Ha, Hb.
    - unfold targets_frontend. now rewrite Ha, Hf. }
  rewrite not_due_backend, not_due_frontend; try reflexivity;
    unfold targets_backend, targets_frontend; now rewrite Ha, ?Hb, ?Hf.
Qed.

(** X9.  Without fail-fast, a run whose runtimes are present executes
    exactly the checks of the catalogue that are [due], in the order of the
    catalogue: those whose sub-project is targeted and has its directory,
    whose level is selected, whose tool is installed or whose script is
    named in [package.json] and, for [backend_pytest], only when the
    backend has a [tests] directory.  A failed check never keeps a later
    one from running. *)
Theorem X9_all_due_checks_run (E : Env) (C : Config) :
  FAIL_FAST C <> "1" ->
  deps_ok E C = true ->
  names_txt (store (snd (run E C))) =
    map entry_name (filter (due E C) catalogue) /\
  stopped_early E C = false.
Proof.
  intros Hff Hd. apply String.eqb_neq in Hff. split.
  - rewrite names_run. unfold run_checks, cut. rewrite Hd, Hff.
    apply main_checks_due.
  - unfold stopped_early. generalize (PWD E).
    induction (main_plan E C) as [|i p IH]; intros dir; [reflexivity|].
    cbn [plan_exits]. rewrite IH.
    destruct i; cbn [instr_exits]; rewrite ?Hff, ?andb_false_r; reflexivity.
Qed.

Lemma X9_all_due_checks_run_witness :
  let E := Examples.black_fails in
  let C := set_LEVEL "full" (defaults E) in
  FAIL_FAST C <> "1" /\
  deps_ok E C = true /\
  hd_error (statuses_txt (store (snd (run E C)))) = Some "failed" /\
  names_txt (store (snd (run E C))) =
    ["backend_black"; "backend_isort"; "backend_flake8"; "backend_mypy";
     "backend_pytest"; "frontend_eslint"] /\
  names_txt (store (snd (run E C))) =
    map entry_name (filter (due E C) catalogue).
Proof.
  intros E C. split; [discriminate|]. split; [reflexivity|].
  split; [reflexivity|]. split; [reflexivity|].
  apply (X9_all_due_checks_run E C); [discriminate|reflexivity].
Defined.

(* ====================================================================== *)
(** ** Fail-fast in general *)
(* ====================================================================== *)

Lemma up_to_first_failure_shape (l : list (string * bool)) :
  failed_count (map (fun c => status_of (snd c)) (up_to_first_failure l)) <= 1 /\
  forall i, i + 1 < length (up_to_first_failure l) ->
    nth i (map (fun c => status_of (snd c)) (up_to_first_failure l)) "" =
    "passed".
Proof.
  induction l as [|[name failed] l [IH1 IH2]]; cbn [up_to_first_failure snd].
  - split; [cbn; lia|]. cbn. intros i Hi. lia.
  - destruct failed; cbn [map snd status_of length nth].
    + split; [cbn; lia|]. intros i Hi. lia.
    + split.
      * unfold failed_count in *. cbn [count_occ].
        destruct (string_dec "passed" "failed"); [discriminate|exact IH1].
      * intros [|i] Hi; [reflexivity|]. apply IH2. lia.
Qed.

(** X10.  With fail-fast, only the last stored result can be [failed]:
    every result before the last is [passed], and the error counter never
    exceeds 1. *)
Theorem X10_fail_fast_stops_at_first_failure (E : Env) (C : Config) :
  FAIL_FAST C = "1" ->
  TOTAL_ERRORS (store (snd (run E C))) <= 1 /\
  forall i, i + 1 < length (statuses_txt (store (snd (run E C)))) ->
    nth i (statuses_txt (store (snd (run E C)))) "" = "passed".
Proof.
  intros Hff. destruct (store_ok_run E C) as [_ _ _ _ _ He].
  rewrite He, statuses_run. unfold run_checks, cut. rewrite Hff.
  cbn [String.eqb Ascii.eqb Bool.eqb].
  destruct (deps_ok E C).
  - destruct (up_to_first_failure_shape (main_checks E C)) as [H1 H2].
    split; [exact H1|]. intros i Hi. apply H2.
    now rewrite length_map in Hi.
  - split; [cbn; lia|]. cbn. intros i Hi. lia.
Qed.

Module Examples10b.

(** [black] passes, [isort] reports a violation. *)
Definition isort_fails : Env :=
  Examples.machine Examples.everything Examples.everything
    Examples.package_with_lint
    (fun argv => match argv with
                 | "isort" :: _ => Examples.fails_with ["ERROR: imports"]
                 | _ => Examples.passes
                 end)
    Examples.everything.

End Examples10b.

Lemma X10_fail_fast_stops_at_first_failure_witness :
  let E := Examples10b.isort_fails in
  let C := set_FAIL_FAST "1" (set_LEVEL "full" (defaults E)) in
  FAIL_FAST C = "1" /\
  statuses_txt (store (snd (run E C))) = ["passed"; "failed"] /\
  TOTAL_ERRORS (store (snd (run E C))) <= 1 /\
  (0 + 1 < length (statuses_txt (store (snd (run E C)))) ->
   nth 0 (statuses_txt (store (snd (run E C)))) "" = "passed").
Proof.
  intros E C. split; [reflexivity|]. split; [reflexivity|].
  destruct (X10_fail_fast_stops_at_first_failure E C) as [H1 H2];
    [reflexivity|].
  split; [exact H1|]. apply (H2 0).
Defined.

(* ====================================================================== *)
(** ** What a run prints, and where *)
(* ====================================================================== *)

Definition is_report (e : event) : bool :=
  match e with
  | Stdout _ | FileWrite _ _ | FileWriteFailed _ => true
  | _ => false
  end.

(** What reaches standard output: the lines the script writes there and
    the output of the commands that keep it. *)
Definition is_stdout (e : event) : bool :=
  match e with
  | Stdout _ => true
  | StdoutBytes _ => true
  | _ => false
  end.

(** The output of a command on standard output. *)
Definition is_stdout_bytes (e : event) : bool :=
  match e with
  | StdoutBytes _ => true
  | _ => false
  end.

(** What a command that keeps the standard output of the script writes
    there. *)
Definition output_of (E : Env) (e : event) : event :=
  match e with
  | Spawn dir cmd None => StdoutBytes (stdout_only (exec E dir cmd))
  | _ => e
  end.

Lemma no_report_on_stderr null lines :
  filter is_report (on_stderr null lines) = [].
Proof.
  unfold on_stderr. destruct null; [reflexivity|].
  induction lines; cbn; auto.
Qed.

Lemma no_report_verbose_dump (E : Env) (C : Config) null dir cmd :
  filter is_report (verbose_dump E C null dir cmd) = [].
Proof.
  unfold verbose_dump, bytes_on_stderr.
  destruct ((VERBOSE C =? "1") && (OUTPUT C =? "text")), null; reflexivity.
Qed.

Lemma report_events_report (E : Env) (C : Config) null ee t :
  filter is_report (report_events E C null ee t) = [report_event E C t].
Proof.
  unfold report_events, report_event.
  destruct (negb (OUTPUT_FILE C =? "")); [|reflexivity].
  destruct (writable E (OUTPUT_FILE C)); cbn [filter is_report];
    rewrite ?filter_app, ?no_report_on_stderr; [reflexivity|].
  destruct ee; [reflexivity|]. now rewrite no_report_on_stderr.
Qed.

Lemma instr_events_report (E : Env) (C : Config) null dir t i :
  filter is_report (instr_events E C null dir t i) =
  if instr_exits E C dir i then [report_event E C (instr_store E dir t i)]
  else [].
Proof.
  destruct i as [qu name description cmd|d|msg|msg|msg|];
    cbn [instr_events instr_exits instr_store];
    try apply no_report_on_stderr; try reflexivity.
  unfold check_events.
  rewrite filter_app, no_report_on_stderr. cbn [app filter is_report].
  destruct (check_failed E dir cmd); cbn [andb];
    [|apply no_report_on_stderr].
  rewrite !filter_app, no_report_on_stderr, no_report_verbose_dump.
  cbn [app].
  destruct (FAIL_FAST C =? "1"); [apply report_events_report|reflexivity].
Qed.

Lemma after_plan_report (E : Env) (C : Config) p s :
  filter is_report (trace (after_plan E C p s)) =
  (filter is_report (trace s) ++
   if plan_exits E C (cwd s) p
   then [report_event E C (store (after_plan E C p s))] else [])%list.
Proof.
  revert s. induction p as [|i p IH]; intros s; cbn [after_plan plan_exits].
  - now rewrite app_nil_r.
  - destruct (instr_exits E C (cwd s) i) eqn:Hx; cbn [orb].
    + cbn [after_instr trace store].
      now rewrite filter_app, instr_events_report, Hx.
    + rewrite IH. cbn [after_instr trace cwd].
      now rewrite filter_app, instr_events_report, Hx, app_nil_r.
Qed.

(** A run whose runtimes are present, cut where [output_results] starts. *)
Lemma run_ends_with_report (E : Env) (C : Config) :
  deps_ok E C = true ->
  exists before null ee,
    trace (snd (run E C)) =
      (before ++
       report_events E C null ee (store (snd (run E C))) ++
       [RmTemp (TEMP_DIR E)])%list /\
    (before ++ report_events E C null ee (store (snd (run E C))))%list =
      (if stopped_early E C then trace (checked_state E C)
       else (trace (checked_state E C) ++
             report_events E C null ee (store (snd (run E C))))%list) /\
    filter is_report before = [].
Proof.
  intros Hd. rewrite run_eq, Hd.
  assert (Hb : filter is_report (trace (after_banner E C (initial (PWD E))))
               = []).
  { rewrite after_banner_eq. cbn [emit trace initial app filter is_report].
    apply no_report_on_stderr. }
  pose proof (after_plan_report E C (main_plan E C)
                (after_banner E C (initial (PWD E)))) as Hp.
  rewrite cwd_after_banner, Hb in Hp. cbn [initial cwd app] in Hp.
  fold (checked_state E C) in Hp. fold (stopped_early E C) in Hp.
  destruct (stopped_early E C) eqn:Hs; cbn [snd emit trace store].
  - destruct (plan_exits_report_last E C (main_plan E C)
                (after_banner E C (initial (PWD E)))) as (b & n & Ht).
    { now rewrite cwd_after_banner. }
    fold (checked_state E C) in Ht.
    exists b, n, true. unfold cleanup_events. rewrite Ht.
    split; [now rewrite <- app_assoc|]. split; [reflexivity|].
    rewrite Ht, filter_app, report_events_report in Hp.
    destruct (filter is_report b); [reflexivity|].
    apply (f_equal (@length event)) in Hp.
    rewrite length_app in Hp. cbn [length] in Hp. lia.
  - exists (trace (checked_state E C)), (stderr_null (checked_state E C)),
      (errexit (checked_state E C)).
    unfold cleanup_events. split; [now rewrite <- app_assoc|].
    split; [reflexivity|exact Hp].
Qed.

Lemma no_bytes_on_stderr null lines :
  filter is_stdout (on_stderr null lines) = [].
Proof.
  unfold on_stderr. destruct null; [reflexivity|].
  induction lines; cbn; auto.
Qed.

Lemma report_events_stdout (E : Env) (C : Config) null ee t :
  filter is_stdout (report_events E C null ee t) =
  if OUTPUT_FILE C =? "" then [Stdout (render E C t)] else [].
Proof.
  unfold report_events.
  destruct (OUTPUT_FILE C =? ""); cbn [negb]; [reflexivity|].
  destruct (writable E (OUTPUT_FILE C)); cbn [filter is_stdout];
    rewrite ?filter_app, ?no_bytes_on_stderr; [reflexivity|].
  destruct ee; [reflexivity|]. now rewrite no_bytes_on_stderr.
Qed.

(** Before the report, standard output has the output of [npm install]
    only. *)
Lemma stdout_before_report (E : Env) (l : list event) :
  filter is_report l = [] ->
  filter is_stdout l = filter is_stdout_bytes l.
Proof.
  induction l as [|e l IH]; [reflexivity|]. cbn [filter].
  destruct e; cbn [is_report is_stdout is_stdout_bytes];
    try discriminate; intros H; rewrite ?IH by exact H; reflexivity.
Qed.

Lemma uncaptured_on_stderr null lines :
  filter is_uncaptured (on_stderr null lines) = [].
Proof.
  unfold on_stderr. destruct null; [reflexivity|].
  induction lines; cbn; auto.
Qed.

Lemma stdout_bytes_on_stderr null lines :
  filter is_stdout_bytes (on_stderr null lines) = [].
Proof.
  unfold on_stderr. destruct null; [reflexivity|].
  induction lines; cbn; auto.
Qed.

Lemma uncaptured_report (E : Env) (C : Config) null ee t :
  filter is_uncaptured (report_events E C null ee t) = [].
Proof.
  unfold report_events.
  destruct (negb (OUTPUT_FILE C =? "")); [|reflexivity].
  destruct (writable E (OUTPUT_FILE C)); cbn [filter is_uncaptured];
    rewrite ?filter_app, ?uncaptured_on_stderr; [reflexivity|].
  destruct ee; [reflexivity|apply uncaptured_on_stderr].
Qed.

Lemma stdout_bytes_report (E : Env) (C : Config) null ee t :
  filter is_stdout_bytes (report_events E C null ee t) = [].
Proof.
  unfold report_events.
  destruct (negb (OUTPUT_FILE C =? "")); [|reflexivity].
  destruct (writable E (OUTPUT_FILE C)); cbn [filter is_stdout_bytes];
    rewrite ?filter_app, ?stdout_bytes_on_stderr; [reflexivity|].
  destruct ee; [reflexivity|apply stdout_bytes_on_stderr].
Qed.

(** Every command that keeps the standard output of the script is followed
    by what it writes there, and nothing else is written there by a
    command. *)
Definition bytes_ok (E : Env) (tr : list event) : Prop :=
  filter is_stdout_bytes tr = map (output_of E) (filter is_uncaptured tr).

Lemma bytes_ok_app (E : Env) (a b : list event) :
  bytes_ok E a -> bytes_ok E b -> bytes_ok E (a ++ b).
Proof.
  unfold bytes_ok. intros Ha Hb. now rewrite !filter_app, map_app, Ha, Hb.
Qed.

Lemma bytes_ok_on_stderr (E : Env) null lines :
  bytes_ok E (on_stderr null lines).
Proof.
  unfold bytes_ok.
  now rewrite stdout_bytes_on_stderr, uncaptured_on_stderr.
Qed.

Lemma bytes_ok_report (E : Env) (C : Config) null ee t :
  bytes_ok E (report_events E C null ee t).
Proof.
  unfold bytes_ok. now rewrite stdout_bytes_report, uncaptured_report.
Qed.

Lemma bytes_ok_instr_events (E : Env) (C : Config) null dir t i :
  bytes_ok E (instr_events E C null dir t i).
Proof.
  destruct i as [qu name description cmd|d|msg|msg|msg|];
    cbn [instr_events]; try apply bytes_ok_on_stderr; try reflexivity.
  unfold check_events. apply bytes_ok_app; [apply bytes_ok_on_stderr|].
  change (bytes_ok E
            ([Spawn dir cmd (Some (output_path E (CHECK_COUNT t)))] ++
             (if check_failed E dir cmd
              then
               on_stderr (qu || null)
                 (text_only C
                    [tagged E C (RED (palette E C)) "[FAIL]" description]) ++
               verbose_dump E C (qu || null) dir cmd ++
               (if FAIL_FAST C =? "1"
                then
                 report_events E C (qu || null) true
                   (store_after_check E name dir cmd t)
                else [])
              else
               on_stderr (qu || null)
                 (text_only C
                    [tagged E C (GREEN (palette E C)) "[PASS]" description])))).
  apply bytes_ok_app; [reflexivity|].
  destruct (check_failed E dir cmd); [|apply bytes_ok_on_stderr].
  apply bytes_ok_app; [apply bytes_ok_on_stderr|].
  apply bytes_ok_app.
  - unfold verbose_dump, bytes_on_stderr.
    destruct ((VERBOSE C =? "1") && (OUTPUT C =? "text")), (qu || null);
      reflexivity.
  - destruct (FAIL_FAST C =? "1"); [apply bytes_ok_report|reflexivity].
Qed.

Lemma bytes_ok_checked_state (E : Env) (C : Config) :
  bytes_ok E (trace (checked_state E C)).
Proof.
  unfold checked_state.
  apply (@after_plan_invariant E C (fun s => bytes_ok E (trace s))).
  - intros i s H. cbn [after_instr trace].
    apply bytes_ok_app; [exact H|apply bytes_ok_instr_events].
  - rewrite after_banner_eq. cbn [emit trace initial app].
    apply (@bytes_ok_app E [MkTemp (TEMP_DIR E)]); [reflexivity|].
    apply bytes_ok_on_stderr.
Qed.

(** X11.  A run whose runtimes are present renders its report exactly
    once, from the store as it is when the script stops: at the end of
    [main], or inside [run_check] when fail-fast stops the script, never
    both.  Standard output carries, in this order, what the commands that
    keep it ([npm install]) have written, and then the report; when the
    report goes to [OUTPUT_FILE], it carries the former only. *)
Theorem X11_one_report (E : Env) (C : Config) :
  deps_ok E C = true ->
  filter is_report (trace (snd (run E C))) =
    [report_event E C (store (snd (run E C)))] /\
  filter is_stdout (trace (snd (run E C))) =
    (map (output_of E) (filter is_uncaptured (trace (snd (run E C)))) ++
     (if OUTPUT_FILE C =? "" then [Stdout (render E C (store (snd (run E C))))]
      else []))%list.
Proof.
  intros Hd.
  destruct (run_ends_with_report E C Hd) as (b & n & ee & Ht & Hc & Hb).
  assert (Hok : bytes_ok E (b ++ report_events E C n ee
                                   (store (snd (run E C))))%list).
  { rewrite Hc. destruct (stopped_early E C).
    - apply bytes_ok_checked_state.
    - apply bytes_ok_app; [apply bytes_ok_checked_state|].
      apply bytes_ok_report. }
  unfold bytes_ok in Hok.
  rewrite !filter_app, stdout_bytes_report, uncaptured_report, !app_nil_r
    in Hok.
  rewrite Ht, !filter_app, report_events_report, report_events_stdout,
    uncaptured_report, Hb, (stdout_before_report E b Hb), Hok.
  cbn [filter is_report is_stdout is_uncaptured app].
  rewrite !app_nil_r. split; reflexivity.
Qed.

Module Examples11.

(** A frontend without [node_modules]; [npm install] writes a line on
    standard output in spite of [--silent]. *)
Definition noisy_install : Env :=
  Examples.machine Examples.everything
    (fun d => negb (d =? "/repo/frontend/node_modules"))
    Examples.package_with_lint
    (fun argv => match argv with
                 | ["npm"; "install"; "--silent"] =>
                     {| exit_code := 0; combined := "";
                        stdout_only := "> esbuild postinstall" ++ nl;
                        ts_before := 1000; ts_after := 9000 |}
                 | _ => Examples.passes
                 end)
    Examples.everything.

End Examples11.

Lemma X11_one_report_witness :
  let E := Examples11.noisy_install in
  let C := set_TARGET "frontend" (set_OUTPUT "json" (defaults E)) in
  deps_ok E C = true /\
  fst (run E C) = 0%Z /\
  filter is_stdout (trace (snd (run E C))) =
    [StdoutBytes ("> esbuild postinstall" ++ nl);
     Stdout (render E C (store (snd (run E C))))].
Proof.
  intros E C. split; [reflexivity|]. split; [reflexivity|].
  destruct (X11_one_report E C) as [_ H]; [reflexivity|].
  rewrite H. vm_compute. reflexivity.
Defined.






(* ====================================================================== *)
(** ** The three reports agree *)
(* ====================================================================== *)

(** The loops of [output_text] and [output_json] count alike. *)
Lemma text_rows_json_loop (E : Env) (C : Config) t names i passed failed :
  let '(rows, p, f) := text_rows E C t names i passed failed in
  length rows = length names /\
  p = json_passed (json_loop E t names i passed failed) /\
  f = json_failed (json_loop E t names i passed failed).
Proof.
  revert i passed failed.
  induction names as [|name names IH]; intros i passed failed;
    cbn [text_rows json_loop json_passed json_failed length].
  - auto.
  - destruct (sed_n_p i (statuses_txt t) =? "passed").
    + specialize (IH (i + 1) (passed + 1) failed).
      destruct (text_rows E C t names (i + 1) (passed + 1) failed)
        as [[rows p] f].
      cbn [length]. destruct IH as (H1 & H2 & H3). auto.
    + specialize (IH (i + 1) passed (failed + 1)).
      destruct (text_rows E C t names (i + 1) passed (failed + 1))
        as [[rows p] f].
      cbn [length]. destruct IH as (H1 & H2 & H3). auto.
Qed.

(** X13.  The three reports of a run agree on their counts, on the store
    of any run.  The text report starts with its heading, one row for each
    stored result and the line [Results: P passed, F failed]; the JSON
    report prints [P + F], [P] and [F] as [total], [passed] and [failed];
    the JUnit report prints [P + F] as [tests] and [F] as [failures], in
    both of its opening elements.  [P + F] is [CHECK_COUNT] and [F] is
    [TOTAL_ERRORS]. *)
Theorem X13_reports_agree_on_counts (E : Env) (C : Config) :
  let t := store (snd (run E C)) in
  exists rows passed failed rest,
    output_text E C t =
      unlines
        ([""; "=========================================="; "CODE REVIEW SUMMARY";
          "=========================================="; "";
          ("Level:    " ++ LEVEL C)%string; ("Target:   " ++ TARGET C)%string;
          ("Time:     " ++ iso_timestamp E)%string; ""] ++
         rows ++
         [""; "------------------------------------------";
          ("Results: " ++ dec_nat passed ++ " passed, " ++ dec_nat failed ++
           " failed")%string;
          "------------------------------------------"])%list ++ rest /\
    length rows = passed + failed /\
    passed + failed = CHECK_COUNT t /\
    failed = TOTAL_ERRORS t /\
    nth 6 (output_json E C t) "" =
      "    " ++ q "total" ++ ": " ++ dec_nat (passed + failed) ++ "," /\
    nth 7 (output_json E C t) "" =
      "    " ++ q "passed" ++ ": " ++ dec_nat passed ++ "," /\
    nth 8 (output_json E C t) "" =
      "    " ++ q "failed" ++ ": " ++ dec_nat failed /\
    nth 1 (output_junit E t) "" =
      "<testsuites name=" ++ q "Code Review" ++
      " tests=" ++ q (dec_nat (passed + failed)) ++
      " failures=" ++ q (dec_nat failed) ++ " time=" ++ q "0" ++ ">" /\
    nth 2 (output_junit E t) "" =
      "  <testsuite name=" ++ q "code-review" ++
      " tests=" ++ q (dec_nat (passed + failed)) ++
      " failures=" ++ q (dec_nat failed) ++ " timestamp=" ++
      q (iso_timestamp E) ++ ">".
Proof.
  cbv zeta. destruct (store_ok_run E C) as [Hc Hs _ _ Hv He].
  pose proof (text_rows_json_loop E C (store (snd (run E C)))
                (names_txt (store (snd (run E C)))) 1 0 0) as H.
  unfold output_text, text_summary, output_json, output_json_summary,
    output_junit.
  cbn [nth summary_total summary_passed summary_failed app].
  destruct (text_rows E C (store (snd (run E C)))
              (names_txt (store (snd (run E C)))) 1 0 0) as [[rows p] f].
  destruct H as (H1 & H2 & H3).
  destruct (json_loop_counts E (store (snd (run E C)))
              (names_txt (store (snd (run E C)))) 1 0 0) as [Hsum _].
  destruct (json_counters E C) as [Hp Hf]. cbv zeta in Hp, Hf.
  assert (Hpf : p + f = CHECK_COUNT (store (snd (run E C)))) by lia.
  assert (Hfe : f = TOTAL_ERRORS (store (snd (run E C)))).
  { rewrite H3, Hf, He. reflexivity. }
  exists rows, p, f. eexists.
  split; [reflexivity|]. rewrite <- H2, <- H3, Hpf, <- Hfe.
  repeat split; try reflexivity; lia.
Qed.

(* ====================================================================== *)
(** ** Elements of the JUnit report *)
(* ====================================================================== *)

Definition is_testcase_line (line : string) : bool :=
  String.prefix "    <testcase " line.

Definition is_failure_line (line : string) : bool :=
  String.prefix "      <failure " line.

Lemma length_filter_concat_map {A B} (P : B -> bool) (g : A -> list B)
  (l : list A) :
  length (filter P (concat (map g l))) =
  list_sum (map (fun x => length (filter P (g x))) l).
Proof.
  unfold list_sum. induction l as [|x l IH]; [reflexivity|].
  cbn [map concat fold_right]. now rewrite filter_app, length_app, IH.
Qed.

Lemma list_sum_indicator {A} (P : A -> bool) (l : list A) :
  list_sum (map (fun x => if P x then 1 else 0) l) = length (filter P l).
Proof.
  unfold list_sum. induction l as [|x l IH]; [reflexivity|].
  cbn [map fold_right filter]. rewrite IH.
  destruct (P x); cbn [length]; lia.
Qed.

Lemma list_sum_ones {A} (l : list A) :
  list_sum (map (fun _ => 1) l) = length l.
Proof.
  unfold list_sum. induction l as [|x l IH]; [reflexivity|].
  cbn [map fold_right length]. now rewrite IH.
Qed.

Lemma filter_seq_nth (P : string -> bool) (l : list string) (k : nat) :
  length (filter (fun i => P (nth (i - k) l "")) (seq k (length l))) =
  length (filter P l).
Proof.
  revert k. induction l as [|x l IH]; intros k; [reflexivity|].
  assert (Hrest : length (filter (fun i => P (nth (i - k) (x :: l) ""))
                            (seq (S k) (length l))) =
                  length (filter P l)).
  { rewrite <- (IH (S k)). f_equal. apply filter_ext_in.
    intros i Hi. apply in_seq in Hi.
    replace (i - k) with (S (i - S k)) by lia. reflexivity. }
  change (seq k (length (x :: l))) with (k :: seq (S k) (length l)).
  change (filter P (x :: l)) with (if P x then x :: filter P l else filter P l).
  change (filter (fun i => P (nth (i - k) (x :: l) ""))
            (k :: seq (S k) (length l)))
    with (if P (nth (k - k) (x :: l) "")
          then k :: filter (fun i => P (nth (i - k) (x :: l) ""))
                      (seq (S k) (length l))
          else filter (fun i => P (nth (i - k) (x :: l) ""))
                 (seq (S k) (length l))).
  rewrite Nat.sub_diag. change (nth 0 (x :: l) "") with x.
  destruct (P x); cbn [length]; now rewrite Hrest.
Qed.

Lemma failed_count_eqb (l : list string) :
  length (filter (fun st => st =? "failed") l) = failed_count l.
Proof.
  unfold failed_count. induction l as [|x l IH]; [reflexivity|].
  cbn [filter count_occ]. destruct (string_dec x "failed") as [->|Hn].
  - cbn. now rewrite IH.
  - apply String.eqb_neq in Hn. now rewrite Hn.
Qed.

(** The elements the loop of [output_junit] prints. *)
Lemma junit_loop_elements (E : Env) (C : Config) :
  let t := store (snd (run E C)) in
  length (filter is_testcase_line (junit_loop E t (names_txt t) 1)) =
    CHECK_COUNT t /\
  length (filter is_failure_line (junit_loop E t (names_txt t) 1)) =
    TOTAL_ERRORS t.
Proof.
  cbv zeta. destruct (files_ok_run E C) as [[Hc Hs _ _ _ He] Hrec].
  rewrite (junit_loop_seq E (store (snd (run E C))) _ 0).
  rewrite !length_filter_concat_map.
  assert (Hcase : forall i, In i (seq 0 (length (names_txt (store (snd (run E C)))))) ->
            length (filter is_testcase_line
                      (junit_testcase E (store (snd (run E C))) (0 + i + 1)
                         (nth i (names_txt (store (snd (run E C)))) ""))) = 1 /\
            length (filter is_failure_line
                      (junit_testcase E (store (snd (run E C))) (0 + i + 1)
                         (nth i (names_txt (store (snd (run E C)))) ""))) =
            if nth (i - 0) (statuses_txt (store (snd (run E C)))) "" =? "failed"
            then 1 else 0).
  { intros i Hi. apply in_seq in Hi.
    destruct (Hrec i ltac:(lia)) as (dir & cmd & Hr).
    cbn [Nat.add]. rewrite (junit_testcase_recorded _ Hr).
    destruct Hr as (_ & _ & Hst & _). rewrite Nat.sub_0_r, Hst.
    destruct (check_failed E dir cmd); split; reflexivity. }
  split.
  - rewrite (map_ext_in _ (fun _ => 1)); [|intros i Hi; apply Hcase, Hi].
    rewrite list_sum_ones, length_seq. now rewrite Hc.
  - rewrite (map_ext_in _
               (fun i => if nth (i - 0) (statuses_txt (store (snd (run E C)))) ""
                            =? "failed" then 1 else 0));
      [|intros i Hi; apply Hcase, Hi].
    rewrite list_sum_indicator, <- Hs.
    rewrite (filter_seq_nth (fun st => st =? "failed")), failed_count_eqb.
    now rewrite He.
Qed.

(** X14.  The JUnit report of a run is a declaration, the two opening
    elements with their [tests] and [failures] attributes, the elements of
    the loop and the two closing elements.  It has as many [testcase]
    elements as both [tests] attributes say and as many [failure] elements
    as both [failures] attributes say. *)
Theorem X14_junit_attributes_match_elements (E : Env) (C : Config) :
  let t := store (snd (run E C)) in
  exists tests failures body,
    output_junit E t =
      (["<?xml version=" ++ q "1.0" ++ " encoding=" ++ q "UTF-8" ++ "?>";
        "<testsuites name=" ++ q "Code Review" ++
        " tests=" ++ q (dec_nat tests) ++
        " failures=" ++ q (dec_nat failures) ++ " time=" ++ q "0" ++ ">";
        "  <testsuite name=" ++ q "code-review" ++
        " tests=" ++ q (dec_nat tests) ++
        " failures=" ++ q (dec_nat failures) ++ " timestamp=" ++
        q (iso_timestamp E) ++ ">"]%string ++
       body ++ ["  </testsuite>"; "</testsuites>"])%list /\
    length (filter is_testcase_line (output_junit E t)) = tests /\
    length (filter is_failure_line (output_junit E t)) = failures /\
    (OUTPUT C = "junit" ->
     render E C t = cmd_subst (unlines (output_junit E t))).
Proof.
  cbv zeta. destruct (junit_loop_elements E C) as [Hc Hf]. cbv zeta in Hc, Hf.
  exists (CHECK_COUNT (store (snd (run E C)))),
    (TOTAL_ERRORS (store (snd (run E C)))),
    (junit_loop E (store (snd (run E C)))
       (names_txt (store (snd (run E C)))) 1).
  split; [reflexivity|]. unfold output_junit.
  split; [|split].
  - rewrite !filter_app, !length_app, Hc.
    transitivity (0 + (CHECK_COUNT (store (snd (run E C))) + 0));
      [reflexivity|lia].
  - rewrite !filter_app, !length_app, Hf.
    transitivity (0 + (TOTAL_ERRORS (store (snd (run E C))) + 0));
      [reflexivity|lia].
  - intros Ho. unfold render. rewrite Ho. reflexivity.
Qed.

Lemma X14_junit_attributes_match_elements_witness :
  let E := Examples.black_fails in
  let C := set_OUTPUT "junit" (defaults E) in
  let t := store (snd (run E C)) in
  OUTPUT C = "junit" /\
  length (filter is_testcase_line (output_junit E t)) = 5 /\
  length (filter is_failure_line (output_junit E t)) = 1 /\
  exists tests failures body,
    output_junit E t =
      (["<?xml version=" ++ q "1.0" ++ " encoding=" ++ q "UTF-8" ++ "?>";
        "<testsuites name=" ++ q "Code Review" ++
        " tests=" ++ q (dec_nat tests) ++
        " failures=" ++ q (dec_nat failures) ++ " time=" ++ q "0" ++ ">";
        "  <testsuite name=" ++ q "code-review" ++
        " tests=" ++ q (dec_nat tests) ++
        " failures=" ++ q (dec_nat failures) ++ " timestamp=" ++
        q (iso_timestamp E) ++ ">"]%string ++
       body ++ ["  </testsuite>"; "</testsuites>"])%list /\
    length (filter is_testcase_line (output_junit E t)) = tests /\
    length (filter is_failure_line (output_junit E t)) = failures /\
    (OUTPUT C = "junit" ->
     render E C t = cmd_subst (unlines (output_junit E t))).
Proof.
  intros E C t. split; [reflexivity|]. split; [reflexivity|].
  split; [reflexivity|].
  apply (X14_junit_attributes_match_elements E C).
Defined.

(* ====================================================================== *)
(** ** Entries of the JSON report *)
(* ====================================================================== *)



Module Examples15.


End Examples15.


(* ====================================================================== *)
(** ** The target is respected *)
(* ====================================================================== *)

Definition no_install (i : instr) : bool :=
  match i with
  | INpmInstall => false
  | _ => true
  end.

Lemma uncaptured_instr_events (E : Env) (C : Config) null dir t i :
  no_install i = true ->
  filter is_uncaptured (instr_events E C null dir t i) = [].
Proof.
  destruct i as [qu name description cmd|d|msg|msg|msg|];
    cbn [instr_events no_install]; intros H;
    try apply uncaptured_on_stderr; try reflexivity; try discriminate.
  unfold check_events.
  rewrite filter_app, uncaptured_on_stderr. cbn [app filter is_uncaptured].
  destruct (check_failed E dir cmd); [|apply uncaptured_on_stderr].
  rewrite !filter_app, !uncaptured_on_stderr. cbn [app].
  assert (Hv : filter is_uncaptured (verbose_dump E C (qu || null) dir cmd)
               = []).
  { unfold verbose_dump, bytes_on_stderr.
    destruct ((VERBOSE C =? "1") && (OUTPUT C =? "text")), (qu || null);
      reflexivity. }
  rewrite Hv. cbn [app].
  destruct (FAIL_FAST C =? "1"); [apply uncaptured_report|reflexivity].
Qed.

Lemma uncaptured_after_plan (E : Env) (C : Config) p s :
  forallb no_install p = true ->
  filter is_uncaptured (trace (after_plan E C p s)) =
  filter is_uncaptured (trace s).
Proof.
  revert s. induction p as [|i p IH]; intros s Hp; [reflexivity|].
  cbn [forallb] in Hp. apply andb_prop in Hp as [Hi Hp].
  cbn [after_plan].
  assert (Hstep : filter is_uncaptured (trace (after_instr E C i s)) =
                  filter is_uncaptured (trace s)).
  { cbn [after_instr trace].
    now rewrite filter_app, uncaptured_instr_events, app_nil_r. }
  destruct (instr_exits E C (cwd s) i); [exact Hstep|].
  now rewrite IH.
Qed.

Lemma backend_plan_no_install (E : Env) (C : Config) :
  forallb no_install (backend_plan E C) = true.
Proof.
  unfold backend_plan, backend_slot.
  destruct (negb (is_dir E (BACKEND_PATH C))); [reflexivity|].
  rewrite !forallb_app.
  destruct (negb (resolve_tool E "black" =? "")),
    (negb (resolve_tool E "isort" =? "")),
    (level_standard_or_full C), (LEVEL C =? "full"),
    (is_dir E (in_dir (BACKEND_PATH C) "tests"));
    rewrite ?forallb_app;
    destruct (negb (resolve_tool E "flake8" =? "")),
      (negb (resolve_tool E "mypy" =? "")),
      (negb (resolve_tool E "pytest" =? "")); reflexivity.
Qed.

(** X16.  With the target [backend] the script stores backend results only
    and never runs [npm install]; with the target [frontend] it stores
    frontend results only. *)
Theorem X16_target_respected (E : Env) (C : Config) :
  (TARGET C = "backend" ->
   subseq (names_txt (store (snd (run E C)))) backend_names /\
   filter is_uncaptured (trace (snd (run E C))) = []) /\
  (TARGET C = "frontend" ->
   subseq (names_txt (store (snd (run E C)))) frontend_names).
Proof.
  split; intros Ht.
  - split.
    + rewrite names_run. unfold run_checks.
      destruct (deps_ok E C); [|apply subseq_nil_l].
      apply subseq_trans with (b := map fst (main_checks E C));
        [apply subseq_map, cut_subseq|].
      unfold main_checks. rewrite Ht. apply backend_checks_subseq.
    + rewrite run_eq.
      assert (Hc : filter is_uncaptured (trace (checked_state E C)) = []).
      { unfold checked_state, main_plan. rewrite Ht.
        change (("backend" =? "all")) with false.
        change (("backend" =? "backend")) with true. cbv iota.
        rewrite uncaptured_after_plan by apply backend_plan_no_install.
        rewrite after_banner_eq.
        cbn [emit trace initial app filter is_uncaptured].
        apply uncaptured_on_stderr. }
      destruct (deps_ok E C).
      * destruct (stopped_early E C); cbn [snd emit trace];
          rewrite !filter_app, Hc, ?uncaptured_report; reflexivity.
      * cbn [snd emit trace]. rewrite after_banner_eq.
        cbn [emit trace initial app stderr_null filter is_uncaptured].
        now rewrite !filter_app, uncaptured_on_stderr.
  - rewrite names_run. unfold run_checks.
    destruct (deps_ok E C); [|apply subseq_nil_l].
    apply subseq_trans with (b := map fst (main_checks E C));
      [apply subseq_map, cut_subseq|].
    unfold main_checks. rewrite Ht. apply frontend_checks_subseq.
Qed.

Lemma X16_target_respected_witness :
  let E := Examples10.fresh_checkout in
  let C := set_TARGET "backend" (defaults E) in
  TARGET C = "backend" /\
  is_dir E (in_dir (FRONTEND_PATH C) "node_modules") = false /\
  subseq (names_txt (store (snd (run E C)))) backend_names /\
  filter is_uncaptured (trace (snd (run E C))) = [].
Proof.
  intros E C. split; [reflexivity|]. split; [reflexivity|].
  apply (X16_target_respected E C). reflexivity.
Defined.

(* ====================================================================== *)
(** ** The body of a failure element *)
(* ====================================================================== *)

Fixpoint occurs (c : ascii) (s : string) : bool :=
  match s with
  | EmptyString => false
  | String d r => Ascii.eqb c d || occurs c r
  end.

Lemma occurs_app c a b : occurs c (a ++ b) = occurs c a || occurs c b.
Proof.
  induction a as [|d a IH]; [reflexivity|].
  cbn [append occurs]. now rewrite IH, orb_assoc.
Qed.

(** The characters that must not reach an XML document unescaped. *)
Definition markup (c : ascii) : Prop :=
  c = "<"%char \/ c = ">"%char \/ c = "034"%char.

Lemma occurs_xml_entity c d : markup c -> occurs c (xml_entity d) = false.
Proof.
  intros Hc. unfold xml_entity.
  destruct (Ascii.eqb d "&") eqn:H1;
    [destruct Hc as [->|[->| ->]]; reflexivity|].
  destruct (Ascii.eqb d "<") eqn:H2;
    [destruct Hc as [->|[->| ->]]; reflexivity|].
  destruct (Ascii.eqb d ">") eqn:H3;
    [destruct Hc as [->|[->| ->]]; reflexivity|].
  destruct (Ascii.eqb d "034") eqn:H4;
    [destruct Hc as [->|[->| ->]]; reflexivity|].
  cbn [occurs]. rewrite orb_false_r, Ascii.eqb_sym.
  destruct Hc as [->|[->| ->]]; assumption.
Qed.

Lemma occurs_xml_escape c s : markup c -> occurs c (xml_escape s) = false.
Proof.
  intros Hc. induction s as [|d s IH]; [reflexivity|].
  cbn [xml_escape]. now rewrite occurs_app, occurs_xml_entity, IH.
Qed.

Lemma occurs_unlines c lines :
  markup c ->
  Forall (fun line => occurs c line = false) lines ->
  occurs c (unlines lines) = false.
Proof.
  intros Hc H. unfold unlines.
  induction H as [|line lines Hl _ IH]; [reflexivity|].
  cbn [map String.concat]. destruct (map (fun x => x ++ nl) lines) eqn:Hm.
  - rewrite occurs_app, Hl. destruct Hc as [->|[->| ->]]; reflexivity.
  - rewrite <- Hm in *. cbn [append] in *.
    rewrite occurs_app, occurs_app, Hl, IH.
    destruct Hc as [->|[->| ->]]; reflexivity.
Qed.

Lemma occurs_strip c s :
  occurs c s = false -> occurs c (strip_trailing_newlines s) = false.
Proof.
  induction s as [|d s IH]; [reflexivity|].
  cbn [strip_trailing_newlines occurs only_newlines].
  intros H. apply orb_false_elim in H as [H1 H2].
  destruct (Ascii.eqb d "010" && only_newlines s); [reflexivity|].
  cbn [occurs]. now rewrite H1, IH.
Qed.

(** X17.  The body of a [failure] element holds none of the characters
    [<], [>] and the double quote, whatever the failed command printed: the
    text between [<![CDATA[] and []]>] cannot end the section early. *)
Theorem X17_failure_body_has_no_markup (text : list string) (c : ascii) :
  markup c -> occurs c (junit_failure_body text) = false.
Proof.
  intros Hc. unfold junit_failure_body, cmd_subst.
  apply occurs_strip, occurs_unlines; [exact Hc|].
  apply Forall_forall. intros line Hin.
  apply in_map_iff in Hin as (raw & <- & _).
  rewrite sed_xml_escape_spec. now apply occurs_xml_escape.
Qed.

Lemma X17_failure_body_has_no_markup_witness :
  markup ">"%char /\
  junit_failure_body ["a ]]> b"; "<x y=" ++ dq ++ "1" ++ dq ++ ">"] =
    "a ]]&gt; b" ++ nl ++ "&lt;x y=&quot;1&quot;&gt;" /\
  occurs ">"%char
    (junit_failure_body ["a ]]> b"; "<x y=" ++ dq ++ "1" ++ dq ++ ">"]) = false.
Proof.
  split; [right; left; reflexivity|]. split; [reflexivity|].
  apply (X17_failure_body_has_no_markup
           ["a ]]> b"; "<x y=" ++ dq ++ "1" ++ dq ++ ">"] (c := ">"%char)).
  right. left. reflexivity.
Defined.

(* ====================================================================== *)
(** ** The failure blocks of the text report *)
(* ====================================================================== *)






Module Examples18.


End Examples18.


(* ====================================================================== *)
(** ** Presentation options do not change the results *)
(* ====================================================================== *)

(** Two configurations that select the same checks: they may differ in
    the output format, the output file, verbosity and colors. *)
Definition same_checks (C C' : Config) : Prop :=
  LEVEL C' = LEVEL C /\ TARGET C' = TARGET C /\
  FAIL_FAST C' = FAIL_FAST C /\
  BACKEND_PATH C' = BACKEND_PATH C /\ FRONTEND_PATH C' = FRONTEND_PATH C.

Lemma main_plan_same_checks (E : Env) (C C' : Config) :
  same_checks C C' -> main_plan E C' = main_plan E C.
Proof.
  intros (Hl & Ht & _ & Hb & Hf).
  destruct C, C'. cbn in Hl, Ht, Hb, Hf. subst. reflexivity.
Qed.

Lemma after_plan_store_same_checks (E : Env) (C C' : Config) p :
  FAIL_FAST C' = FAIL_FAST C ->
  forall s s', store s = store s' -> cwd s = cwd s' ->
    store (after_plan E C' p s) = store (after_plan E C p s').
Proof.
  intros Hff.
  assert (Hx : forall dir i, instr_exits E C' dir i = instr_exits E C dir i).
  { intros dir i. destruct i; cbn [instr_exits]; now rewrite ?Hff. }
  induction p as [|i p IH]; intros s s' Hs Hc; cbn [after_plan]; [exact Hs|].
  rewrite Hx, Hc. destruct (instr_exits E C (cwd s') i).
  - cbn [after_instr store]. now rewrite Hs, Hc.
  - apply IH; cbn [after_instr store cwd]; now rewrite ?Hs, Hc.
Qed.

(** X19.  Which results a run stores (names, statuses, durations, captured
    output, counters) depends on the level, the target, fail-fast and the
    two project paths only: the output format, the output file, verbosity
    and colors change the presentation, never the results. *)
Theorem X19_presentation_does_not_change_results (E : Env) (C C' : Config) :
  same_checks C C' ->
  store (snd (run E C')) = store (snd (run E C)).
Proof.
  intros H. rewrite !store_run.
  assert (Hd : deps_ok E C' = deps_ok E C).
  { destruct H as (_ & Ht & _). unfold deps_ok, missing_dependencies,
      targets_backend, targets_frontend. now rewrite Ht. }
  rewrite Hd. destruct (deps_ok E C); [|reflexivity].
  unfold checked_state. rewrite (main_plan_same_checks E H).
  apply after_plan_store_same_checks.
  - apply H.
  - now rewrite !store_after_banner.
  - now rewrite !cwd_after_banner.
Qed.

Lemma X19_presentation_does_not_change_results_witness :
  let E := Examples.black_fails in
  let C := defaults E in
  let C' := set_OUTPUT_FILE "/srv/report.xml"
              (set_VERBOSE "1" (set_NO_COLOR "1" (set_OUTPUT "junit" C))) in
  same_checks C C' /\
  store (snd (run E C')) = store (snd (run E C)).
Proof.
  intros E C C'. split; [repeat split|].
  apply (X19_presentation_does_not_change_results E (C := C) (C' := C')).
  repeat split.
Defined.

(* ====================================================================== *)
(** ** Exit statuses *)
(* ====================================================================== *)

Lemma parse_loop_left_status_gen (n : nat) :
  forall args c st ev,
    length args <= n ->
    parse_loop args c = Left st ev ->
    st = 0%Z \/ st = 2%Z \/ st = nounset_status.
Proof.
  induction n as [|n IH]; intros args c st ev Hlen H.
  - destruct args; [discriminate H|cbn in Hlen; lia].
  - destruct args as [|a rest]; [discriminate H|].
    cbn [parse_loop] in H. cbn [length] in Hlen.
    assert (Hvalue : forall f : string -> Config -> Config,
               match rest with
               | v :: rest' => parse_loop rest' (f v c)
               | [] => Left nounset_status [Stderr "$2: unbound variable"]
               end = Left st ev ->
               st = 0%Z \/ st = 2%Z \/ st = nounset_status).
    { intros f Hf. destruct rest as [|v rest'].
      - injection Hf as <- _. auto.
      - apply (IH rest' (f v c) st ev); [cbn [length] in Hlen; lia|exact Hf]. }
    destruct ((a =? "-l") || (a =? "--level")); [now apply (Hvalue set_LEVEL)|].
    destruct ((a =? "-o") || (a =? "--output")); [now apply (Hvalue set_OUTPUT)|].
    destruct ((a =? "-t") || (a =? "--target")); [now apply (Hvalue set_TARGET)|].
    destruct ((a =? "-f") || (a =? "--file"));
      [now apply (Hvalue set_OUTPUT_FILE)|].
    destruct (a =? "--fail-fast"); [eapply IH; [|exact H]; lia|].
    destruct (a =? "--no-color"); [eapply IH; [|exact H]; lia|].
    destruct ((a =? "-v") || (a =? "--verbose"));
      [eapply IH; [|exact H]; lia|].
    destruct ((a =? "-h") || (a =? "--help")); injection H as <- _; auto.
Qed.

(** X20.  Whatever the command line and the machine, the script leaves
    with status 0, 1, 2 or 3.  After [parse_args] has accepted the command
    line, status 2 is no longer possible. *)
Theorem X20_exit_statuses (E : Env) (args : list string) :
  (fst (main E args) = 0%Z \/ fst (main E args) = 1%Z \/
   fst (main E args) = 2%Z \/ fst (main E args) = 3%Z) /\
  forall C, parse_args args (defaults E) = Parsed C ->
    fst (main E args) = 0%Z \/ fst (main E args) = 1%Z \/
    fst (main E args) = 3%Z.
Proof.
  assert (Hrun : forall C, fst (run E C) = 0%Z \/ fst (run E C) = 1%Z \/
                           fst (run E C) = 3%Z).
  { intros C. rewrite run_eq. destruct (deps_ok E C); [|auto].
    destruct (stopped_early E C); [auto|]. cbn [fst].
    destruct (write_fails E C && errexit (checked_state E C)); [auto|].
    destruct (0 <? TOTAL_ERRORS (store (checked_state E C)))%nat; auto. }
  split.
  - unfold main. destruct (parse_args args (defaults E)) as [C|st ev] eqn:Hp.
    + destruct (Hrun C) as [H|[H|H]]; auto.
    + cbn [fst]. unfold parse_args in Hp.
      destruct (parse_loop args (defaults E)) as [c|st' ev'] eqn:Hl.
      * unfold validate in Hp.
        destruct (negb (level_ok (LEVEL c))); [injection Hp as <- _; auto|].
        destruct (negb (output_ok (OUTPUT c))); [injection Hp as <- _; auto|].
        destruct (negb (target_ok (TARGET c))); [injection Hp as <- _; auto|].
        discriminate Hp.
      * injection Hp as <- _.
        destruct (@parse_loop_left_status_gen (length args) args (defaults E)
                    st' ev' (Nat.le_refl _) Hl)
          as [->|[->| ->]]; auto.
  - intros C Hp. unfold main. rewrite Hp. apply Hrun.
Qed.

Lemma X20_exit_statuses_witness :
  parse_args ["-t"; "backend"] (defaults Examples.black_fails) =
    Parsed (set_TARGET "backend" (defaults Examples.black_fails)) /\
  (fst (main Examples.black_fails ["-t"; "backend"]) = 0%Z \/
   fst (main Examples.black_fails ["-t"; "backend"]) = 1%Z \/
   fst (main Examples.black_fails ["-t"; "backend"]) = 3%Z).
Proof.
  split; [reflexivity|].
  apply (proj2 (X20_exit_statuses Examples.black_fails ["-t"; "backend"])
           (set_TARGET "backend" (defaults Examples.black_fails))).
  reflexivity.
Defined.

(* ====================================================================== *)
(** ** One capture file per check *)
(* ====================================================================== *)

Definition capture_of (e : event) : list string :=
  match e with
  | Spawn _ _ (Some f) => [f]
  | _ => []
  end.

Lemma captures_on_stderr null lines :
  flat_map capture_of (on_stderr null lines) = [].
Proof.
  unfold on_stderr. destruct null; [reflexivity|].
  induction lines; cbn; auto.
Qed.

Lemma captures_report (E : Env) (C : Config) null ee t :
  flat_map capture_of (report_events E C null ee t) = [].
Proof.
  unfold report_events.
  destruct (negb (OUTPUT_FILE C =? "")); [|reflexivity].
  destruct (writable E (OUTPUT_FILE C)); cbn [flat_map capture_of app];
    rewrite ?flat_map_app, ?captures_on_stderr; [reflexivity|].
  destruct ee; [reflexivity|apply captures_on_stderr].
Qed.

Lemma captures_instr_events (E : Env) (C : Config) null dir t i :
  flat_map capture_of (instr_events E C null dir t i) =
  match i with
  | IRun _ _ _ _ => [output_path E (CHECK_COUNT t)]
  | _ => []
  end.
Proof.
  destruct i as [qu name description cmd|d|msg|msg|msg|];
    cbn [instr_events]; try apply captures_on_stderr; try reflexivity.
  unfold check_events.
  rewrite flat_map_app, captures_on_stderr. cbn [app flat_map capture_of].
  f_equal.
  destruct (check_failed E dir cmd); [|apply captures_on_stderr].
  rewrite !flat_map_app, !captures_on_stderr. cbn [app].
  assert (Hv : flat_map capture_of (verbose_dump E C (qu || null) dir cmd)
               = []).
  { unfold verbose_dump, bytes_on_stderr.
    destruct ((VERBOSE C =? "1") && (OUTPUT C =? "text")), (qu || null);
      reflexivity. }
  rewrite Hv. cbn [app].
  destruct (FAIL_FAST C =? "1"); [apply captures_report|reflexivity].
Qed.

Definition captures_ok (E : Env) (s : RunState) : Prop :=
  flat_map capture_of (trace s) =
  map (output_path E) (seq 0 (CHECK_COUNT (store s))).

Lemma captures_ok_after_instr (E : Env) (C : Config) i s :
  captures_ok E s -> captures_ok E (after_instr E C i s).
Proof.
  unfold captures_ok. intros H. cbn [after_instr trace store].
  rewrite flat_map_app, H, captures_instr_events.
  destruct i; cbn [instr_store]; rewrite ?app_nil_r; try reflexivity.
  rewrite count_after_check, seq_app, map_app. reflexivity.
Qed.

Lemma NoDup_map_injective (A B : Type) (f : A -> B) (l : list A) :
  (forall a b, f a = f b -> a = b) -> NoDup l -> NoDup (map f l).
Proof.
  intros Hf. induction 1 as [|a l Hn _ IH]; cbn [map]; constructor; auto.
  rewrite in_map_iff. intros (b & Hb & Hin). apply Hf in Hb. now subst.
Qed.

(** X21.  The checks of a run capture their output in [output_0.txt],
    [output_1.txt], ... of the scratch directory, in the order they run:
    no two checks share a file, so no captured output is overwritten. *)
Theorem X21_one_capture_file_per_check (E : Env) (C : Config) :
  flat_map capture_of (trace (snd (run E C))) =
    map (output_path E) (seq 0 (CHECK_COUNT (store (snd (run E C))))) /\
  NoDup (flat_map capture_of (trace (snd (run E C)))).
Proof.
  assert (H : captures_ok E (snd (run E C))).
  { rewrite run_eq.
    assert (Hb : captures_ok E (after_banner E C (initial (PWD E)))).
    { rewrite after_banner_eq. unfold captures_ok.
      cbn [emit trace store initial app flat_map capture_of].
      apply captures_on_stderr. }
    assert (Hc : captures_ok E (checked_state E C)).
    { apply (@after_plan_invariant E C (captures_ok E));
        [apply captures_ok_after_instr|exact Hb]. }
    destruct (deps_ok E C).
    - destruct (stopped_early E C); cbn [snd]; unfold captures_ok in *;
        cbn [emit trace store];
        rewrite !flat_map_app, Hc, ?captures_report; cbn [flat_map capture_of];
        now rewrite ?app_nil_r.
    - cbn [snd]. unfold captures_ok in *. cbn [emit trace store].
      rewrite !flat_map_app, Hb. cbn [flat_map capture_of].
      now rewrite ?app_nil_r. }
  split; [exact H|]. unfold captures_ok in H. rewrite H.
  apply NoDup_map_injective; [|apply seq_NoDup].
  intros a b. apply output_path_inj.
Qed.

(* ====================================================================== *)
(** ** Looking for a script in package.json *)
(* ====================================================================== *)

Lemma prefix_iff (p s : string) :
  String.prefix p s = true <-> exists post, s = p ++ post.
Proof.
  revert s. induction p as [|c p IH]; intros s.
  - split; [intros _; now exists s|intros _; now destruct s].
  - destruct s as [|d s]; cbn [String.prefix append].
    + split; [discriminate|intros [post H]; discriminate H].
    + destruct (ascii_dec c d) as [->|Hn].
      * rewrite IH. split; intros [post H]; exists post; congruence.
      * split; [discriminate|intros [post H]; congruence].
Qed.

Lemma contains_iff (pat s : string) :
  contains pat s = true <-> exists pre post, s = pre ++ pat ++ post.
Proof.
  induction s as [|d s IH]; cbn [contains].
  - rewrite orb_false_r, prefix_iff. split.
    + intros [post H]. exists "", post. exact H.
    + intros (pre & post & H). destruct pre; [now exists post|discriminate H].
  - rewrite orb_true_iff, prefix_iff, IH. split.
    + intros [[post H]|(pre & post & H)].
      * exists "", post. exact H.
      * exists (String d pre), post. cbn [append]. now rewrite H.
    + intros (pre & post & H). destruct pre as [|e pre].
      * left. now exists post.
      * right. cbn [append] in H. injection H as _ H. now exists pre, post.
Qed.

(** X22.  A frontend script counts as declared exactly when some line of
    [package.json] contains its name between double quotes, wherever that
    is on the line: the probe is a text search, not a reading of the
    [scripts] object. *)
Theorem X22_script_probe_is_text_search (E : Env) (C : Config)
  (script : string) :
  package_has E C script = true <->
  exists text line before after,
    read_file E (in_dir (FRONTEND_PATH C) "package.json") = Some text /\
    In line text /\
    line = before ++ (dq ++ script ++ dq) ++ after.
Proof.
  unfold package_has, package_json, grep_q, q.
  destruct (read_file E (in_dir (FRONTEND_PATH C) "package.json")) as [text|].
  - rewrite existsb_exists. split.
    + intros (line & Hin & Hc). apply contains_iff in Hc as (b & a & H).
      now exists text, line, b, a.
    + intros (text' & line & b & a & Ht & Hin & H). injection Ht as <-.
      exists line. split; [exact Hin|]. apply contains_iff. now exists b, a.
  - split; [discriminate|]. intros (text & _ & _ & _ & H & _). discriminate H.
Qed.

Module Examples22.

(** A [package.json] that names ["build"] as a dependency, not as a
    script. *)
Definition build_is_a_dependency : Env :=
  Examples.machine Examples.everything Examples.everything
    (Some ["{"; "  " ++ dq ++ "dependencies" ++ dq ++ ": {";
           "    " ++ dq ++ "build" ++ dq ++ ": " ++ dq ++ "^1.0.0" ++ dq;
           "  }"; "}"])
    (fun _ => Examples.passes) Examples.everything.

End Examples22.

Lemma X22_script_probe_is_text_search_witness :
  let E := Examples22.build_is_a_dependency in
  let C := set_TARGET "frontend" (set_LEVEL "full" (defaults E)) in
  package_has E C "build" = true /\
  names_txt (store (snd (run E C))) = ["frontend_build"] /\
  exists text line before after,
    read_file E (in_dir (FRONTEND_PATH C) "package.json") = Some text /\
    In line text /\
    line = before ++ (dq ++ "build" ++ dq) ++ after.
Proof.
  intros E C. split; [reflexivity|]. split; [reflexivity|].
  apply (X22_script_probe_is_text_search E C "build"). reflexivity.
Defined.

(* ====================================================================== *)
(** ** The scratch directory *)
(* ====================================================================== *)

Definition is_temp (e : event) : bool :=
  match e with
  | MkTemp _ => true
  | RmTemp _ => true
  | _ => false
  end.

Lemma no_temp_on_stderr null lines :
  filter is_temp (on_stderr null lines) = [].
Proof.
  unfold on_stderr. destruct null; [reflexivity|].
  induction lines; cbn; auto.
Qed.

Lemma no_temp_report (E : Env) (C : Config) null ee t :
  filter is_temp (report_events E C null ee t) = [].
Proof.
  unfold report_events.
  destruct (negb (OUTPUT_FILE C =? "")); [|reflexivity].
  destruct (writable E (OUTPUT_FILE C)); cbn [filter is_temp];
    rewrite ?filter_app, ?no_temp_on_stderr; [reflexivity|].
  destruct ee; [reflexivity|apply no_temp_on_stderr].
Qed.

Lemma no_temp_instr_events (E : Env) (C : Config) null dir t i :
  filter is_temp (instr_events E C null dir t i) = [].
Proof.
  destruct i as [qu name description cmd|d|msg|msg|msg|];
    cbn [instr_events]; try apply no_temp_on_stderr; try reflexivity.
  unfold check_events.
  rewrite filter_app, no_temp_on_stderr. cbn [app filter is_temp].
  destruct (check_failed E dir cmd); [|apply no_temp_on_stderr].
  rewrite !filter_app, !no_temp_on_stderr. cbn [app].
  assert (Hv : filter is_temp (verbose_dump E C (qu || null) dir cmd) = []).
  { unfold verbose_dump, bytes_on_stderr.
    destruct ((VERBOSE C =? "1") && (OUTPUT C =? "text")), (qu || null);
      reflexivity. }
  rewrite Hv. cbn [app].
  destruct (FAIL_FAST C =? "1"); [apply no_temp_report|reflexivity].
Qed.

Lemma no_temp_after_plan (E : Env) (C : Config) p s :
  filter is_temp (trace (after_plan E C p s)) = filter is_temp (trace s).
Proof.
  apply (@after_plan_invariant E C
           (fun s' => filter is_temp (trace s') = filter is_temp (trace s)));
    [|reflexivity].
  intros i s0 H. cbn [after_instr trace].
  now rewrite filter_app, no_temp_instr_events, app_nil_r.
Qed.

Lemma no_temp_parse_loop (n : nat) :
  forall args c st ev,
    length args <= n ->
    parse_loop args c = Left st ev -> filter is_temp ev = [].
Proof.
  induction n as [|n IH]; intros args c st ev Hlen H.
  - destruct args; [discriminate H|cbn in Hlen; lia].
  - destruct args as [|a rest]; [discriminate H|].
    cbn [parse_loop] in H. cbn [length] in Hlen.
    assert (Hvalue : forall f : string -> Config -> Config,
               match rest with
               | v :: rest' => parse_loop rest' (f v c)
               | [] => Left nounset_status [Stderr "$2: unbound variable"]
               end = Left st ev -> filter is_temp ev = []).
    { intros f Hf. destruct rest as [|v rest'].
      - injection Hf as _ <-. reflexivity.
      - apply (IH rest' (f v c) st ev); [cbn [length] in Hlen; lia|exact Hf]. }
    destruct ((a =? "-l") || (a =? "--level")); [now apply (Hvalue set_LEVEL)|].
    destruct ((a =? "-o") || (a =? "--output")); [now apply (Hvalue set_OUTPUT)|].
    destruct ((a =? "-t") || (a =? "--target")); [now apply (Hvalue set_TARGET)|].
    destruct ((a =? "-f") || (a =? "--file"));
      [now apply (Hvalue set_OUTPUT_FILE)|].
    destruct (a =? "--fail-fast"); [eapply IH; [|exact H]; lia|].
    destruct (a =? "--no-color"); [eapply IH; [|exact H]; lia|].
    destruct ((a =? "-v") || (a =? "--verbose"));
      [eapply IH; [|exact H]; lia|].
    destruct ((a =? "-h") || (a =? "--help")); injection H as _ <-;
      reflexivity.
Qed.

(** X23.  A script that [parse_args] stops has not created the scratch
    directory.  A script that gets past [parse_args] creates it before
    anything else and removes it as the last thing it does, whatever stops
    it: the end of [main], a missing runtime, fail-fast or a report that
    cannot be written.  It creates and removes nothing else of the kind. *)
Theorem X23_scratch_directory (E : Env) (args : list string) :
  (forall st ev,
     parse_args args (defaults E) = Left st ev ->
     filter is_temp (trace (snd (main E args))) = []) /\
  (forall C,
     parse_args args (defaults E) = Parsed C ->
     exists between,
       trace (snd (main E args)) =
         (MkTemp (TEMP_DIR E) :: between ++ [RmTemp (TEMP_DIR E)])%list /\
       filter is_temp between = []).
Proof.
  split.
  - intros st ev Hp. unfold main. rewrite Hp.
    cbn [snd emit trace initial app].
    unfold parse_args in Hp.
    destruct (parse_loop args (defaults E)) as [c|st' ev'] eqn:Hl.
    + unfold validate in Hp.
      destruct (negb (level_ok (LEVEL c))); [injection Hp as _ <-; reflexivity|].
      destruct (negb (output_ok (OUTPUT c))); [injection Hp as _ <-; reflexivity|].
      destruct (negb (target_ok (TARGET c))); [injection Hp as _ <-; reflexivity|].
      discriminate Hp.
    + injection Hp as _ <-.
      apply (@no_temp_parse_loop (length args) args (defaults E) st' ev');
        [lia|exact Hl].
  - intros C Hp. unfold main. rewrite Hp, run_eq.
    assert (Hb : trace (after_banner E C (initial (PWD E))) =
                 MkTemp (TEMP_DIR E) :: on_stderr false (banner E C)).
    { rewrite after_banner_eq. reflexivity. }
    destruct (trace_after_plan_grows E C (main_plan E C)
                (after_banner E C (initial (PWD E)))) as [added Ha].
    fold (checked_state E C) in Ha.
    pose proof (no_temp_after_plan E C (main_plan E C)
                  (after_banner E C (initial (PWD E)))) as Hn.
    fold (checked_state E C) in Hn. rewrite Ha, Hb in Hn.
    cbn [app filter is_temp] in Hn.
    rewrite filter_app, no_temp_on_stderr in Hn. cbn [app] in Hn.
    assert (Hadd : filter is_temp added = []).
    { destruct (filter is_temp added); [reflexivity|].
      apply (f_equal (@length event)) in Hn. cbn [length] in Hn. lia. }
    unfold cleanup_events.
    destruct (deps_ok E C); [destruct (stopped_early E C)|];
      cbn [snd emit trace]; rewrite ?Ha, Hb; cbn [app].
    + exists (on_stderr false (banner E C) ++ added)%list.
      split; [reflexivity|].
      now rewrite filter_app, no_temp_on_stderr, Hadd.
    + exists ((on_stderr false (banner E C) ++ added) ++
              report_events E C (stderr_null (checked_state E C))
                (errexit (checked_state E C)) (store (checked_state E C)))%list.
      split; [reflexivity|].
      now rewrite !filter_app, no_temp_on_stderr, Hadd, no_temp_report.
    + exists (on_stderr false (banner E C) ++
              [Stderr ("Missing dependencies:" ++ missing_dependencies E C)])%list.
      split; [reflexivity|].
      now rewrite filter_app, no_temp_on_stderr.
Qed.

Lemma X23_scratch_directory_witness :
  let E := Examples9.read_only in
  let args := ["--fail-fast"; "-f"; "/srv/report.txt"] in
  let C := set_OUTPUT_FILE "/srv/report.txt" (set_FAIL_FAST "1" (defaults E)) in
  parse_args args (defaults E) = Parsed C /\
  fst (main E args) = 1%Z /\
  exists between,
    trace (snd (main E args)) =
      (MkTemp (TEMP_DIR E) :: between ++ [RmTemp (TEMP_DIR E)])%list /\
    filter is_temp between = [].
Proof.
  intros E args C. split; [reflexivity|]. split; [reflexivity|].
  apply (proj2 (X23_scratch_directory E args) C). reflexivity.
Defined.
